(** * Pulse cross-exchange monitor: a shallow embedding of [server.py]

    The development follows the source file top to bottom:

    - [Py], [Unicode], [PyStr], [PyFloat], [PyVal], [PyList]: the fragment
      of Python the program relies on (exceptions as a result type,
      decoded JSON values, [float()], [int()], [round()], string methods,
      negative indexing, slices, stable sorting);
    - [Normalizer]: [safe_get], [mid_from_bid_ask], [guess_funding],
      [parse_perp_sections];
    - [Store]: the two ring buffers ([deque(maxlen=...)] inside nested
      [defaultdict]s) and one iteration of [fetch_loop];
    - [Query]: [pick_pair_exchanges] and [api_data].

    Python floats are IEEE binary64 numbers; they are modelled by Rocq's
    primitive floats, which are the same numbers with the same rounding. *)

From Stdlib Require Import ZArith List Bool Ascii String Lia Floats.
From Stdlib Require Import Permutation Sorted.
Import ListNotations.

Set Warnings "-inexact-float,-register-all".
Set Implicit Arguments.

Open Scope Z_scope.
Open Scope list_scope.

(* ================================================================= *)
(** ** Exceptions *)

Module Py.

(** The exception classes the program can meet.  All of them derive from
    [Exception], so both a bare [except:] and [except Exception] catch
    every one of them. *)
Inductive exn : Type :=
| AttributeError | TypeError | ValueError | OverflowError
| ZeroDivisionError | IndexError | KeyError | RequestError.

Inductive result (A : Type) : Type :=
| Ok (a : A)
| Raise (e : exn).

Arguments Ok {A} a.
Arguments Raise {A} e.

Definition bind {A B} (m : result A) (k : A -> result B) : result B :=
  match m with
  | Ok a => k a
  | Raise e => Raise e
  end.

Definition raises {A} (m : result A) : bool :=
  match m with Ok _ => false | Raise _ => true end.

(** [try: m  except: handler] for a handler that cannot fail. *)
Definition try_except {A} (m : result A) (handler : exn -> A) : A :=
  match m with
  | Ok a => a
  | Raise e => handler e
  end.

End Py.

Export Py.

Declare Scope py_scope.
Delimit Scope py_scope with py.
Notation "x <- m ;; k" := (bind m (fun x => k))
  (at level 61, m at next level, right associativity) : py_scope.
Notation "' p <- m ;; k" := (bind m (fun x => let p := x in k))
  (at level 61, p pattern, m at next level, right associativity) : py_scope.
Open Scope py_scope.

(* ================================================================= *)
(** ** Unicode *)

(** A Python [str] is a sequence of code points.  It is modelled by the
    byte string of its UTF-8 encoding (a lone surrogate, which a JSON
    escape can give, is encoded like any other code point of three bytes).
    Comparison, [in], [replace] and [strip] with ASCII arguments act on the
    bytes as they act on the code points; the operations that look at
    characters beyond ASCII ([str.lower], and the digits and blanks
    [float()] and [int()] accept) decode the bytes first.  The tables are
    those of the Unicode character database, version 14.0, which CPython
    3.11 compiles in. *)
Module Unicode.

Definition byte (c : ascii) : Z := Z.of_nat (nat_of_ascii c).
Definition of_byte (b : Z) : ascii := ascii_of_nat (Z.to_nat b).

Definition is_ascii (s : list ascii) : bool :=
  forallb (fun c => byte c <? 128) s.

(** The payload of a continuation byte [10xxxxxx]. *)
Definition cont (c : ascii) : option Z :=
  let b := byte c in
  if (128 <=? b) && (b <? 192) then Some (b - 128) else None.

(** A byte that is not part of a well-formed sequence encodes no
    character of a [str]; it stands for itself, kept apart from every code
    point as the number [0x110000 + b]. *)
Definition escape (b : Z) : Z := 1114112 + b.

(** UTF-8 decoding: shortest forms only, nothing above [0x10FFFF]. *)
Fixpoint decode (s : list ascii) : list Z :=
  match s with
  | [] => []
  | c :: s1 =>
      let b := byte c in
      if b <? 128 then b :: decode s1
      else
        match s1 with
        | c1 :: s2 =>
            match cont c1 with
            | Some x1 =>
                if b <? 224 then
                  if 194 <=? b
                  then ((b - 192) * 64 + x1) :: decode s2
                  else escape b :: decode s1
                else
                  match s2 with
                  | c2 :: s3 =>
                      match cont c2 with
                      | Some x2 =>
                          if b <? 240 then
                            let p := ((b - 224) * 64 + x1) * 64 + x2 in
                            if 2048 <=? p
                            then p :: decode s3
                            else escape b :: decode s1
                          else
                            match s3 with
                            | c3 :: s4 =>
                                match cont c3 with
                                | Some x3 =>
                                    let p :=
                                      (((b - 240) * 64 + x1) * 64 + x2) * 64
                                      + x3 in
                                    if (b <? 245) && (65536 <=? p)
                                       && (p <=? 1114111)
                                    then p :: decode s4
                                    else escape b :: decode s1
                                | None => escape b :: decode s1
                                end
                            | [] => escape b :: decode s1
                            end
                      | None => escape b :: decode s1
                      end
                  | [] => escape b :: decode s1
                  end
            | None => escape b :: decode s1
            end
        | [] => escape b :: decode s1
        end
  end.

(** UTF-8 encoding of one code point. *)
Definition encode (p : Z) : list ascii :=
  if p <? 128 then [of_byte p]
  else if p <? 2048 then
    [of_byte (192 + p / 64); of_byte (128 + p mod 64)]
  else if p <? 65536 then
    [of_byte (224 + p / 4096); of_byte (128 + (p / 64) mod 64);
     of_byte (128 + p mod 64)]
  else if p <? 1114112 then
    [of_byte (240 + p / 262144); of_byte (128 + (p / 4096) mod 64);
     of_byte (128 + (p / 64) mod 64); of_byte (128 + p mod 64)]
  else [of_byte (128 + p mod 128)].

Definition encode_all (s : list Z) : list ascii := flat_map encode s.

(** *** Case *)

(** The simple lower-case mappings: every [stride]-th code point from
    [first] to [last] is mapped [delta] further. *)
Definition lower_runs : list (Z * Z * Z * Z) :=
  [
   (65, 90, 1, 32); (192, 214, 1, 32); (216, 222, 1, 32);
   (256, 302, 2, 1); (306, 310, 2, 1); (313, 327, 2, 1);
   (330, 374, 2, 1); (376, 376, 1, (-121)); (377, 381, 2, 1);
   (385, 385, 1, 210); (386, 388, 2, 1); (390, 390, 1, 206);
   (391, 391, 1, 1); (393, 394, 1, 205); (395, 395, 1, 1);
   (398, 398, 1, 79); (399, 399, 1, 202); (400, 400, 1, 203);
   (401, 401, 1, 1); (403, 403, 1, 205); (404, 404, 1, 207);
   (406, 406, 1, 211); (407, 407, 1, 209); (408, 408, 1, 1);
   (412, 412, 1, 211); (413, 413, 1, 213); (415, 415, 1, 214);
   (416, 420, 2, 1); (422, 422, 1, 218); (423, 423, 1, 1);
   (425, 425, 1, 218); (428, 428, 1, 1); (430, 430, 1, 218);
   (431, 431, 1, 1); (433, 434, 1, 217); (435, 437, 2, 1);
   (439, 439, 1, 219); (440, 440, 1, 1); (444, 444, 1, 1);
   (452, 452, 1, 2); (453, 453, 1, 1); (455, 455, 1, 2);
   (456, 456, 1, 1); (458, 458, 1, 2); (459, 475, 2, 1);
   (478, 494, 2, 1); (497, 497, 1, 2); (498, 500, 2, 1);
   (502, 502, 1, (-97)); (503, 503, 1, (-56)); (504, 542, 2, 1);
   (544, 544, 1, (-130)); (546, 562, 2, 1); (570, 570, 1, 10795);
   (571, 571, 1, 1); (573, 573, 1, (-163)); (574, 574, 1, 10792);
   (577, 577, 1, 1); (579, 579, 1, (-195)); (580, 580, 1, 69);
   (581, 581, 1, 71); (582, 590, 2, 1); (880, 882, 2, 1);
   (886, 886, 1, 1); (895, 895, 1, 116); (902, 902, 1, 38);
   (904, 906, 1, 37); (908, 908, 1, 64); (910, 911, 1, 63);
   (913, 929, 1, 32); (932, 939, 1, 32); (975, 975, 1, 8);
   (984, 1006, 2, 1); (1012, 1012, 1, (-60)); (1015, 1015, 1, 1);
   (1017, 1017, 1, (-7)); (1018, 1018, 1, 1); (1021, 1023, 1, (-130));
   (1024, 1039, 1, 80); (1040, 1071, 1, 32); (1120, 1152, 2, 1);
   (1162, 1214, 2, 1); (1216, 1216, 1, 15); (1217, 1229, 2, 1);
   (1232, 1326, 2, 1); (1329, 1366, 1, 48); (4256, 4293, 1, 7264);
   (4295, 4295, 1, 7264); (4301, 4301, 1, 7264); (5024, 5103, 1, 38864);
   (5104, 5109, 1, 8); (7312, 7354, 1, (-3008)); (7357, 7359, 1, (-3008));
   (7680, 7828, 2, 1); (7838, 7838, 1, (-7615)); (7840, 7934, 2, 1);
   (7944, 7951, 1, (-8)); (7960, 7965, 1, (-8)); (7976, 7983, 1, (-8));
   (7992, 7999, 1, (-8)); (8008, 8013, 1, (-8)); (8025, 8031, 2, (-8));
   (8040, 8047, 1, (-8)); (8072, 8079, 1, (-8)); (8088, 8095, 1, (-8));
   (8104, 8111, 1, (-8)); (8120, 8121, 1, (-8)); (8122, 8123, 1, (-74));
   (8124, 8124, 1, (-9)); (8136, 8139, 1, (-86)); (8140, 8140, 1, (-9));
   (8152, 8153, 1, (-8)); (8154, 8155, 1, (-100)); (8168, 8169, 1, (-8));
   (8170, 8171, 1, (-112)); (8172, 8172, 1, (-7)); (8184, 8185, 1, (-128));
   (8186, 8187, 1, (-126)); (8188, 8188, 1, (-9)); (8486, 8486, 1, (-7517));
   (8490, 8490, 1, (-8383)); (8491, 8491, 1, (-8262)); (8498, 8498, 1, 28);
   (8544, 8559, 1, 16); (8579, 8579, 1, 1); (9398, 9423, 1, 26);
   (11264, 11311, 1, 48); (11360, 11360, 1, 1); (11362, 11362, 1, (-10743));
   (11363, 11363, 1, (-3814)); (11364, 11364, 1, (-10727)); (11367, 11371, 2, 1);
   (11373, 11373, 1, (-10780)); (11374, 11374, 1, (-10749)); (11375, 11375, 1, (-10783));
   (11376, 11376, 1, (-10782)); (11378, 11378, 1, 1); (11381, 11381, 1, 1);
   (11390, 11391, 1, (-10815)); (11392, 11490, 2, 1); (11499, 11501, 2, 1);
   (11506, 11506, 1, 1); (42560, 42604, 2, 1); (42624, 42650, 2, 1);
   (42786, 42798, 2, 1); (42802, 42862, 2, 1); (42873, 42875, 2, 1);
   (42877, 42877, 1, (-35332)); (42878, 42886, 2, 1); (42891, 42891, 1, 1);
   (42893, 42893, 1, (-42280)); (42896, 42898, 2, 1); (42902, 42920, 2, 1);
   (42922, 42922, 1, (-42308)); (42923, 42923, 1, (-42319)); (42924, 42924, 1, (-42315));
   (42925, 42925, 1, (-42305)); (42926, 42926, 1, (-42308)); (42928, 42928, 1, (-42258));
   (42929, 42929, 1, (-42282)); (42930, 42930, 1, (-42261)); (42931, 42931, 1, 928);
   (42932, 42946, 2, 1); (42948, 42948, 1, (-48)); (42949, 42949, 1, (-42307));
   (42950, 42950, 1, (-35384)); (42951, 42953, 2, 1); (42960, 42960, 1, 1);
   (42966, 42968, 2, 1); (42997, 42997, 1, 1); (65313, 65338, 1, 32);
   (66560, 66599, 1, 40); (66736, 66771, 1, 40); (66928, 66938, 1, 39);
   (66940, 66954, 1, 39); (66956, 66962, 1, 39); (66964, 66965, 1, 39);
   (68736, 68786, 1, 64); (71840, 71871, 1, 32); (93760, 93791, 1, 32);
   (125184, 125217, 1, 34)
  ].

(** The cased code points (ranges, both ends included). *)
Definition cased_ranges : list (Z * Z) :=
  [
   (65, 90); (97, 122); (170, 170); (181, 181); (186, 186);
   (192, 214); (216, 246); (248, 442); (444, 447); (452, 659);
   (661, 687); (880, 883); (886, 887); (891, 893); (895, 895);
   (902, 902); (904, 906); (908, 908); (910, 929); (931, 1013);
   (1015, 1153); (1162, 1327); (1329, 1366); (1376, 1416); (4256, 4293);
   (4295, 4295); (4301, 4301); (4304, 4346); (4349, 4351); (5024, 5109);
   (5112, 5117); (7296, 7304); (7312, 7354); (7357, 7359); (7424, 7467);
   (7531, 7543); (7545, 7578); (7680, 7957); (7960, 7965); (7968, 8005);
   (8008, 8013); (8016, 8023); (8025, 8025); (8027, 8027); (8029, 8029);
   (8031, 8061); (8064, 8116); (8118, 8124); (8126, 8126); (8130, 8132);
   (8134, 8140); (8144, 8147); (8150, 8155); (8160, 8172); (8178, 8180);
   (8182, 8188); (8450, 8450); (8455, 8455); (8458, 8467); (8469, 8469);
   (8473, 8477); (8484, 8484); (8486, 8486); (8488, 8488); (8490, 8493);
   (8495, 8500); (8505, 8505); (8508, 8511); (8517, 8521); (8526, 8526);
   (8544, 8575); (8579, 8580); (9398, 9449); (11264, 11387); (11390, 11492);
   (11499, 11502); (11506, 11507); (11520, 11557); (11559, 11559); (11565, 11565);
   (42560, 42605); (42624, 42651); (42786, 42863); (42865, 42887); (42891, 42894);
   (42896, 42954); (42960, 42961); (42963, 42963); (42965, 42969); (42997, 42998);
   (43002, 43002); (43824, 43866); (43872, 43880); (43888, 43967); (64256, 64262);
   (64275, 64279); (65313, 65338); (65345, 65370); (66560, 66639); (66736, 66771);
   (66776, 66811); (66928, 66938); (66940, 66954); (66956, 66962); (66964, 66965);
   (66967, 66977); (66979, 66993); (66995, 67001); (67003, 67004); (68736, 68786);
   (68800, 68850); (71840, 71903); (93760, 93823); (119808, 119892); (119894, 119964);
   (119966, 119967); (119970, 119970); (119973, 119974); (119977, 119980); (119982, 119993);
   (119995, 119995); (119997, 120003); (120005, 120069); (120071, 120074); (120077, 120084);
   (120086, 120092); (120094, 120121); (120123, 120126); (120128, 120132); (120134, 120134);
   (120138, 120144); (120146, 120485); (120488, 120512); (120514, 120538); (120540, 120570);
   (120572, 120596); (120598, 120628); (120630, 120654); (120656, 120686); (120688, 120712);
   (120714, 120744); (120746, 120770); (120772, 120779); (122624, 122633); (122635, 122654);
   (125184, 125251); (127280, 127305); (127312, 127337); (127344, 127369)
  ].

(** The case-ignorable code points. *)
Definition case_ignorable_ranges : list (Z * Z) :=
  [
   (39, 39); (46, 46); (58, 58); (94, 94); (96, 96);
   (168, 168); (173, 173); (175, 175); (180, 180); (183, 184);
   (688, 879); (884, 885); (890, 890); (900, 901); (903, 903);
   (1155, 1161); (1369, 1369); (1375, 1375); (1425, 1469); (1471, 1471);
   (1473, 1474); (1476, 1477); (1479, 1479); (1524, 1524); (1536, 1541);
   (1552, 1562); (1564, 1564); (1600, 1600); (1611, 1631); (1648, 1648);
   (1750, 1757); (1759, 1768); (1770, 1773); (1807, 1807); (1809, 1809);
   (1840, 1866); (1958, 1968); (2027, 2037); (2042, 2042); (2045, 2045);
   (2070, 2093); (2137, 2139); (2184, 2184); (2192, 2193); (2200, 2207);
   (2249, 2306); (2362, 2362); (2364, 2364); (2369, 2376); (2381, 2381);
   (2385, 2391); (2402, 2403); (2417, 2417); (2433, 2433); (2492, 2492);
   (2497, 2500); (2509, 2509); (2530, 2531); (2558, 2558); (2561, 2562);
   (2620, 2620); (2625, 2626); (2631, 2632); (2635, 2637); (2641, 2641);
   (2672, 2673); (2677, 2677); (2689, 2690); (2748, 2748); (2753, 2757);
   (2759, 2760); (2765, 2765); (2786, 2787); (2810, 2815); (2817, 2817);
   (2876, 2876); (2879, 2879); (2881, 2884); (2893, 2893); (2901, 2902);
   (2914, 2915); (2946, 2946); (3008, 3008); (3021, 3021); (3072, 3072);
   (3076, 3076); (3132, 3132); (3134, 3136); (3142, 3144); (3146, 3149);
   (3157, 3158); (3170, 3171); (3201, 3201); (3260, 3260); (3263, 3263);
   (3270, 3270); (3276, 3277); (3298, 3299); (3328, 3329); (3387, 3388);
   (3393, 3396); (3405, 3405); (3426, 3427); (3457, 3457); (3530, 3530);
   (3538, 3540); (3542, 3542); (3633, 3633); (3636, 3642); (3654, 3662);
   (3761, 3761); (3764, 3772); (3782, 3782); (3784, 3789); (3864, 3865);
   (3893, 3893); (3895, 3895); (3897, 3897); (3953, 3966); (3968, 3972);
   (3974, 3975); (3981, 3991); (3993, 4028); (4038, 4038); (4141, 4144);
   (4146, 4151); (4153, 4154); (4157, 4158); (4184, 4185); (4190, 4192);
   (4209, 4212); (4226, 4226); (4229, 4230); (4237, 4237); (4253, 4253);
   (4348, 4348); (4957, 4959); (5906, 5908); (5938, 5939); (5970, 5971);
   (6002, 6003); (6068, 6069); (6071, 6077); (6086, 6086); (6089, 6099);
   (6103, 6103); (6109, 6109); (6155, 6159); (6211, 6211); (6277, 6278);
   (6313, 6313); (6432, 6434); (6439, 6440); (6450, 6450); (6457, 6459);
   (6679, 6680); (6683, 6683); (6742, 6742); (6744, 6750); (6752, 6752);
   (6754, 6754); (6757, 6764); (6771, 6780); (6783, 6783); (6823, 6823);
   (6832, 6862); (6912, 6915); (6964, 6964); (6966, 6970); (6972, 6972);
   (6978, 6978); (7019, 7027); (7040, 7041); (7074, 7077); (7080, 7081);
   (7083, 7085); (7142, 7142); (7144, 7145); (7149, 7149); (7151, 7153);
   (7212, 7219); (7222, 7223); (7288, 7293); (7376, 7378); (7380, 7392);
   (7394, 7400); (7405, 7405); (7412, 7412); (7416, 7417); (7468, 7530);
   (7544, 7544); (7579, 7679); (8125, 8125); (8127, 8129); (8141, 8143);
   (8157, 8159); (8173, 8175); (8189, 8190); (8203, 8207); (8216, 8217);
   (8228, 8228); (8231, 8231); (8234, 8238); (8288, 8292); (8294, 8303);
   (8305, 8305); (8319, 8319); (8336, 8348); (8400, 8432); (11388, 11389);
   (11503, 11505); (11631, 11631); (11647, 11647); (11744, 11775); (11823, 11823);
   (12293, 12293); (12330, 12333); (12337, 12341); (12347, 12347); (12441, 12446);
   (12540, 12542); (40981, 40981); (42232, 42237); (42508, 42508); (42607, 42610);
   (42612, 42621); (42623, 42623); (42652, 42655); (42736, 42737); (42752, 42785);
   (42864, 42864); (42888, 42890); (42994, 42996); (43000, 43001); (43010, 43010);
   (43014, 43014); (43019, 43019); (43045, 43046); (43052, 43052); (43204, 43205);
   (43232, 43249); (43263, 43263); (43302, 43309); (43335, 43345); (43392, 43394);
   (43443, 43443); (43446, 43449); (43452, 43453); (43471, 43471); (43493, 43494);
   (43561, 43566); (43569, 43570); (43573, 43574); (43587, 43587); (43596, 43596);
   (43632, 43632); (43644, 43644); (43696, 43696); (43698, 43700); (43703, 43704);
   (43710, 43711); (43713, 43713); (43741, 43741); (43756, 43757); (43763, 43764);
   (43766, 43766); (43867, 43871); (43881, 43883); (44005, 44005); (44008, 44008);
   (44013, 44013); (64286, 64286); (64434, 64450); (65024, 65039); (65043, 65043);
   (65056, 65071); (65106, 65106); (65109, 65109); (65279, 65279); (65287, 65287);
   (65294, 65294); (65306, 65306); (65342, 65342); (65344, 65344); (65392, 65392);
   (65438, 65439); (65507, 65507); (65529, 65531); (66045, 66045); (66272, 66272);
   (66422, 66426); (67456, 67461); (67463, 67504); (67506, 67514); (68097, 68099);
   (68101, 68102); (68108, 68111); (68152, 68154); (68159, 68159); (68325, 68326);
   (68900, 68903); (69291, 69292); (69446, 69456); (69506, 69509); (69633, 69633);
   (69688, 69702); (69744, 69744); (69747, 69748); (69759, 69761); (69811, 69814);
   (69817, 69818); (69821, 69821); (69826, 69826); (69837, 69837); (69888, 69890);
   (69927, 69931); (69933, 69940); (70003, 70003); (70016, 70017); (70070, 70078);
   (70089, 70092); (70095, 70095); (70191, 70193); (70196, 70196); (70198, 70199);
   (70206, 70206); (70367, 70367); (70371, 70378); (70400, 70401); (70459, 70460);
   (70464, 70464); (70502, 70508); (70512, 70516); (70712, 70719); (70722, 70724);
   (70726, 70726); (70750, 70750); (70835, 70840); (70842, 70842); (70847, 70848);
   (70850, 70851); (71090, 71093); (71100, 71101); (71103, 71104); (71132, 71133);
   (71219, 71226); (71229, 71229); (71231, 71232); (71339, 71339); (71341, 71341);
   (71344, 71349); (71351, 71351); (71453, 71455); (71458, 71461); (71463, 71467);
   (71727, 71735); (71737, 71738); (71995, 71996); (71998, 71998); (72003, 72003);
   (72148, 72151); (72154, 72155); (72160, 72160); (72193, 72202); (72243, 72248);
   (72251, 72254); (72263, 72263); (72273, 72278); (72281, 72283); (72330, 72342);
   (72344, 72345); (72752, 72758); (72760, 72765); (72767, 72767); (72850, 72871);
   (72874, 72880); (72882, 72883); (72885, 72886); (73009, 73014); (73018, 73018);
   (73020, 73021); (73023, 73029); (73031, 73031); (73104, 73105); (73109, 73109);
   (73111, 73111); (73459, 73460); (78896, 78904); (92912, 92916); (92976, 92982);
   (92992, 92995); (94031, 94031); (94095, 94111); (94176, 94177); (94179, 94180);
   (110576, 110579); (110581, 110587); (110589, 110590); (113821, 113822); (113824, 113827);
   (118528, 118573); (118576, 118598); (119143, 119145); (119155, 119170); (119173, 119179);
   (119210, 119213); (119362, 119364); (121344, 121398); (121403, 121452); (121461, 121461);
   (121476, 121476); (121499, 121503); (121505, 121519); (122880, 122886); (122888, 122904);
   (122907, 122913); (122915, 122916); (122918, 122922); (123184, 123197); (123566, 123566);
   (123628, 123631); (125136, 125142); (125252, 125259); (127995, 127999); (917505, 917505);
   (917536, 917631); (917760, 917999)
  ].

(** The blanks outside ASCII. *)
Definition space_points : list Z :=
  [
   133; 160; 5760; 8192; 8193; 8194; 8195; 8196; 8197; 8198;
   8199; 8200; 8201; 8202; 8232; 8233; 8239; 8287; 12288
  ].

(** The digit zero of every set of decimal digits outside ASCII; the
    other nine digits follow it. *)
Definition decimal_zeros : list Z :=
  [
   1632; 1776; 1984; 2406; 2534; 2662; 2790; 2918;
   3046; 3174; 3302; 3430; 3558; 3664; 3792; 3872;
   4160; 4240; 6112; 6160; 6470; 6608; 6784; 6800;
   6992; 7088; 7232; 7248; 42528; 43216; 43264; 43472;
   43504; 43600; 44016; 65296; 66720; 68912; 69734; 69872;
   69942; 70096; 70384; 70736; 70864; 71248; 71360; 71472;
   71904; 72016; 72784; 73040; 73120; 92768; 92864; 93008;
   120782; 120792; 120802; 120812; 120822; 123200; 123632; 125264;
   130032
  ].

Definition in_ranges (t : list (Z * Z)) (p : Z) : bool :=
  existsb (fun r => (fst r <=? p) && (p <=? snd r)) t.

Definition is_cased (p : Z) : bool := in_ranges cased_ranges p.
Definition is_case_ignorable (p : Z) : bool :=
  in_ranges case_ignorable_ranges p.

Definition in_run (p : Z) (r : Z * Z * Z * Z) : bool :=
  let '(first, last, stride, _) := r in
  (first <=? p) && (p <=? last) && ((p - first) mod stride =? 0).

Definition to_lower (p : Z) : Z :=
  match find (in_run p) lower_runs with
  | Some (_, _, _, delta) => p + delta
  | None => p
  end.

(** The one code point whose lower case is two code points is U+0130. *)
Definition to_lower_full (p : Z) : list Z :=
  if p =? 304 then [105; 775] else [to_lower p].

(** The first code point of [s] that is not case-ignorable is cased. *)
Fixpoint cased_next (s : list Z) : bool :=
  match s with
  | [] => false
  | p :: s' => if is_case_ignorable p then cased_next s' else is_cased p
  end.

(** [s.lower()] on code points; [before] holds the code points already
    passed, nearest first.  A capital sigma (U+03A3) becomes the final
    sigma (U+03C2) when a cased letter precedes it and none follows,
    case-ignorable code points aside; otherwise U+03C3. *)
Fixpoint lower_points (before s : list Z) : list Z :=
  match s with
  | [] => []
  | p :: s' =>
      (if p =? 931
       then [if cased_next before && negb (cased_next s') then 962 else 963]
       else to_lower_full p)
      ++ lower_points (p :: before) s'
  end.

(** *** Digits and blanks *)

Definition is_space (p : Z) : bool := existsb (Z.eqb p) space_points.

Definition decimal (p : Z) : option Z :=
  match find (fun z => (z <=? p) && (p <? z + 10)) decimal_zeros with
  | Some z => Some (p - z)
  | None => None
  end.

(** What [float()] and [int()] do to a string before they read it: code
    points below 127 are kept, a blank becomes a space, a decimal digit
    its ASCII digit, and the string is cut with a question mark at the
    first code point that is none of these. *)
Fixpoint numeric_points (s : list Z) : list ascii :=
  match s with
  | [] => []
  | p :: s' =>
      if p <? 127 then of_byte p :: numeric_points s'
      else if is_space p then " "%char :: numeric_points s'
      else
        match decimal p with
        | Some d => of_byte (48 + d) :: numeric_points s'
        | None => ["?"%char]
        end
  end.

(** An ASCII string is read as it is. *)
Definition numeric_ascii (s : list ascii) : list ascii :=
  if is_ascii s then s else numeric_points (decode s).

End Unicode.

(* ================================================================= *)
(** ** Strings *)

(** The methods of [str] the program calls, on the UTF-8 bytes of the
    string. *)
Module PyStr.

Definition chars : string -> list ascii := list_ascii_of_string.
Definition of_chars : list ascii -> string := string_of_list_ascii.

Definition lower_char (c : ascii) : ascii :=
  let n := nat_of_ascii c in
  if ((65 <=? n) && (n <=? 90))%nat then ascii_of_nat (n + 32) else c.

(** [s.lower()]: an ASCII string is lowered byte by byte, any other
    string code point by code point. *)
Definition lower (s : string) : string :=
  if Unicode.is_ascii (chars s)
  then of_chars (map lower_char (chars s))
  else of_chars (Unicode.encode_all
                   (Unicode.lower_points [] (Unicode.decode (chars s)))).

Fixpoint starts_with (p s : list ascii) : bool :=
  match p, s with
  | [], _ => true
  | _ :: _, [] => false
  | c :: p', d :: s' => Ascii.eqb c d && starts_with p' s'
  end.

Fixpoint contains_chars (p s : list ascii) : bool :=
  starts_with p s ||
  match s with
  | [] => false
  | _ :: s' => contains_chars p s'
  end.

(** [p in s] *)
Definition contains (p s : string) : bool := contains_chars (chars p) (chars s).

(** [s.replace(old, new)] for a non-empty [old]: occurrences are replaced
    from the left, and the scan resumes after each replaced occurrence.
    [skip] counts the characters of the current occurrence still to drop. *)
Fixpoint replace_chars (old new : list ascii) (skip : nat) (s : list ascii)
  : list ascii :=
  match s with
  | [] => []
  | c :: s' =>
      match skip with
      | S k => replace_chars old new k s'
      | O =>
          if starts_with old s
          then new ++ replace_chars old new (List.length old - 1) s'
          else c :: replace_chars old new O s'
      end
  end.

Definition replace (old new s : string) : string :=
  of_chars (replace_chars (chars old) (chars new) 0 (chars s)).

Definition mem_char (c : ascii) (set : list ascii) : bool :=
  existsb (Ascii.eqb c) set.

Fixpoint lstrip_chars (set s : list ascii) : list ascii :=
  match s with
  | c :: s' => if mem_char c set then lstrip_chars set s' else s
  | [] => []
  end.

Definition strip_chars (set s : list ascii) : list ascii :=
  rev (lstrip_chars set (rev (lstrip_chars set s))).

(** [s.strip(set)] *)
Definition strip (set s : string) : string :=
  of_chars (strip_chars (chars set) (chars s)).

Definition is_empty (s : string) : bool :=
  match s with EmptyString => true | _ => false end.

(** The bytes [float()] and [int()] skip around a literal: tab, line
    feed, vertical tab, form feed, carriage return and space. *)
Definition is_space (c : ascii) : bool :=
  let n := nat_of_ascii c in
  (((9 <=? n) && (n <=? 13)) || (n =? 32))%nat.

Definition strip_space (s : list ascii) : list ascii :=
  let fix drop (s : list ascii) :=
    match s with
    | c :: s' => if is_space c then drop s' else s
    | [] => []
    end in
  rev (drop (rev (drop s))).

(** The last character of [s] is removed when it is [c]. *)
Definition strip_trailing (c : ascii) (s : string) : string :=
  match rev (chars s) with
  | d :: r => if Ascii.eqb c d then of_chars (rev r) else s
  | [] => s
  end.

End PyStr.

(* ================================================================= *)
(** ** Floats *)

(** Python's [float] is the IEEE binary64 type with round-to-nearest-even
    arithmetic, comparisons that are all false on NaN, and no exception on
    overflow of [+], [-], [*], [/]; those are [PrimFloat]'s operations.
    What Python adds on top is modelled here: conversions from [int] and
    [str], [round(x, n)], and the operations that raise. *)
Module PyFloat.

#[local] Open Scope float_scope.

Definition is_nan (x : float) : bool := negb (x =? x).
Definition is_inf (x : float) : bool := (x =? infinity) || (x =? neg_infinity).
Definition is_finite (x : float) : bool := negb (is_nan x) && negb (is_inf x).

(** The binary64 number nearest to the integer [m * 2^e] (ties to even,
    infinity past the largest finite number). *)
Definition of_Z_scaled (m e : Z) : float :=
  SF2Prim (binary_normalize prec emax m e false).

Definition of_Z (z : Z) : float := of_Z_scaled z 0.

(** [float(z)] for a Python [int]: correctly rounded, and an
    [OverflowError] instead of an infinite result. *)
Definition float_of_int (z : Z) : result float :=
  let f := of_Z z in
  if is_inf f then Raise OverflowError else Ok f.

(** The binary64 number nearest to [m * 10^e10] for [m >= 0], with the
    sign [neg].  For a negative exponent the quotient is computed with more
    than 64 significant bits and a sticky bit, so the single rounding of
    [binary_normalize] is the correct rounding of the exact quotient. *)
Definition of_decimal (neg : bool) (m e10 : Z) : float :=
  let sgn (v : Z) := if neg then Z.opp v else v in
  if (m =? 0)%Z then (if neg then (-0)%float else 0%float)
  else if (0 <=? e10)%Z then of_Z (sgn (m * 10 ^ e10)%Z)
  else
    let den := (10 ^ (- e10))%Z in
    let k := Z.max 0 (66 + Z.log2 den - Z.log2 m)%Z in
    let q := ((m * 2 ^ k) / den)%Z in
    let sticky := if ((m * 2 ^ k) mod den =? 0)%Z then 0%Z else 1%Z in
    of_Z_scaled (sgn (2 * q + sticky)%Z) (- k - 1).

(** *** [float(s)] for a string *)

Definition digit_of (c : ascii) : option Z :=
  let n := nat_of_ascii c in
  if ((48 <=? n) && (n <=? 57))%nat then Some (Z.of_nat (n - 48)) else None.

Definition is_digit (c : ascii) : bool :=
  match digit_of c with Some _ => true | None => false end.

(** Digits with single underscores between them ([digit ("_"? digit)*]),
    read as far as they go; the unread rest is returned. *)
Fixpoint digit_run (s : list ascii) : list Z * list ascii :=
  match s with
  | [] => ([], [])
  | c :: s' =>
      match digit_of c with
      | Some d => let (ds, r) := digit_run s' in (d :: ds, r)
      | None =>
          if Ascii.eqb c "_" then
            match s' with
            | c' :: _ => if is_digit c' then digit_run s' else ([], s)
            | [] => ([], s)
            end
          else ([], s)
      end
  end.

(** A digit part has to open with a digit. *)
Definition digitpart (s : list ascii) : list Z * list ascii :=
  match s with
  | c :: _ => if is_digit c then digit_run s else ([], s)
  | [] => ([], [])
  end.

Definition digits_value (ds : list Z) : Z :=
  fold_left (fun acc d => (10 * acc + d)%Z) ds 0%Z.

Definition read_sign (s : list ascii) : bool * list ascii :=
  match s with
  | c :: s' =>
      if Ascii.eqb c "-" then (true, s')
      else if Ascii.eqb c "+" then (false, s')
      else (false, s)
  | [] => (false, [])
  end.

(** [digits? ("." digits?)? ([eE] sign? digits)?] with at least one
    mantissa digit: the mantissa as an integer and the decimal exponent. *)
Definition read_number (s : list ascii) : option (Z * Z) :=
  let '(ip, r1) := digitpart s in
  let '(fp, r2) :=
    match r1 with
    | c :: r => if Ascii.eqb c "." then digitpart r else ([], r1)
    | [] => ([], r1)
    end in
  match ip ++ fp with
  | [] => None
  | ds =>
      let m := digits_value ds in
      let shift := Z.of_nat (List.length fp) in
      match r2 with
      | [] => Some (m, (- shift)%Z)
      | c :: r =>
          if Ascii.eqb c "e" || Ascii.eqb c "E" then
            let '(eneg, r3) := read_sign r in
            match digitpart r3 with
            | (d :: ed, []) =>
                let ex := digits_value (d :: ed) in
                Some (m, ((if eneg then - ex else ex) - shift)%Z)
            | _ => None
            end
          else None
      end
  end.

Definition float_of_chars (s : list ascii) : result float :=
  let '(neg, body) :=
    read_sign (PyStr.strip_space (Unicode.numeric_ascii s)) in
  let word := PyStr.of_chars (map PyStr.lower_char body) in
  if String.eqb word "inf" || String.eqb word "infinity"
  then Ok (if neg then neg_infinity else infinity)
  else if String.eqb word "nan" then Ok nan
  else
    match read_number body with
    | Some (m, e10) => Ok (of_decimal neg m e10)
    | None => Raise ValueError
    end.

(** [float(s)]: digits and blanks beyond ASCII are first replaced by
    their ASCII counterparts, blanks around the literal are ignored;
    anything that is not a float literal is a [ValueError]. *)
Definition float_of_string (s : string) : result float :=
  float_of_chars (PyStr.chars s).

(** The longest run of digits [int(s)] and [str(z)] convert
    ([sys.get_int_max_str_digits()], 4300 unless the interpreter is told
    otherwise); a longer one is a [ValueError]. *)
Definition max_str_digits : nat := 4300.

(** [int(s)] in base 10. *)
Definition int_of_string (s : string) : result Z :=
  let '(neg, body) :=
    read_sign (PyStr.strip_space (Unicode.numeric_ascii (PyStr.chars s))) in
  match digitpart body with
  | (d :: ds, []) =>
      if (max_str_digits <? List.length (d :: ds))%nat then Raise ValueError
      else
        let v := digits_value (d :: ds) in Ok (if neg then (- v)%Z else v)
  | _ => Raise ValueError
  end.

(** [str(z)] for an [int]. *)
Definition digit_char (d : Z) : ascii := ascii_of_nat (48 + Z.to_nat d).

Fixpoint pos_digits (fuel : nat) (z : Z) (acc : list ascii) : list ascii :=
  match fuel with
  | O => acc
  | S fuel' =>
      let acc' := digit_char (z mod 10) :: acc in
      if (z <? 10)%Z then acc' else pos_digits fuel' (z / 10)%Z acc'
  end.

Definition string_of_int (z : Z) : result string :=
  let a := Z.abs z in
  let ds := pos_digits (S (Z.to_nat (Z.log2 a))) a [] in
  if (max_str_digits <? List.length ds)%nat then Raise ValueError
  else Ok (PyStr.of_chars (if (z <? 0)%Z then "-"%char :: ds else ds)).

(** *** [round(x, ndigits)] *)

(** The integer nearest to [num / den] ([den > 0]), ties to even. *)
Definition div_half_even (num den : Z) : Z :=
  let q := (num / den)%Z in
  let r2 := (2 * (num mod den))%Z in
  if (r2 <? den)%Z then q
  else if (den <? r2)%Z then (q + 1)%Z
  else if Z.even q then q else (q + 1)%Z.

(** [round(x, nd)] for [0 <= nd]: the exact value of [x] is rounded to
    [nd] decimal places, ties to even, and the decimal result is converted
    back to the nearest float.  NaN and the infinities are returned as they
    are. *)
Definition round (x : float) (nd : Z) : float :=
  match Prim2SF x with
  | S754_finite s m e =>
      let num := (Zpos m * 10 ^ nd * 2 ^ (Z.max 0 e))%Z in
      let den := (2 ^ (Z.max 0 (- e)))%Z in
      of_decimal s (div_half_even num den) (- nd)
  | _ => x
  end.

(** *** Operations that raise *)

(** [x / y]: a zero divisor is a [ZeroDivisionError]. *)
Definition div (x y : float) : result float :=
  if y =? 0 then Raise ZeroDivisionError else Ok (x / y).

(** [x / n] for an [int] [n] that is a length or one less: such an [n]
    is below [2^63], so its conversion to a float cannot overflow, and
    only [n = 0] raises. *)
Definition div_len (x : float) (n : Z) : result float :=
  if (n =? 0)%Z then Raise ZeroDivisionError else Ok (x / of_Z n).

(** [x ** 2]: the square, and an [OverflowError] when a finite [x] has an
    infinite square.  (The C library's [pow(x, 2.0)] is taken to return the
    correctly rounded square.) *)
Definition pow2 (x : float) : result float :=
  let y := x * x in
  if is_finite x && is_inf y then Raise OverflowError else Ok y.

(** [math.sqrt(x)]: a [ValueError] below zero. *)
Definition sqrt (x : float) : result float :=
  if x <? 0 then Raise ValueError else Ok (PrimFloat.sqrt x).

(** [sum(l)] for floats: Python starts from the [int] 0 and adds from the
    left.  (Later CPython versions compensate the rounding errors of the
    partial sums; the plain left-to-right sum is what is modelled.) *)
Definition sum (l : list float) : float := fold_left PrimFloat.add l 0.

(** [sum(g)] for a generator whose elements may raise. *)
Fixpoint sum_gen (acc : float) (g : list (result float)) : result float :=
  match g with
  | [] => Ok acc
  | r :: g' => x <- r ;; sum_gen (acc + x) g'
  end.

(** Truth value of a float: zero (of either sign) is false, NaN is true. *)
Definition truthy (x : float) : bool := negb (x =? 0).

End PyFloat.

(* ================================================================= *)
(** ** Values and containers *)

(** What [resp.json()] can return: [None], [bool], [int], [float], [str],
    [list] and [dict] with string keys.  A [dict] is its list of entries
    in insertion order; a decoded JSON object has no repeated key. *)
Inductive value : Type :=
| VNone
| VBool (b : bool)
| VInt (z : Z)
| VFloat (f : float)
| VStr (s : string)
| VList (l : list value)
| VDict (d : list (string * value)).

Module PyVal.

#[local] Open Scope string_scope.
#[local] Open Scope Z_scope.

Definition is_none (v : value) : bool :=
  match v with VNone => true | _ => false end.

(** Truth value, as [not v] and [v or w] use it. *)
Definition truthy (v : value) : bool :=
  match v with
  | VNone => false
  | VBool b => b
  | VInt z => negb (z =? 0)
  | VFloat f => PyFloat.truthy f
  | VStr s => negb (PyStr.is_empty s)
  | VList l => match l with [] => false | _ => true end
  | VDict d => match d with [] => false | _ => true end
  end.

(** [d.get(k, default)] on the entries of a dict. *)
Fixpoint dict_get_default (d : list (string * value)) (k : string)
  (default : value) : value :=
  match d with
  | [] => default
  | (k', v) :: d' => if String.eqb k' k then v else dict_get_default d' k default
  end.

(** [d.get(k)] *)
Definition dict_get (d : list (string * value)) (k : string) : value :=
  dict_get_default d k VNone.

(** Looking up the attribute [get]: only a dict has it. *)
Definition attr_get (v : value) : result (list (string * value)) :=
  match v with
  | VDict d => Ok d
  | _ => Raise AttributeError
  end.

(** [float(v)] *)
Definition py_float (v : value) : result float :=
  match v with
  | VNone => Raise TypeError
  | VBool b => Ok (if b then 1%float else 0%float)
  | VInt z => PyFloat.float_of_int z
  | VFloat f => Ok f
  | VStr s => PyFloat.float_of_string s
  | VList _ | VDict _ => Raise TypeError
  end.

(** [float(str(v).replace("%", ""))].  [str] of a string is the string,
    [str] of an [int] its decimal digits.  [str] of a float is the shortest
    literal that [float] reads back as the same float, and it holds no
    percent sign; [str] of a list or dict opens with a bracket, which
    [replace] keeps and no float literal starts with. *)
Definition float_of_str_without_percent (v : value) : result float :=
  let reparse (s : string) := PyFloat.float_of_string (PyStr.replace "%" "" s) in
  match v with
  | VNone => reparse "None"
  | VBool b => reparse (if b then "True" else "False")
  | VInt z => s <- PyFloat.string_of_int z ;; reparse s
  | VFloat f => Ok f
  | VStr s => reparse s
  | VList _ | VDict _ => Raise ValueError
  end.

(** *** Dictionary keys *)

(** Lists and dicts cannot be hashed. *)
Definition hashable (v : value) : bool :=
  match v with
  | VList _ | VDict _ => false
  | _ => true
  end.

(** The integer a float is equal to, if any. *)
Definition float_integral (f : float) : option Z :=
  match Prim2SF f with
  | S754_zero _ => Some 0
  | S754_finite s m e =>
      let sgn (z : Z) := if s then - z else z in
      if 0 <=? e then Some (sgn (Zpos m * 2 ^ e))
      else if (Zpos m mod 2 ^ (- e)) =? 0 then Some (sgn (Zpos m / 2 ^ (- e)))
      else None
  | _ => None
  end.

Definition int_eq_float (z : Z) (f : float) : bool :=
  match float_integral f with Some z' => z =? z' | None => false end.

Definition int_of_bool (b : bool) : Z := if b then 1 else 0.

(** How a dict compares a fresh key with its keys: the same object, or
    [v == w].  Numbers compare by value across [bool], [int] and [float].
    NaN equals nothing under [==], itself included, but the JSON decoder
    returns one and the same float object for every [NaN] of a document,
    so the NaN keys of a document are one key. *)
Definition key_eqb (v w : value) : bool :=
  match v, w with
  | VNone, VNone => true
  | VStr s, VStr t => String.eqb s t
  | VBool b, VBool c => Bool.eqb b c
  | VBool b, VInt z | VInt z, VBool b => int_of_bool b =? z
  | VBool b, VFloat f | VFloat f, VBool b => int_eq_float (int_of_bool b) f
  | VInt z, VInt z' => z =? z'
  | VInt z, VFloat f | VFloat f, VInt z => int_eq_float z f
  | VFloat f, VFloat g =>
      (f =? g)%float || (PyFloat.is_nan f && PyFloat.is_nan g)
  | _, _ => false
  end.

End PyVal.

(** ** Lists, dicts built by the program, sorting *)
Module PyList.

Section Lists.
Context {A : Type}.

(** [l[i]] with Python's negative indices. *)
Definition index (l : list A) (i : Z) : result A :=
  let n := Z.of_nat (List.length l) in
  let j := if i <? 0 then n + i else i in
  if (0 <=? j) && (j <? n)
  then match nth_error l (Z.to_nat j) with
       | Some x => Ok x
       | None => Raise IndexError
       end
  else Raise IndexError.

(** [l[start:]] *)
Definition slice_from (l : list A) (start : Z) : list A :=
  let n := Z.of_nat (List.length l) in
  let j := if start <? 0 then Z.max 0 (n + start) else Z.min start n in
  skipn (Z.to_nat j) l.

(** [l[-1]] of a list known to be non-empty is [last_opt l]. *)
Definition last_opt (l : list A) : option A :=
  match rev l with
  | x :: _ => Some x
  | [] => None
  end.

End Lists.

Section Dicts.
Context {K V : Type}.
Variable eqb : K -> K -> bool.

(** The value stored under the first key equal to [k]. *)
Fixpoint lookup (k : K) (d : list (K * V)) : option V :=
  match d with
  | [] => None
  | (k', v) :: d' => if eqb k' k then Some v else lookup k d'
  end.

(** [d[k] = v]: an existing key keeps its place. *)
Fixpoint set (k : K) (v : V) (d : list (K * V)) : list (K * V) :=
  match d with
  | [] => [(k, v)]
  | (k', v') :: d' =>
      if eqb k' k then (k', v) :: d' else (k', v') :: set k v d'
  end.

(** [f] applied in place to [d[k]] of a [defaultdict] whose factory
    returns [default]: a missing key is added at the end. *)
Fixpoint update (k : K) (f : V -> V) (default : V) (d : list (K * V))
  : list (K * V) :=
  match d with
  | [] => [(k, f default)]
  | (k', v) :: d' =>
      if eqb k' k then (k', f v) :: d' else (k', v) :: update k f default d'
  end.

End Dicts.

Section Sorting.
Context {A K : Type}.
Variable lt : K -> K -> bool.
Variable key : A -> K.

(** [l.sort(key=key, reverse=True)].  Python's sort is stable, also when
    reversed: elements with equal keys keep their order.  For keys that
    [lt] orders totally that fixes the result, which this insertion sort
    computes: [x] goes in front of the first element whose key is not
    greater than its own.  When [lt] is not an order on the keys (floats
    with a NaN among them), what CPython's merge sort returns depends on
    the runs it detects, which have changed between versions; for up to
    two elements it is what [sort_desc] returns, and for more only that
    the result is a permutation carries over. *)
Fixpoint insert_desc (x : A) (l : list A) : list A :=
  match l with
  | [] => [x]
  | y :: l' => if lt (key x) (key y) then y :: insert_desc x l' else x :: l
  end.

Definition sort_desc (l : list A) : list A := fold_right insert_desc [] l.

End Sorting.

End PyList.

(* ================================================================= *)
(** ** Normalizer *)

Module Normalizer.

Import PyVal.
#[local] Open Scope string_scope.
#[local] Open Scope float_scope.

(** [safe_get(d, *keys, default=None)] *)
Fixpoint safe_get (d : value) (keys : list string) (default : value) : value :=
  match keys with
  | [] => d
  | k :: keys' =>
      match d with
      | VDict entries =>
          match dict_get entries k with
          | VNone => default
          | cur => safe_get cur keys' default
          end
      | _ => default
      end
  end.

(** The body of the [try] of [mid_from_bid_ask]. *)
Definition mid_body (b a : value) : result (option float) :=
  fb <- py_float b ;;
  fa <- py_float a ;;
  if (0 <? fb) && (0 <? fa) && (fb <=? fa)
  then Ok (Some ((fa + fb) / 2))
  else Ok None.

(** [mid_from_bid_ask(b, a)]: the bare [except] turns every exception into
    the final [return None]. *)
Definition mid_from_bid_ask (b a : value) : option float :=
  try_except (mid_body b a) (fun _ => None).

Definition funding_keys : list string :=
  ["fundingRate"; "funding"; "fr"; "funding_rate"; "fundingRate8h"].

(** The loop of [guess_funding] over the candidate keys still to try. *)
Fixpoint guess_funding_from (keys : list string) (d : value)
  : result (option float) :=
  match keys with
  | [] => Ok None
  | k :: keys' =>
      entries <- attr_get d ;;
      match dict_get entries k with
      | VNone => guess_funding_from keys' d
      | v =>
          match py_float v with
          | Ok f => Ok (Some f)
          | Raise _ =>
              match float_of_str_without_percent v with
              | Ok f => Ok (Some (f / 100))
              | Raise _ => guess_funding_from keys' d
              end
          end
      end
  end.

(** [guess_funding(d)] *)
Definition guess_funding (d : value) : result (option float) :=
  guess_funding_from funding_keys d.

(** A row of the normalizer's output,
    [{"name": sym, "a": a, "b": b, "funding": fr}]. *)
Record row : Type := mkRow {
  row_name : value;
  row_a : value;
  row_b : value;
  row_funding : option float
}.

(** The body of [for it in lst]. *)
Definition parse_row (it : value) : result row :=
  let sym := safe_get it ["name"] VNone in
  let a := safe_get it ["a"] VNone in
  let b := safe_get it ["b"] VNone in
  ab <- (if negb (truthy sym) || is_none a || is_none b
         then entries <- attr_get it ;;
              Ok (dict_get_default entries "ask" a,
                  dict_get_default entries "bid" b)
         else Ok (a, b)) ;;
  fr <- guess_funding it ;;
  Ok (mkRow sym (fst ab) (snd ab) fr).

Fixpoint parse_rows (lst : list value) : result (list row) :=
  match lst with
  | [] => Ok []
  | it :: lst' =>
      r <- parse_row it ;;
      rs <- parse_rows lst' ;;
      Ok (r :: rs)
  end.

Definition section_tags : list string := ["perp"; "swap"; "futures"].

Definition is_section_key (key : string) : bool :=
  existsb (fun tag => PyStr.contains tag (PyStr.lower key)) section_tags.

(** The exchange guessed from a section key. *)
Definition exchange_of_key (key : string) : string :=
  let name_lc := PyStr.lower key in
  let exch :=
    PyStr.replace "futures" ""
      (PyStr.replace "swap" "" (PyStr.replace "perp" "" name_lc)) in
  let exch := PyStr.replace "spot" "" (PyStr.strip "_ " exch) in
  if PyStr.is_empty exch then PyStr.lower key else exch.

Definition sections : Type := list (string * list row).

(** The loop [for key, val in data.items()], with [out] as built so far.
    [out[exch]] is assigned the finished row list: [out] is local, so a
    row that raises loses it whole either way. *)
Fixpoint parse_entries (entries : list (string * value)) (out : sections)
  : result sections :=
  match entries with
  | [] => Ok out
  | (key, val) :: entries' =>
      match val with
      | VDict fields =>
          if is_section_key key then
            match dict_get fields "list" with
            | VList lst =>
                rows <- parse_rows lst ;;
                parse_entries entries'
                  (PyList.set String.eqb (exchange_of_key key) rows out)
            | _ => parse_entries entries' out
            end
          else parse_entries entries' out
      | _ => parse_entries entries' out
      end
  end.

(** [parse_perp_sections(j)] *)
Definition parse_perp_sections (j : value) : result sections :=
  top <- attr_get j ;;
  let d := dict_get top "data" in
  let data := if truthy d then d else j in
  match data with
  | VDict entries => parse_entries entries []
  | _ => Ok []
  end.

End Normalizer.

(* ================================================================= *)
(** ** The time-series store and the fetch loop *)

Module Store.

Import PyVal Normalizer.

(** A sample [(ts, value)]: milliseconds since the epoch and a float. *)
Definition point : Type := (Z * float)%type.

(** A [deque]: oldest sample first. *)
Definition series : Type := list point.

(** [defaultdict(lambda: deque(maxlen=...))], keyed by exchange. *)
Definition exch_map : Type := list (string * series).

(** [defaultdict(lambda: defaultdict(...))], keyed by the row's name. *)
Definition ring : Type := list (value * exch_map).

Record store : Type := mkStore {
  ring_prices : ring;
  ring_funding : ring
}.

Definition empty : store := mkStore [] [].

Definition price_maxlen : Z := 6000.
Definition funding_maxlen : Z := 14400.

(** [dq.append(x)] on a [deque(maxlen=maxlen)]: the new element goes to
    the right end; a deque that was full loses its left end. *)
Definition deque_append (maxlen : Z) (dq : series) (x : point) : series :=
  let dq' := dq ++ [x] in
  if maxlen <? Z.of_nat (List.length dq') then tl dq' else dq'.

(** [ring[name][exch].append(pt)]: hashing [name] raises [TypeError] for a
    list or a dict; missing keys are created by the two [defaultdict]s. *)
Definition ring_append (maxlen : Z) (name : value) (exch : string)
  (pt : point) (r : ring) : result ring :=
  if hashable name
  then Ok (PyList.update key_eqb name
             (PyList.update String.eqb exch
                (fun dq => deque_append maxlen dq pt) [])
             [] r)
  else Raise TypeError.

(** Code that mutates the store and may raise: the store as left behind is
    returned in both cases, since a caught exception undoes nothing. *)
Definition M (A : Type) : Type := store -> result A * store.

Definition ret {A} (a : A) : M A := fun s => (Ok a, s).

Definition mbind {A B} (m : M A) (k : A -> M B) : M B :=
  fun s =>
    match m s with
    | (Ok a, s') => k a s'
    | (Raise e, s') => (Raise e, s')
    end.

Definition lift {A} (r : result A) : M A := fun s => (r, s).

(** An in-place update of one of the two rings. *)
Definition on_prices (f : ring -> result ring) : M unit :=
  fun s =>
    match f (ring_prices s) with
    | Ok r => (Ok tt, mkStore r (ring_funding s))
    | Raise e => (Raise e, s)
    end.

Definition on_funding (f : ring -> result ring) : M unit :=
  fun s =>
    match f (ring_funding s) with
    | Ok r => (Ok tt, mkStore (ring_prices s) r)
    | Raise e => (Raise e, s)
    end.

Notation "m >> k" := (mbind m (fun _ => k))
  (at level 62, right associativity).

(** The body of [for row in rows] in [fetch_loop]. *)
Definition store_row (ts : Z) (exch : string) (r : row) : M unit :=
  let name := row_name r in
  let mid := mid_from_bid_ask (row_b r) (row_a r) in
  (match mid with
   | Some m => on_prices (ring_append price_maxlen name exch (ts, m))
   | None => ret tt
   end) >>
  (match row_funding r with
   | Some f => on_funding (ring_append funding_maxlen name exch (ts, f))
   | None => ret tt
   end).

Fixpoint store_rows (ts : Z) (exch : string) (rows : list row) : M unit :=
  match rows with
  | [] => ret tt
  | r :: rows' => store_row ts exch r >> store_rows ts exch rows'
  end.

(** [for exch, rows in sections.items()] *)
Fixpoint store_sections (ts : Z) (secs : sections) : M unit :=
  match secs with
  | [] => ret tt
  | (exch, rows) :: secs' => store_rows ts exch rows >> store_sections ts secs'
  end.

(** The [try] block of one round of [fetch_loop]: [upstream] is what
    [requests.get], [raise_for_status] and [resp.json()] end in, and [ts]
    what [now_utc_ms()] returns once the document is parsed. *)
Definition fetch_body (upstream : result value) (ts : Z) : M unit :=
  mbind (lift upstream) (fun j =>
  mbind (lift (parse_perp_sections j)) (fun secs =>
  store_sections ts secs)).

(** One round of [fetch_loop]: [except Exception: pass] drops the
    exception and keeps the store as the round left it. *)
Definition fetch_once (upstream : result value) (ts : Z) (s : store) : store :=
  snd (fetch_body upstream ts s).

(** The states the writer can bring the store to. *)
Inductive reachable : store -> Prop :=
| reachable_empty : reachable empty
| reachable_fetch (s : store) (upstream : result value) (ts : Z) :
    reachable s -> reachable (fetch_once upstream ts s).

(** The series stored under [(name, exch)], empty when there is none. *)
Definition get_series (r : ring) (name : value) (exch : string) : series :=
  match PyList.lookup key_eqb name r with
  | Some m =>
      match PyList.lookup String.eqb exch m with
      | Some dq => dq
      | None => []
      end
  | None => []
  end.

End Store.

(* ================================================================= *)
(** ** Pair selection and the query *)

Module Query.

Import PyVal Store.
#[local] Open Scope string_scope.

(** The sort key of [pick_pair_exchanges]:
    [exch_dict[k][-1][0] if exch_dict[k] else 0]. *)
Definition last_ts (exch_dict : exch_map) (k : string) : Z :=
  match PyList.lookup String.eqb k exch_dict with
  | Some dq =>
      match PyList.last_opt dq with
      | Some (t, _) => t
      | None => 0
      end
  | None => 0
  end.

Definition has_key (k : string) (keys : list string) : bool :=
  existsb (String.eqb k) keys.

(** [pick_pair_exchanges(exch_dict)] *)
Definition pick_pair_exchanges (exch_dict : exch_map)
  : option string * option string :=
  let keys := map fst exch_dict in
  if has_key "binance" keys && has_key "okx" keys
  then (Some "binance", Some "okx")
  else if (2 <=? List.length keys)%nat then
    match PyList.sort_desc Z.ltb (last_ts exch_dict) keys with
    | k0 :: k1 :: _ => (Some k0, Some k1)
    | _ => (None, None)
    end
  else (None, None).

(** One record of the response. *)
Record item : Type := mkItem {
  symbol : value;
  exA : string;
  exB : string;
  midA : float;
  midB : float;
  spread_pct : float;
  avg_spread_pct : option float;
  zscore : option float;
  fundingA : option float;
  fundingB : option float;
  funding_avg : option float;
  window_sec : Z;
  samples : Z
}.

#[local] Open Scope float_scope.

(** [(y - x) / avg * 100.0] *)
Definition pct_spread (x y avg : float) : result float :=
  q <- PyFloat.div (y - x) avg ;; Ok (q * 100).

(** [range(n)] *)
Definition range (n : nat) : list Z := map Z.of_nat (seq 0 n).

(** The loop [for i in range(n)] that fills [spreads], over the indices
    still to visit. *)
Fixpoint spread_loop (seriesA seriesB : series) (indices : list Z)
  (spreads : list float) : result (list float) :=
  match indices with
  | [] => Ok spreads
  | i :: indices' =>
      pA <- PyList.index seriesA (-1 - i) ;;
      pB <- PyList.index seriesB (-1 - i) ;;
      let mA := snd pA in
      let mB := snd pB in
      let avgm := (mA + mB) / 2 in
      if 0 <? avgm
      then x <- pct_spread mA mB avgm ;;
           spread_loop seriesA seriesB indices' (spreads ++ [x])
      else spread_loop seriesA seriesB indices' spreads
  end.

(** [l[-window:]] *)
Definition recent (window : Z) (l : series) : series :=
  PyList.slice_from l (- window).

Definition window_spreads (window : Z) (fullA fullB : series)
  : result (list float) :=
  let seriesA := recent window fullA in
  let seriesB := recent window fullB in
  let n := Nat.min (List.length seriesA) (List.length seriesB) in
  spread_loop seriesA seriesB (range n) [].

(** [(avg_spread, std_spread, samples)] from [spreads]. *)
Definition spread_stats (spreads : list float)
  : result (option float * option float * Z) :=
  match spreads with
  | [] => Ok (None, None, 0%Z)
  | [x] => Ok (Some x, Some 0, 1%Z)
  | _ =>
      let n := Z.of_nat (List.length spreads) in
      avg_spread <- PyFloat.div_len (PyFloat.sum spreads) n ;;
      let mu := avg_spread in
      total <- PyFloat.sum_gen 0
                 (map (fun x => PyFloat.pow2 (x - mu)) spreads) ;;
      var <- PyFloat.div_len total (n - 1) ;;
      std_spread <- PyFloat.sqrt var ;;
      Ok (Some avg_spread, Some std_spread, n)
  end.

(** The z-score of the current spread. *)
Definition zscore_of (spread_pct : float) (avg_spread std_spread : option float)
  : result (option float) :=
  match std_spread, avg_spread with
  | Some sd, Some mu =>
      if 1e-9 <? sd
      then z <- PyFloat.div (spread_pct - mu) sd ;; Ok (Some z)
      else Ok None
  | _, _ => Ok None
  end.

(** [exch_map[ex][-1][1] if exch_map[ex] else None] *)
Definition latest (m : exch_map) (ex : string) : option float :=
  match PyList.lookup String.eqb ex m with
  | Some dq => option_map snd (PyList.last_opt dq)
  | None => None
  end.

(** [exch_map[ex]] as a list. *)
Definition series_of (m : exch_map) (ex : string) : series :=
  match PyList.lookup String.eqb ex m with
  | Some dq => dq
  | None => []
  end.

Definition present (l : list (option float)) : list float :=
  flat_map (fun o => match o with Some x => [x] | None => [] end) l.

(** [fAvg]: the mean of the sides that have a funding sample. *)
Definition funding_mean (fA fB : option float) : result (option float) :=
  match present [fA; fB] with
  | [] => Ok None
  | vals =>
      m <- PyFloat.div_len (PyFloat.sum vals) (Z.of_nat (List.length vals)) ;;
      Ok (Some m)
  end.

Definition falsy_mid (m : option float) : bool :=
  match m with
  | Some x => negb (PyFloat.truthy x)
  | None => true
  end.

(** The body of the loop over [ring_prices.items()]: the record for one
    symbol, or [None] where the code says [continue]. *)
Definition make_item (window : Z) (funding : ring) (sym : value)
  (m : exch_map) : result (option item) :=
  if (List.length m <? 2)%nat then Ok None else
  match pick_pair_exchanges m with
  | (Some a, Some b) =>
      if PyStr.is_empty a || PyStr.is_empty b then Ok None else
      match latest m a, latest m b with
      | Some mA, Some mB =>
          if falsy_mid (Some mA) || falsy_mid (Some mB) then Ok None else
          let avg_mid := (mA + mB) / 2 in
          if avg_mid <=? 0 then Ok None else
          spread <- pct_spread mA mB avg_mid ;;
          spreads <- window_spreads window (series_of m a) (series_of m b) ;;
          st <- spread_stats spreads ;;
          let '(avg_spread, std_spread, n) := st in
          z <- zscore_of spread avg_spread std_spread ;;
          let f_map :=
            match PyList.lookup key_eqb sym funding with
            | Some fm => fm
            | None => []
            end in
          let fA := latest f_map a in
          let fB := latest f_map b in
          fAvg <- funding_mean fA fB ;;
          Ok (Some (mkItem sym a b
                      (PyFloat.round mA 10) (PyFloat.round mB 10)
                      (PyFloat.round spread 6)
                      (option_map (fun x => PyFloat.round x 6) avg_spread)
                      (option_map (fun x => PyFloat.round x 3) z)
                      fA fB fAvg window n))
      | _, _ => Ok None
      end
  | _ => Ok None
  end.

(** [for sym, exch_map in list(ring_prices.items())], appending to
    [items]. *)
Fixpoint collect_items (window : Z) (funding : ring) (prices : ring)
  (items : list item) : result (list item) :=
  match prices with
  | [] => Ok items
  | (sym, m) :: prices' =>
      it <- make_item window funding sym m ;;
      collect_items window funding prices'
        (match it with Some x => items ++ [x] | None => items end)
  end.

Definition abs_spread (x : item) : float := abs (spread_pct x).

Definition window_default : Z := 300.

(** [int(request.args.get("window", WINDOW_SEC_DEFAULT))]: a query
    parameter, when given, is a string. *)
Definition window_of (arg : option string) : result Z :=
  match arg with
  | Some w => PyFloat.int_of_string w
  | None => Ok window_default
  end.

(** The [try] block of [api_data] up to the sorted list. *)
Definition api_items (arg : option string) (s : store) : result (list item) :=
  window <- window_of arg ;;
  items <- collect_items window (ring_funding s) (ring_prices s) [] ;;
  Ok (PyList.sort_desc PrimFloat.ltb abs_spread items).

(** The JSON body: [{"ok": True, "updated": ..., "items": ...}] or
    [{"ok": False, "error": str(e)}]. *)
Inductive payload : Type :=
| Success (updated : string) (items : list item)
| Failure (error : exn).

Definition ok (p : payload) : bool :=
  match p with Success _ _ => true | Failure _ => false end.

(** A body and the HTTP status it is sent with. *)
Definition response : Type := (payload * Z)%type.

(** [api_data()]: [arg] is the [window] query parameter if there is one,
    [updated] the formatted current time. *)
Definition api_data (arg : option string) (updated : string) (s : store)
  : response :=
  try_except
    (items <- api_items arg s ;; Ok (Success updated items, 200%Z))
    (fun e => (Failure e, 500%Z)).

End Query.

(* ================================================================= *)
(** * Properties *)

(** ** The order of floats *)

(** The comparisons of binary64 numbers order every float but NaN.  The
    order is read off a key: the class of the number (the infinities, the
    negative and the positive finite numbers, zero of either sign), then
    exponent and mantissa, reversed for negative numbers. *)
Module FloatOrder.

#[local] Open Scope Z_scope.

Definition key : Type := (Z * (Z * Z))%type.

Definition sf_key (x : spec_float) : option key :=
  match x with
  | S754_nan => None
  | S754_infinity true => Some (-2, (0, 0))
  | S754_infinity false => Some (2, (0, 0))
  | S754_zero _ => Some (0, (0, 0))
  | S754_finite true m e => Some (-1, (- e, - Zpos m))
  | S754_finite false m e => Some (1, (e, Zpos m))
  end.

Definition key_lt (a b : key) : Prop :=
  fst a < fst b \/
  (fst a = fst b /\
   (fst (snd a) < fst (snd b) \/
    (fst (snd a) = fst (snd b) /\ snd (snd a) < snd (snd b)))).

Definition key_le (a b : key) : Prop := key_lt a b \/ a = b.

Definition fkey (x : float) : option key := sf_key (Prim2SF x).

Definition not_nan (x : float) : Prop := fkey x <> None.

Lemma key_eq_dec (a b : key) : {a = b} + {a <> b}.
Proof. repeat decide equality. Qed.

Lemma key_lt_trans a b c : key_lt a b -> key_lt b c -> key_lt a c.
Proof. unfold key_lt. destruct a as [? [? ?]], b as [? [? ?]], c as [? [? ?]]; simpl. lia. Qed.

Lemma key_lt_irrefl a : ~ key_lt a a.
Proof. unfold key_lt. destruct a as [? [? ?]]; simpl. lia. Qed.

Lemma key_le_trans a b c : key_le a b -> key_le b c -> key_le a c.
Proof.
  unfold key_le. intros [H1 | ->] [H2 | ->]; auto.
  left. eapply key_lt_trans; eauto.
Qed.

Lemma key_total a b : key_lt a b \/ a = b \/ key_lt b a.
Proof.
  unfold key_lt. destruct a as [a1 [a2 a3]], b as [b1 [b2 b3]]; simpl.
  destruct (Z.lt_trichotomy a1 b1) as [?|[?|?]]; [lia| |lia].
  destruct (Z.lt_trichotomy a2 b2) as [?|[?|?]]; [lia| |lia].
  destruct (Z.lt_trichotomy a3 b3) as [?|[?|?]]; [lia| |lia].
  right. left. congruence.
Qed.

(** [SFcompare] is the comparison of the keys. *)
Lemma SFcompare_key (x y : spec_float) :
  match SFcompare x y with
  | None => sf_key x = None \/ sf_key y = None
  | Some c =>
      exists a b, sf_key x = Some a /\ sf_key y = Some b /\
        match c with
        | Lt => key_lt a b
        | Eq => a = b
        | Gt => key_lt b a
        end
  end.
Proof.
  destruct x as [sx|sx| |sx mx ex], y as [sy|sy| |sy my ey]; simpl;
    try (left; reflexivity); try (right; reflexivity);
    try (destruct sx); try (destruct sy); simpl;
    try (eexists; eexists; split; [reflexivity|split; [reflexivity|]];
         first [reflexivity | unfold key_lt; simpl; lia]).
  - destruct (Z.compare_spec ex ey);
      [ fold (Pos.compare mx my); destruct (Pos.compare_spec mx my) | | ];
      simpl; eexists; eexists; (split; [reflexivity|split; [reflexivity|]]);
      first [ subst; reflexivity | unfold key_lt; simpl; lia ].
  - destruct (Z.compare_spec ex ey);
      [ fold (Pos.compare mx my); destruct (Pos.compare_spec mx my) | | ];
      simpl; eexists; eexists; (split; [reflexivity|split; [reflexivity|]]);
      first [ subst; reflexivity | unfold key_lt; simpl; lia ].
Qed.

Lemma ltb_key (x y : float) :
  (x <? y)%float = true <->
  exists a b, fkey x = Some a /\ fkey y = Some b /\ key_lt a b.
Proof.
  rewrite ltb_spec. unfold SFltb, fkey.
  pose proof (SFcompare_key (Prim2SF x) (Prim2SF y)) as H.
  destruct (SFcompare (Prim2SF x) (Prim2SF y)) as [[| |]|].
  - destruct H as (a & b & Ha & Hb & Hab). split; [discriminate|].
    intros (a' & b' & Ha' & Hb' & Hlt). exfalso.
    rewrite Ha in Ha'. rewrite Hb in Hb'. inversion Ha'; inversion Hb'; subst.
    eapply key_lt_irrefl; eauto.
  - destruct H as (a & b & Ha & Hb & Hab). split; eauto 6.
  - destruct H as (a & b & Ha & Hb & Hab). split; [discriminate|].
    intros (a' & b' & Ha' & Hb' & Hlt). exfalso.
    rewrite Ha in Ha'. rewrite Hb in Hb'. inversion Ha'; inversion Hb'; subst.
    eapply key_lt_irrefl. eapply key_lt_trans; eauto.
  - split; [discriminate|]. intros (a' & b' & Ha' & Hb' & Hlt).
    destruct H as [H|H]; congruence.
Qed.

Lemma eqb_key (x y : float) :
  (x =? y)%float = true <->
  exists a, fkey x = Some a /\ fkey y = Some a.
Proof.
  rewrite eqb_spec. unfold SFeqb, fkey.
  pose proof (SFcompare_key (Prim2SF x) (Prim2SF y)) as H.
  destruct (SFcompare (Prim2SF x) (Prim2SF y)) as [[| |]|].
  - destruct H as (a & b & Ha & Hb & Hab). subst. split; eauto.
  - destruct H as (a & b & Ha & Hb & Hab). split; [discriminate|].
    intros (a' & Ha' & Hb'). exfalso.
    rewrite Ha in Ha'. rewrite Hb in Hb'. inversion Ha'; inversion Hb'; subst.
    eapply key_lt_irrefl; eauto.
  - destruct H as (a & b & Ha & Hb & Hab). split; [discriminate|].
    intros (a' & Ha' & Hb'). exfalso.
    rewrite Ha in Ha'. rewrite Hb in Hb'. inversion Ha'; inversion Hb'; subst.
    eapply key_lt_irrefl; eauto.
  - split; [discriminate|]. intros (a' & Ha' & Hb').
    destruct H as [H|H]; congruence.
Qed.

Lemma leb_key (x y : float) :
  (x <=? y)%float = true <->
  exists a b, fkey x = Some a /\ fkey y = Some b /\ key_le a b.
Proof.
  rewrite leb_spec. unfold SFleb, fkey.
  pose proof (SFcompare_key (Prim2SF x) (Prim2SF y)) as H.
  destruct (SFcompare (Prim2SF x) (Prim2SF y)) as [[| |]|].
  - destruct H as (a & b & Ha & Hb & Hab). subst.
    split; auto. intros _. exists b, b. unfold key_le. auto.
  - destruct H as (a & b & Ha & Hb & Hab).
    split; auto. intros _. exists a, b. unfold key_le. auto.
  - destruct H as (a & b & Ha & Hb & Hab). split; [discriminate|].
    intros (a' & b' & Ha' & Hb' & Hle). exfalso.
    rewrite Ha in Ha'. rewrite Hb in Hb'. inversion Ha'; inversion Hb'; subst.
    destruct Hle as [Hlt | ->].
    + eapply key_lt_irrefl. eapply key_lt_trans; eauto.
    + eapply key_lt_irrefl; eauto.
  - split; [discriminate|]. intros (a' & b' & Ha' & Hb' & Hlt).
    destruct H as [H|H]; congruence.
Qed.

(** Consequences used below. *)

Lemma ltb_true_neq (x y : float) :
  (x <? y)%float = true -> (y =? x)%float = false.
Proof.
  intros H. apply ltb_key in H. destruct H as (a & b & Ha & Hb & Hlt).
  destruct (y =? x)%float eqn:E; auto.
  apply eqb_key in E. destruct E as (c & Hc1 & Hc2).
  rewrite Hb in Hc1. rewrite Ha in Hc2. inversion Hc1; inversion Hc2; subst.
  exfalso. eapply key_lt_irrefl; eauto.
Qed.

Lemma ltb_true_leb_false (x y : float) :
  (x <? y)%float = true -> (y <=? x)%float = false.
Proof.
  intros H. apply ltb_key in H. destruct H as (a & b & Ha & Hb & Hlt).
  destruct (y <=? x)%float eqn:E; auto.
  apply leb_key in E. destruct E as (c & d & Hc & Hd & Hle).
  rewrite Hb in Hc. rewrite Ha in Hd. inversion Hc; inversion Hd; subst.
  exfalso. destruct Hle as [Hlt' | ->].
  - eapply key_lt_irrefl. eapply key_lt_trans; eauto.
  - eapply key_lt_irrefl; eauto.
Qed.

Lemma leb_true_ltb_false (x y : float) :
  (x <=? y)%float = true -> (y <? x)%float = false.
Proof.
  intros H. destruct (y <? x)%float eqn:E; auto.
  apply ltb_true_leb_false in E. congruence.
Qed.

Lemma ltb_false_leb (x y : float) :
  not_nan x -> not_nan y -> (x <? y)%float = false -> (y <=? x)%float = true.
Proof.
  unfold not_nan. intros Hx Hy H.
  destruct (fkey x) as [a|] eqn:Ha; [|congruence].
  destruct (fkey y) as [b|] eqn:Hb; [|congruence].
  apply leb_key. exists b, a. repeat split; auto.
  destruct (key_total a b) as [Hlt|[->|Hlt]].
  - assert ((x <? y)%float = true) by (apply ltb_key; eauto 6). congruence.
  - right; reflexivity.
  - left; assumption.
Qed.

Lemma leb_trans (x y z : float) :
  (x <=? y)%float = true -> (y <=? z)%float = true -> (x <=? z)%float = true.
Proof.
  intros H1 H2. apply leb_key in H1, H2. apply leb_key.
  destruct H1 as (a & b & Ha & Hb & Hab), H2 as (b' & c & Hb' & Hc & Hbc).
  rewrite Hb in Hb'. inversion Hb'; subst.
  exists a, c. repeat split; auto. eapply key_le_trans; eauto.
Qed.

Lemma leb_ltb_trans (x y z : float) :
  (x <=? y)%float = true -> (y <? z)%float = true -> (x <? z)%float = true.
Proof.
  intros H1 H2. apply leb_key in H1. apply ltb_key in H2. apply ltb_key.
  destruct H1 as (a & b & Ha & Hb & Hab), H2 as (b' & c & Hb' & Hc & Hbc).
  rewrite Hb in Hb'. inversion Hb'; subst.
  exists a, c. repeat split; auto.
  destruct Hab as [Hab | ->]; auto. eapply key_lt_trans; eauto.
Qed.

Lemma is_nan_key (x : float) : PyFloat.is_nan x = true <-> fkey x = None.
Proof.
  unfold PyFloat.is_nan. rewrite negb_true_iff. split.
  - intros H. destruct (fkey x) as [a|] eqn:E; auto.
    assert ((x =? x)%float = true) by (apply eqb_key; eauto). congruence.
  - intros H. destruct (x =? x)%float eqn:E; auto.
    apply eqb_key in E. destruct E as (a & Ha & _). congruence.
Qed.

Lemma not_nan_iff (x : float) : not_nan x <-> PyFloat.is_nan x = false.
Proof.
  unfold not_nan. rewrite <- is_nan_key.
  destruct (PyFloat.is_nan x); split; congruence.
Qed.

Lemma abs_not_nan (x : float) : not_nan x -> not_nan (abs x).
Proof.
  unfold not_nan, fkey. rewrite abs_spec.
  destruct (Prim2SF x) as [s|s| |s m e]; simpl; try congruence.
Qed.

Lemma abs_is_nan (x : float) : PyFloat.is_nan (abs x) = PyFloat.is_nan x.
Proof.
  destruct (PyFloat.is_nan x) eqn:E.
  - apply is_nan_key. apply is_nan_key in E. unfold fkey in *.
    rewrite abs_spec. destruct (Prim2SF x) as [s|[|]| |[|] m e]; simpl in *; congruence.
  - apply not_nan_iff. apply abs_not_nan. apply not_nan_iff. assumption.
Qed.

Lemma ltb_true_leb (x y : float) :
  (x <? y)%float = true -> (x <=? y)%float = true.
Proof.
  intros H. apply ltb_key in H. destruct H as (a & b & Ha & Hb & Hlt).
  apply leb_key. exists a, b. repeat split; auto. left. exact Hlt.
Qed.

Lemma leb_false_ltb (x y : float) :
  not_nan x -> not_nan y -> (x <=? y)%float = false -> (y <? x)%float = true.
Proof.
  intros Hx Hy H. destruct (y <? x)%float eqn:E; auto.
  apply ltb_false_leb in E; auto. congruence.
Qed.

(** A float above a non-negative bound is not zero. *)
Lemma above_bound_nonzero (c x : float) :
  (0 <=? c)%float = true -> (c <? x)%float = true -> (x =? 0)%float = false.
Proof.
  intros Hc Hx. apply ltb_true_neq. eapply leb_ltb_trans; eassumption.
Qed.

End FloatOrder.

(* ================================================================= *)
(** ** The normalizer *)

Module NormalizerProps.

Import PyVal Normalizer.
#[local] Open Scope string_scope.
#[local] Open Scope float_scope.

(** *** [mid_from_bid_ask] *)

(** C5.  [mid_from_bid_ask(b, a)] returns [(a + b) / 2] exactly when
    [float(b)] and [float(a)] both succeed with [b > 0], [a > 0] and
    [a >= b]; it is a total function into an optional float, so it never
    raises, and it returns [None] when either conversion fails, when
    [a < b], and when either number is [<= 0]. *)
Theorem mid_from_bid_ask_spec (b a : value) :
  (forall m : float,
     mid_from_bid_ask b a = Some m <->
     exists fb fa : float,
       py_float b = Ok fb /\ py_float a = Ok fa /\
       (0 <? fb) = true /\ (0 <? fa) = true /\ (fb <=? fa) = true /\
       m = (fa + fb) / 2)
  /\ (raises (py_float b) = true \/ raises (py_float a) = true ->
      mid_from_bid_ask b a = None)
  /\ (forall fb fa : float,
        py_float b = Ok fb -> py_float a = Ok fa ->
        (fa <? fb) = true \/ (fb <=? 0) = true \/ (fa <=? 0) = true ->
        mid_from_bid_ask b a = None).
Proof.
  unfold mid_from_bid_ask, mid_body, try_except, bind.
  split; [|split].
  - intros m. split.
    + destruct (py_float b) as [fb|]; [|discriminate].
      destruct (py_float a) as [fa|]; [|discriminate].
      destruct (0 <? fb) eqn:Eb; [|discriminate].
      destruct (0 <? fa) eqn:Ea; [|discriminate].
      destruct (fb <=? fa) eqn:Eab; [|discriminate].
      simpl. intros H. inversion H; subst. exists fb, fa. auto 10.
    + intros (fb & fa & -> & -> & -> & -> & -> & ->). reflexivity.
  - intros [H|H].
    + destruct (py_float b); [discriminate|reflexivity].
    + destruct (py_float b); [|reflexivity].
      destruct (py_float a); [discriminate|reflexivity].
  - intros fb fa -> -> [H|[H|H]].
    + apply FloatOrder.ltb_true_leb_false in H. rewrite H.
      rewrite andb_false_r. reflexivity.
    + apply FloatOrder.leb_true_ltb_false in H. rewrite H. reflexivity.
    + apply FloatOrder.leb_true_ltb_false in H. rewrite H.
      rewrite andb_false_r. reflexivity.
Qed.

(** The example of the specification: asks and bids given as strings. *)
Example mid_from_bid_ask_example :
  mid_from_bid_ask (VStr "100.0") (VStr "100.2") = Some 100.1
  /\ mid_from_bid_ask (VStr "100.2") (VStr "100.0") = None
  /\ mid_from_bid_ask (VInt 0) (VInt 5) = None
  /\ mid_from_bid_ask (VStr "n/a") (VInt 5) = None
  /\ mid_from_bid_ask VNone (VList []) = None.
Proof. vm_compute. repeat split. Qed.

(** What [float()] and [int()] read from a string. *)
Example float_of_string_examples :
  PyFloat.float_of_string " 1_000.5e-1 " = Ok 100.05
  /\ PyFloat.float_of_string "-Infinity" = Ok neg_infinity
  /\ PyFloat.float_of_string "１.５" = Ok 1.5
  /\ PyFloat.float_of_string "1e400" = Ok infinity
  /\ PyFloat.float_of_string "1__0" = Raise ValueError
  /\ PyFloat.float_of_string (String (ascii_of_nat 28) "1") = Raise ValueError
  /\ PyFloat.int_of_string " +３００ " = Ok 300%Z
  /\ PyFloat.int_of_string "12.5" = Raise ValueError
  /\ PyFloat.int_of_string
       (PyStr.of_chars (repeat "1"%char PyFloat.max_str_digits))
     = Ok ((10 ^ 4300 - 1) / 9)%Z
  /\ PyFloat.int_of_string
       (PyStr.of_chars (repeat "1"%char (S PyFloat.max_str_digits)))
     = Raise ValueError.
Proof. vm_compute. repeat split. Qed.

(** *** [guess_funding] *)

Fixpoint first_some {A B : Type} (f : A -> option B) (l : list A) : option B :=
  match l with
  | [] => None
  | x :: l' =>
      match f x with
      | Some y => Some y
      | None => first_some f l'
      end
  end.

(** What one candidate value yields in the code: the direct parse, else
    the parse of its string form with every percent sign removed, over
    100. *)
Definition candidate_number (v : value) : option float :=
  match v with
  | VNone => None
  | _ =>
      match py_float v with
      | Ok f => Some f
      | Raise _ =>
          match float_of_str_without_percent v with
          | Ok f => Some (f / 100)
          | Raise _ => None
          end
      end
  end.

(** What one candidate value yields as the claim words it: the direct
    parse, else the parse of the value with a trailing percent sign
    stripped, over 100. *)
Definition candidate_number_as_claimed (v : value) : option float :=
  match v with
  | VNone => None
  | _ =>
      match py_float v with
      | Ok f => Some f
      | Raise _ =>
          let stripped :=
            match v with
            | VStr s => PyFloat.float_of_string (PyStr.strip_trailing "%" s)
            | _ => float_of_str_without_percent v
            end in
          match stripped with
          | Ok f => Some (f / 100)
          | Raise _ => None
          end
      end
  end.

(** The first candidate field, in the fixed order, that yields a number. *)
Definition first_funding (number : value -> option float)
  (entries : list (string * value)) : option float :=
  first_some (fun k => number (dict_get entries k)) funding_keys.

Lemma guess_funding_from_dict (keys : list string) (entries : list (string * value)) :
  guess_funding_from keys (VDict entries) =
  Ok (first_some (fun k => candidate_number (dict_get entries k)) keys).
Proof.
  induction keys as [|k keys IH]; [reflexivity|].
  cbn [guess_funding_from first_some bind attr_get].
  unfold candidate_number.
  destruct (dict_get entries k) eqn:E; cbv beta iota; try exact IH;
    match goal with
    | |- context [py_float ?v] => destruct (py_float v); [reflexivity|]
    end;
    match goal with
    | |- context [float_of_str_without_percent ?v] =>
        destruct (float_of_str_without_percent v); [reflexivity|exact IH]
    end.
Qed.

(** C6, as the code has it.  On a row object [guess_funding] returns the
    number of the first candidate field, in the order [fundingRate],
    [funding], [fr], [funding_rate], [fundingRate8h], that yields one; a
    candidate yields its direct parse or, failing that, the parse of its
    string form with every percent sign removed, divided by 100; when no
    candidate yields a number the funding is absent.  A row whose only
    candidate field is an alternate one holding ["0.01%"] has funding
    [0.0001]. *)
Theorem guess_funding_spec (entries : list (string * value)) :
  guess_funding (VDict entries) = Ok (first_funding candidate_number entries)
  /\ Forall (fun k => guess_funding (VDict [(k, VStr "0.01%")]) = Ok (Some 0.0001))
       (tl funding_keys).
Proof.
  split.
  - apply guess_funding_from_dict.
  - unfold funding_keys. cbn [tl].
    repeat (apply Forall_cons; [vm_compute; reflexivity|]).
    apply Forall_nil.
Qed.

(** C6 as worded fails: with ["1%5"] under the primary field there is no
    trailing percent sign to strip, so the claimed procedure finds no
    number, while the code removes the inner sign and returns
    [15 / 100]. *)
Lemma guess_funding_inner_percent :
  let entries := [("fundingRate", VStr "1%5")] in
  guess_funding (VDict entries) = Ok (Some 0.15)
  /\ first_funding candidate_number_as_claimed entries = None.
Proof. vm_compute. split; reflexivity. Qed.

(** The two readings agree on every value that is not a string, and on a
    string with no percent sign before its last character. *)
Lemma candidate_number_agree (v : value) :
  match v with
  | VStr s =>
      PyStr.replace "%" "" s = PyStr.strip_trailing "%" s ->
      candidate_number v = candidate_number_as_claimed v
  | _ => candidate_number v = candidate_number_as_claimed v
  end.
Proof.
  destruct v; try reflexivity.
  intros H. unfold candidate_number, candidate_number_as_claimed.
  simpl. rewrite H. reflexivity.
Qed.

End NormalizerProps.

(* ================================================================= *)
(** ** The store *)

Module StoreProps.

Import PyVal Normalizer Store.
#[local] Open Scope Z_scope.

(** *** One deque *)

Section Deque.
Variable maxlen : Z.
Hypothesis maxlen_nonneg : 0 <= maxlen.

Lemma deque_append_below (dq : series) (x : point) :
  Z.of_nat (List.length dq) < maxlen -> deque_append maxlen dq x = dq ++ [x].
Proof.
  intros H. unfold deque_append.
  rewrite length_app. simpl.
  destruct (Z.ltb_spec maxlen (Z.of_nat (List.length dq + 1))); [lia|reflexivity].
Qed.

Lemma deque_append_full (dq : series) (x : point) :
  0 < maxlen -> Z.of_nat (List.length dq) = maxlen ->
  deque_append maxlen dq x = tl dq ++ [x].
Proof.
  intros Hpos H. unfold deque_append.
  rewrite length_app. simpl.
  destruct (Z.ltb_spec maxlen (Z.of_nat (List.length dq + 1))); [|lia].
  destruct dq; simpl in *; [lia|reflexivity].
Qed.

(** Appending drops what sticks out on the left, and nothing else. *)
Lemma deque_append_skipn (dq : series) (x : point) :
  Z.of_nat (List.length dq) <= maxlen ->
  deque_append maxlen dq x =
  skipn (List.length (dq ++ [x]) - Z.to_nat maxlen) (dq ++ [x]).
Proof.
  intros H. unfold deque_append.
  rewrite length_app. simpl.
  destruct (Z.ltb_spec maxlen (Z.of_nat (List.length dq + 1))).
  - replace (List.length dq + 1 - Z.to_nat maxlen)%nat with 1%nat by lia.
    destruct dq; reflexivity.
  - replace (List.length dq + 1 - Z.to_nat maxlen)%nat with 0%nat by lia.
    reflexivity.
Qed.

Lemma deque_append_length (dq : series) (x : point) :
  Z.of_nat (List.length dq) <= maxlen ->
  Z.of_nat (List.length (deque_append maxlen dq x)) <= maxlen.
Proof.
  intros H. rewrite deque_append_skipn by assumption.
  rewrite length_skipn, length_app. simpl. lia.
Qed.

Lemma deque_appends_length (pts : list point) (dq : series) :
  Z.of_nat (List.length dq) <= maxlen ->
  Z.of_nat (List.length (fold_left (deque_append maxlen) pts dq)) <= maxlen.
Proof.
  revert dq. induction pts as [|p pts IH]; intros dq H; simpl; [assumption|].
  apply IH. apply deque_append_length. assumption.
Qed.

(** A run of appends keeps the most recent [maxlen] elements of what was
    there and what came, in the order of arrival. *)
Lemma deque_appends_skipn (pts : list point) (dq : series) :
  Z.of_nat (List.length dq) <= maxlen ->
  fold_left (deque_append maxlen) pts dq =
  skipn (List.length (dq ++ pts) - Z.to_nat maxlen) (dq ++ pts).
Proof.
  revert dq. induction pts as [|p pts IH]; intros dq H; simpl.
  - rewrite app_nil_r.
    replace (List.length dq - Z.to_nat maxlen)%nat with 0%nat by lia.
    reflexivity.
  - rewrite IH by (apply deque_append_length; assumption).
    rewrite deque_append_skipn by assumption.
    set (k := (List.length (dq ++ [p]) - Z.to_nat maxlen)%nat).
    assert (E : skipn k (dq ++ [p]) ++ pts = skipn k ((dq ++ [p]) ++ pts)).
    { rewrite (skipn_app k (dq ++ [p]) pts).
      replace (k - List.length (dq ++ [p]))%nat with 0%nat by (unfold k; lia).
      reflexivity. }
    rewrite E, skipn_skipn.
    replace ((dq ++ [p]) ++ pts) with (dq ++ p :: pts)
      by (rewrite <- app_assoc; reflexivity).
    f_equal.
    rewrite length_skipn. unfold k.
    rewrite !length_app. simpl. lia.
Qed.

End Deque.

(** *** Dicts updated in place *)

Section Update.
Context {K V : Type}.
Variable eqb : K -> K -> bool.
Variables (f : V -> V) (default : V).

Definition found_or_default (k : K) (d : list (K * V)) : V :=
  match PyList.lookup eqb k d with
  | Some v => v
  | None => default
  end.

(** After an update a key holds what it held, or [f] of what it held. *)
Lemma lookup_update (k k' : K) (d : list (K * V)) :
  PyList.lookup eqb k' (PyList.update eqb k f default d) = PyList.lookup eqb k' d
  \/ PyList.lookup eqb k' (PyList.update eqb k f default d) =
     Some (f (found_or_default k' d)).
Proof.
  unfold found_or_default.
  induction d as [|[k0 v] d IH]; simpl.
  - destruct (eqb k k'); auto.
  - destruct (eqb k0 k) eqn:E; simpl.
    + destruct (eqb k0 k'); auto.
    + destruct (eqb k0 k'); auto.
Qed.

Lemma update_values (P : V -> Prop) (k : K) (d : list (K * V)) :
  (forall k' v, In (k', v) d -> P v) ->
  P default -> (forall v, P v -> P (f v)) ->
  forall k' v, In (k', v) (PyList.update eqb k f default d) -> P v.
Proof.
  intros Hd Hdef Hf. induction d as [|[k0 v0] d IH]; simpl; intros k' v.
  - intros [H|[]]. inversion H; subst. auto.
  - destruct (eqb k0 k).
    + intros [H|H].
      * inversion H; subst. apply Hf. eapply Hd. left; reflexivity.
      * eapply Hd. right; eassumption.
    + intros [H|H].
      * inversion H; subst. eapply Hd. left; reflexivity.
      * eapply IH; eauto. intros; eapply Hd; right; eassumption.
Qed.

End Update.

(** *** The rings *)

(** Every series of the ring holds at most [maxlen] samples. *)
Definition bounded (maxlen : Z) (r : ring) : Prop :=
  forall name m, In (name, m) r ->
  forall exch dq, In (exch, dq) m -> Z.of_nat (List.length dq) <= maxlen.

(** [r'] comes from [r] by appending, series by series, samples stamped
    [ts] to the right end of a [deque(maxlen=maxlen)]. *)
Definition appended (maxlen ts : Z) (r r' : ring) : Prop :=
  forall name exch, exists pts : list point,
    Forall (fun p => fst p = ts) pts /\
    get_series r' name exch =
    fold_left (deque_append maxlen) pts (get_series r name exch).

Lemma appended_refl maxlen ts r : appended maxlen ts r r.
Proof. intros name exch. exists []. split; [constructor|reflexivity]. Qed.

Lemma appended_trans maxlen ts r1 r2 r3 :
  appended maxlen ts r1 r2 -> appended maxlen ts r2 r3 -> appended maxlen ts r1 r3.
Proof.
  intros H12 H23 name exch.
  destruct (H12 name exch) as (p1 & F1 & E1).
  destruct (H23 name exch) as (p2 & F2 & E2).
  exists (p1 ++ p2). split.
  - apply Forall_app; auto.
  - rewrite E2, E1, fold_left_app. reflexivity.
Qed.

Lemma ring_append_bounded maxlen name exch pt r r' :
  0 <= maxlen -> bounded maxlen r ->
  ring_append maxlen name exch pt r = Ok r' -> bounded maxlen r'.
Proof.
  unfold ring_append. intros Hm Hb.
  destruct (hashable name); [|discriminate].
  intros H. inversion H; subst; clear H.
  intros name' m Hin.
  refine (@update_values _ _ key_eqb _ []
            (fun m => forall exch dq, In (exch, dq) m ->
                      Z.of_nat (List.length dq) <= maxlen)
            name r Hb _ _ name' m Hin).
  - intros ? ? [].
  - intros m0 Hm0 exch' dq Hin'.
    refine (@update_values _ _ String.eqb _ []
              (fun dq : series => Z.of_nat (List.length dq) <= maxlen)
              exch m0 Hm0 _ _ exch' dq Hin').
    + simpl. lia.
    + intros dq0 Hdq. apply deque_append_length; assumption.
Qed.

Lemma ring_append_appended maxlen name exch ts x r r' :
  ring_append maxlen name exch (ts, x) r = Ok r' -> appended maxlen ts r r'.
Proof.
  unfold ring_append.
  destruct (hashable name); [|discriminate].
  intros H. inversion H; subst; clear H.
  intros name' exch'. unfold get_series, exch_map.
  set (app := fun dq : series => deque_append maxlen dq (ts, x)).
  set (inner := PyList.update String.eqb exch app []).
  assert (Inner : forall m0 : list (string * series),
            exists pts : list point,
              Forall (fun p => fst p = ts) pts /\
              match PyList.lookup String.eqb exch' (inner m0) with
              | Some dq => dq
              | None => []
              end =
              fold_left (deque_append maxlen) pts
                match PyList.lookup String.eqb exch' m0 with
                | Some dq => dq
                | None => []
                end).
  { intros m0. unfold inner.
    destruct (lookup_update String.eqb app [] exch exch' m0) as [E|E];
      rewrite E; clear E.
    - exists []. split; [constructor|reflexivity].
    - exists [(ts, x)]. split; [repeat constructor|reflexivity]. }
  destruct (lookup_update key_eqb inner [] name name' r) as [E|E];
    rewrite E; clear E.
  - exists []. split; [constructor|reflexivity].
  - unfold found_or_default.
    destruct (@PyList.lookup value (list (string * series)) key_eqb name' r)
      as [m0|]; apply Inner.
Qed.

(** *** One round of the fetch loop *)

(** Whatever a round does to the store is a chain of appends, also when
    the round ends in an exception: a relation that holds across every
    append and is reflexive and transitive holds across the round. *)
Section Rounds.
Variable ts : Z.
Variable R : store -> store -> Prop.
Hypothesis R_refl : forall s, R s s.
Hypothesis R_trans : forall s1 s2 s3, R s1 s2 -> R s2 s3 -> R s1 s3.
Hypothesis R_prices : forall s name exch x r',
  ring_append price_maxlen name exch (ts, x) (ring_prices s) = Ok r' ->
  R s (mkStore r' (ring_funding s)).
Hypothesis R_funding : forall s name exch x r',
  ring_append funding_maxlen name exch (ts, x) (ring_funding s) = Ok r' ->
  R s (mkStore (ring_prices s) r').

Definition respects {A : Type} (m : M A) : Prop := forall s, R s (snd (m s)).

Lemma respects_ret {A} (a : A) : respects (ret a).
Proof. intros s. apply R_refl. Qed.

Lemma respects_lift {A} (r : result A) : respects (lift r).
Proof. intros s. apply R_refl. Qed.

Lemma respects_mbind {A B} (m : M A) (k : A -> M B) :
  respects m -> (forall a, respects (k a)) -> respects (mbind m k).
Proof.
  intros Hm Hk s. unfold mbind. specialize (Hm s).
  destruct (m s) as [[a|e] s']; simpl in *.
  - eapply R_trans; [exact Hm|]. apply Hk.
  - exact Hm.
Qed.

Lemma respects_store_row exch r : respects (store_row ts exch r).
Proof.
  unfold store_row. apply respects_mbind.
  - destruct (mid_from_bid_ask (row_b r) (row_a r)) as [m|]; [|apply respects_ret].
    intros s. unfold on_prices.
    destruct (ring_append price_maxlen (row_name r) exch (ts, m) (ring_prices s))
      as [r'|e] eqn:E; simpl.
    + eapply R_prices; eassumption.
    + apply R_refl.
  - intros _. destruct (row_funding r) as [f|]; [|apply respects_ret].
    intros s. unfold on_funding.
    destruct (ring_append funding_maxlen (row_name r) exch (ts, f) (ring_funding s))
      as [r'|e] eqn:E; simpl.
    + eapply R_funding; eassumption.
    + apply R_refl.
Qed.

Lemma respects_store_rows exch rows : respects (store_rows ts exch rows).
Proof.
  induction rows as [|r rows IH]; simpl.
  - apply respects_ret.
  - apply respects_mbind; [apply respects_store_row|intros _; exact IH].
Qed.

Lemma respects_store_sections secs : respects (store_sections ts secs).
Proof.
  induction secs as [|[exch rows] secs IH]; simpl.
  - apply respects_ret.
  - apply respects_mbind; [apply respects_store_rows|intros _; exact IH].
Qed.

Lemma respects_fetch_once upstream s : R s (fetch_once upstream ts s).
Proof.
  unfold fetch_once, fetch_body.
  apply respects_mbind; [apply respects_lift|]. intros j.
  apply respects_mbind; [apply respects_lift|]. intros secs.
  apply respects_store_sections.
Qed.

End Rounds.

Definition store_bounded (s : store) : Prop :=
  bounded price_maxlen (ring_prices s) /\ bounded funding_maxlen (ring_funding s).

Definition store_appended (ts : Z) (s s' : store) : Prop :=
  appended price_maxlen ts (ring_prices s) (ring_prices s') /\
  appended funding_maxlen ts (ring_funding s) (ring_funding s').

Lemma fetch_once_bounded upstream ts s :
  store_bounded s -> store_bounded (fetch_once upstream ts s).
Proof.
  apply (@respects_fetch_once ts
           (fun s s' => store_bounded s -> store_bounded s')).
  - auto.
  - auto.
  - intros s0 name exch x r' E [Hp Hf]. split; simpl; [|exact Hf].
    eapply ring_append_bounded; [|exact Hp|exact E]. unfold price_maxlen. lia.
  - intros s0 name exch x r' E [Hp Hf]. split; simpl; [exact Hp|].
    eapply ring_append_bounded; [|exact Hf|exact E]. unfold funding_maxlen. lia.
Qed.

Lemma fetch_once_appended upstream ts s :
  store_appended ts s (fetch_once upstream ts s).
Proof.
  apply (@respects_fetch_once ts (store_appended ts)).
  - intros s0. split; apply appended_refl.
  - intros s1 s2 s3 [P12 F12] [P23 F23].
    split; eapply appended_trans; eassumption.
  - intros s0 name exch x r' E. split; simpl.
    + eapply ring_append_appended; eassumption.
    + apply appended_refl.
  - intros s0 name exch x r' E. split; simpl.
    + apply appended_refl.
    + eapply ring_append_appended; eassumption.
Qed.

Lemma reachable_bounded s : reachable s -> store_bounded s.
Proof.
  induction 1 as [|s upstream ts _ IH].
  - split; intros name m [].
  - apply fetch_once_bounded. exact IH.
Qed.

(** C7.  The price series hold at most 6000 samples and the funding
    series at most 14400, in every state the fetch loop can reach and
    under every key; a round of the loop changes a series only by appending
    at its right end, through [deque.append]; an append to a series below
    capacity adds the sample and an append to a full series also removes
    its oldest element; and after any number of appends to a new series
    the series holds the last [maxlen] samples appended, in the order they
    were appended. *)
Theorem store_series_bounded_fifo :
  price_maxlen = 6000 /\ funding_maxlen = 14400 /\ price_maxlen < funding_maxlen
  /\ (forall s : store, reachable s ->
        bounded price_maxlen (ring_prices s) /\
        bounded funding_maxlen (ring_funding s))
  /\ (forall (s : store) (upstream : result value) (ts : Z),
        appended price_maxlen ts (ring_prices s)
          (ring_prices (fetch_once upstream ts s)) /\
        appended funding_maxlen ts (ring_funding s)
          (ring_funding (fetch_once upstream ts s)))
  /\ (forall (maxlen : Z) (dq : series) (x : point),
        0 < maxlen -> Z.of_nat (List.length dq) <= maxlen ->
        deque_append maxlen dq x =
        if Z.of_nat (List.length dq) <? maxlen then dq ++ [x] else tl dq ++ [x])
  /\ (forall (maxlen : Z) (pts : list point),
        0 <= maxlen ->
        fold_left (deque_append maxlen) pts [] =
        skipn (List.length pts - Z.to_nat maxlen) pts).
Proof.
  split; [reflexivity|]. split; [reflexivity|]. split; [reflexivity|].
  split; [exact reachable_bounded|].
  split; [intros s upstream ts; apply fetch_once_appended|].
  split.
  - intros maxlen dq x Hpos Hle.
    destruct (Z.ltb_spec (Z.of_nat (List.length dq)) maxlen).
    + apply deque_append_below. assumption.
    + apply deque_append_full; lia.
  - intros maxlen pts Hm.
    rewrite deque_appends_skipn by (simpl; lia). reflexivity.
Qed.

(** A deque of capacity 3 after five appends. *)
Example deque_append_example :
  fold_left (deque_append 3)
    [(1, 1%float); (2, 2%float); (3, 3%float); (4, 4%float); (5, 5%float)] []
  = [(3, 3%float); (4, 4%float); (5, 5%float)].
Proof. reflexivity. Qed.

End StoreProps.

(* ================================================================= *)
(** ** Ingestion: what the normalizer returns and what reaches the store *)

Module IngestProps.

Import PyVal Normalizer Store.
#[local] Open Scope string_scope.

Definition is_dict (v : value) : bool :=
  match v with VDict _ => true | _ => false end.

(** A row has a usable price when bid and ask give a mid, and a usable
    funding value when [guess_funding] found a number. *)
Definition row_usable (r : row) : bool :=
  match mid_from_bid_ask (row_b r) (row_a r), row_funding r with
  | None, None => false
  | _, _ => true
  end.

(** *** Rows *)

Lemma parse_row_not_dict (it : value) :
  is_dict it = false -> parse_row it = Raise AttributeError.
Proof. destruct it; try reflexivity. discriminate. Qed.

Lemma parse_row_dict (entries : list (string * value)) :
  exists r, parse_row (VDict entries) = Ok r.
Proof.
  unfold parse_row, guess_funding.
  rewrite NormalizerProps.guess_funding_from_dict.
  cbn [attr_get bind].
  destruct (negb _ || _ || _); cbn [bind]; eexists; reflexivity.
Qed.

Lemma parse_rows_elementwise (lst : list value) (rows : list row) :
  parse_rows lst = Ok rows ->
  Forall2 (fun it r => parse_row it = Ok r) lst rows.
Proof.
  revert rows. induction lst as [|it lst IH]; simpl; intros rows H.
  - inversion H. constructor.
  - destruct (parse_row it) as [r|] eqn:Er; [|discriminate]. simpl in H.
    destruct (parse_rows lst) as [rs|]; [|discriminate]. simpl in H.
    inversion H; subst. constructor; auto.
Qed.

Lemma parse_rows_all_dicts (lst : list value) :
  forallb is_dict lst = true -> exists rows, parse_rows lst = Ok rows.
Proof.
  induction lst as [|it lst IH]; simpl; intros H.
  - eexists; reflexivity.
  - apply andb_true_iff in H. destruct H as [Hit Hl].
    destruct it; try discriminate.
    destruct (parse_row_dict d) as [r Er]. rewrite Er.
    destruct (IH Hl) as [rs Ers]. rewrite Ers.
    eexists; reflexivity.
Qed.

Lemma parse_rows_some_not_dict (lst : list value) :
  forallb is_dict lst = false -> parse_rows lst = Raise AttributeError.
Proof.
  induction lst as [|it lst IH]; simpl; intros H; [discriminate|].
  destruct (is_dict it) eqn:E.
  - destruct it; try discriminate.
    destruct (parse_row_dict d) as [r Er]. rewrite Er.
    simpl in H. rewrite (IH H). reflexivity.
  - rewrite (parse_row_not_dict _ E). reflexivity.
Qed.

(** *** Sections *)

Lemma In_set {V : Type} (k k0 : string) (v v0 : V) (d : list (string * V)) :
  In (k, v) (PyList.set String.eqb k0 v0 d) ->
  In (k, v) d \/ (k = k0 /\ v = v0).
Proof.
  induction d as [|[k' v'] d IH]; simpl.
  - intros [H|[]]. inversion H; auto.
  - destruct (String.eqb_spec k' k0); simpl.
    + intros [H|H]; [inversion H; subst; auto|auto].
    + intros [H|H]; [auto|]. destruct (IH H); auto.
Qed.

(** In a dict, an entry is what its key looks up. *)
Lemma NoDup_In_lookup {V : Type} (k : string) (v : V) (d : list (string * V)) :
  NoDup (map fst d) -> In (k, v) d -> PyList.lookup String.eqb k d = Some v.
Proof.
  induction d as [|[k' v'] d IH]; simpl; intros Hn Hin; [contradiction|].
  inversion Hn as [|? ? Hk Hd]; subst.
  destruct Hin as [Hin|Hin].
  - inversion Hin; subst. rewrite String.eqb_refl. reflexivity.
  - destruct (String.eqb_spec k' k) as [->|_]; [|auto].
    exfalso. apply Hk. apply in_map_iff. exists (k, v). split; auto.
Qed.

(** Every row list of the result is the list of one section, parsed
    element by element. *)
Definition from_section (exch : string) (rows : list row) : Prop :=
  exists (key : string) (lst : list value),
    is_section_key key = true /\ exch = exchange_of_key key /\
    Forall2 (fun it r => parse_row it = Ok r) lst rows.

Lemma parse_entries_rows (entries : list (string * value)) (out res : sections) :
  parse_entries entries out = Ok res ->
  (forall exch rows, In (exch, rows) out -> from_section exch rows) ->
  forall exch rows, In (exch, rows) res -> from_section exch rows.
Proof.
  revert out. induction entries as [|[key val] entries IH]; simpl; intros out H Hout.
  - inversion H; subst. exact Hout.
  - destruct val; try (eapply IH; eassumption).
    destruct (is_section_key key) eqn:Ek; [|eapply IH; eassumption].
    destruct (dict_get d "list"); try (eapply IH; eassumption).
    destruct (parse_rows l) as [rows0|] eqn:Er; [|discriminate]. simpl in H.
    eapply IH; [exact H|].
    intros exch rows Hin. apply In_set in Hin. destruct Hin as [Hin|[-> ->]].
    + auto.
    + exists key, l. repeat split; auto. apply parse_rows_elementwise. exact Er.
Qed.

Lemma parse_perp_sections_rows (j : value) (out : sections) :
  parse_perp_sections j = Ok out ->
  forall exch rows, In (exch, rows) out -> from_section exch rows.
Proof.
  unfold parse_perp_sections. destruct (attr_get j) as [top|]; [|discriminate].
  cbn [bind].
  destruct (if truthy (dict_get top "data") then dict_get top "data" else j);
    try (intros H; inversion H; subst; intros ? ? []).
  intros H. eapply parse_entries_rows; [exact H|]. intros ? ? [].
Qed.

(** *** What the store does with a row *)

Lemma store_row_unusable (ts : Z) (exch : string) (r : row) (s : store) :
  row_usable r = false -> store_row ts exch r s = (Ok tt, s).
Proof.
  unfold row_usable, store_row.
  destruct (mid_from_bid_ask (row_b r) (row_a r)); [discriminate|].
  destruct (row_funding r); [discriminate|]. reflexivity.
Qed.

(** C2 as worded fails: the empty object in a section's list has neither
    price nor funding, and its row is part of the result. *)
Lemma unusable_row_is_returned :
  let doc := VDict [("binancePerp", VDict [("list", VList [VDict []])])] in
  let r := mkRow VNone VNone VNone None in
  parse_perp_sections doc = Ok [("binance", [r])] /\ row_usable r = false.
Proof. vm_compute. split; reflexivity. Qed.

(** C1 fails on the code: a section list with an element that is not an
    object makes [parse_perp_sections] raise [AttributeError] (from
    [it.get]), and so does a document that is not an object (from
    [j.get]); in [fetch_loop] the exception is caught only around the whole
    round, so the usable rows of the same document are lost with it. *)
Theorem parse_perp_sections_raises :
  let bad := VDict [("binancePerp", VDict [("list", VList [VInt 1])])] in
  let mixed :=
    VDict [("okxSwap",
            VDict [("list",
                    VList [VDict [("name", VStr "BTCUSDT");
                                  ("a", VStr "100.2"); ("b", VStr "100.0")];
                           VStr "n/a"])])] in
  parse_perp_sections bad = Raise AttributeError
  /\ parse_perp_sections (VList []) = Raise AttributeError
  /\ parse_perp_sections mixed = Raise AttributeError
  /\ fetch_once (Ok mixed) 1 Store.empty = Store.empty.
Proof. vm_compute. repeat split. Qed.

(** The rows of a section parse if and only if every element of its list
    is an object. *)
Lemma parse_rows_raises_iff (lst : list value) :
  (exists rows, parse_rows lst = Ok rows) <-> forallb is_dict lst = true.
Proof.
  split.
  - intros [rows H]. destruct (forallb is_dict lst) eqn:E; [reflexivity|].
    rewrite (parse_rows_some_not_dict _ E) in H. discriminate.
  - apply parse_rows_all_dicts.
Qed.

End IngestProps.

(* ================================================================= *)
(** ** Sorting *)

Module SortProps.

Section Sorted.
Context {A K : Type}.
Variable lt : K -> K -> bool.
Variable key : A -> K.

(** [le] is the order [lt] decides on the keys that are [good]. *)
Variable le : K -> K -> Prop.
Variable good : K -> Prop.
Hypothesis le_trans : forall a b c, le a b -> le b c -> le a c.
Hypothesis lt_le : forall a b, good a -> good b -> lt a b = true -> le a b.
Hypothesis nlt_le : forall a b, good a -> good b -> lt a b = false -> le b a.

(** [x] comes no later than [y] in a descending list. *)
Definition before (x y : A) : Prop := le (key y) (key x).

Lemma insert_desc_perm (x : A) (l : list A) :
  Permutation (x :: l) (PyList.insert_desc lt key x l).
Proof.
  induction l as [|y l IH]; simpl; [reflexivity|].
  destruct (lt (key x) (key y)); [|reflexivity].
  rewrite perm_swap. constructor. exact IH.
Qed.

Lemma sort_desc_perm (l : list A) : Permutation l (PyList.sort_desc lt key l).
Proof.
  induction l as [|x l IH]; simpl; [constructor|].
  rewrite <- insert_desc_perm. constructor. exact IH.
Qed.

Lemma insert_desc_sorted (x : A) (l : list A) :
  good (key x) -> Forall (fun y => good (key y)) l ->
  StronglySorted before l ->
  StronglySorted before (PyList.insert_desc lt key x l).
Proof.
  intros Hx Hl Hs. induction Hs as [|y l Hs IH Hy]; simpl.
  - constructor; constructor.
  - inversion Hl as [|? ? Gy Gl]; subst.
    destruct (lt (key x) (key y)) eqn:E.
    + constructor; [apply IH; assumption|].
      eapply Permutation_Forall; [apply insert_desc_perm|].
      constructor; [|assumption].
      unfold before. apply lt_le; assumption.
    + assert (Hxy : before x y) by (unfold before; apply nlt_le; assumption).
      constructor; [constructor; assumption|].
      constructor; [assumption|].
      eapply Forall_impl; [|exact Hy].
      intros z Hz. unfold before in *. eapply le_trans; eassumption.
Qed.

Lemma sort_desc_sorted (l : list A) :
  Forall (fun y => good (key y)) l ->
  StronglySorted before (PyList.sort_desc lt key l).
Proof.
  induction l as [|x l IH]; simpl; intros H; [constructor|].
  inversion H; subst.
  apply insert_desc_sorted; auto.
  eapply Permutation_Forall; [apply sort_desc_perm|]. assumption.
Qed.

End Sorted.

(** The sort looks at the elements through their keys only. *)
Section Keys.
Context {A B K : Type}.
Variable lt : K -> K -> bool.

Lemma insert_desc_ext (key key' : A -> K) (x : A) (l : list A) :
  key x = key' x -> (forall y, In y l -> key y = key' y) ->
  PyList.insert_desc lt key x l = PyList.insert_desc lt key' x l.
Proof.
  intros Hx. induction l as [|y l IH]; intros Hl; simpl; [reflexivity|].
  rewrite Hx, (Hl y (or_introl eq_refl)).
  destruct (lt (key' x) (key' y)); [|reflexivity].
  f_equal. apply IH. intros z Hz. apply Hl. right. exact Hz.
Qed.

Lemma sort_desc_ext (key key' : A -> K) (l : list A) :
  (forall y, In y l -> key y = key' y) ->
  PyList.sort_desc lt key l = PyList.sort_desc lt key' l.
Proof.
  induction l as [|x l IH]; intros Hl; [reflexivity|].
  cbn [PyList.sort_desc fold_right].
  fold (PyList.sort_desc lt key l). fold (PyList.sort_desc lt key' l).
  rewrite IH by (intros y Hy; apply Hl; right; exact Hy).
  apply insert_desc_ext.
  - apply Hl. left. reflexivity.
  - intros y Hy. apply Hl. right.
    eapply Permutation_in; [|exact Hy].
    symmetry. apply sort_desc_perm.
Qed.

Lemma insert_desc_map (f : A -> B) (key : B -> K) (x : A) (l : list A) :
  PyList.insert_desc lt key (f x) (map f l) =
  map f (PyList.insert_desc lt (fun a => key (f a)) x l).
Proof.
  induction l as [|y l IH]; simpl; [reflexivity|].
  destruct (lt (key (f x)) (key (f y))); simpl; [rewrite IH|]; reflexivity.
Qed.

Lemma sort_desc_map (f : A -> B) (key : B -> K) (l : list A) :
  PyList.sort_desc lt key (map f l) =
  map f (PyList.sort_desc lt (fun a => key (f a)) l).
Proof.
  induction l as [|x l IH]; [reflexivity|].
  cbn [map PyList.sort_desc fold_right].
  fold (PyList.sort_desc lt key (map f l)).
  fold (PyList.sort_desc lt (fun a => key (f a)) l).
  rewrite IH. apply insert_desc_map.
Qed.

End Keys.

(** Integer keys: the sort is sorted and stable. *)
Section IntKeys.
Context {A : Type}.
Variable key : A -> Z.

Lemma sort_desc_Z_sorted (l : list A) :
  StronglySorted (fun x y => key y <= key x) (PyList.sort_desc Z.ltb key l).
Proof.
  apply (@sort_desc_sorted A Z Z.ltb key Z.le (fun _ => True)).
  - intros; lia.
  - intros a b _ _ H. apply Z.ltb_lt in H. lia.
  - intros a b _ _ H. apply Z.ltb_ge in H. lia.
  - apply Forall_forall. auto.
Qed.

Lemma insert_desc_Z_stable (t : Z) (x : A) (l : list A) :
  StronglySorted (fun x y => key y <= key x) l ->
  filter (fun a => key a =? t) (PyList.insert_desc Z.ltb key x l) =
  filter (fun a => key a =? t) (x :: l).
Proof.
  intros Hs. induction Hs as [|y l Hs IH Hy]; [reflexivity|].
  cbn [PyList.insert_desc].
  destruct (Z.ltb_spec (key x) (key y)) as [Hlt|Hge]; [|reflexivity].
  cbn [filter] in *. rewrite IH.
  destruct (Z.eqb_spec (key x) t), (Z.eqb_spec (key y) t); try reflexivity.
  lia.
Qed.

(** Elements with the same key leave the sort in the order they came. *)
Lemma sort_desc_Z_stable (t : Z) (l : list A) :
  filter (fun a => key a =? t) (PyList.sort_desc Z.ltb key l) =
  filter (fun a => key a =? t) l.
Proof.
  induction l as [|x l IH]; [reflexivity|].
  cbn [PyList.sort_desc fold_right].
  fold (PyList.sort_desc Z.ltb key l).
  rewrite insert_desc_Z_stable by apply sort_desc_Z_sorted.
  cbn [filter]. rewrite IH. reflexivity.
Qed.

End IntKeys.

End SortProps.

(* ================================================================= *)
(** ** Pair selection *)

Module PairProps.

Import Store Query.
#[local] Open Scope string_scope.
#[local] Open Scope list_scope.
#[local] Open Scope Z_scope.

Lemma last_opt_snoc {A : Type} (l : list A) (x : A) :
  PyList.last_opt (l ++ [x]) = Some x.
Proof. unfold PyList.last_opt. rewrite rev_unit. reflexivity. Qed.

(** The timestamp of the newest sample of a series, which is its last
    one; 0 for a series without samples. *)
Definition newest (dq : series) : Z := last (map fst dq) 0.

Lemma last_opt_newest (dq : series) :
  match PyList.last_opt dq with Some (t, _) => t | None => 0 end = newest dq.
Proof.
  unfold newest. destruct dq as [|p dq] using rev_ind; [reflexivity|].
  rewrite last_opt_snoc, map_app. cbn [map]. rewrite last_last.
  destruct p. reflexivity.
Qed.

(** The sort key of [pick_pair_exchanges] is the timestamp of the newest
    sample of the series stored under the key. *)
Lemma last_ts_newest (m : exch_map) (k : string) (dq : series) :
  NoDup (map fst m) -> In (k, dq) m -> last_ts m k = newest dq.
Proof.
  intros Hn Hin. unfold last_ts.
  rewrite (@IngestProps.NoDup_In_lookup _ _ _ _ Hn Hin).
  apply last_opt_newest.
Qed.

Lemma last_ts_empty (m : exch_map) (k : string) :
  PyList.lookup String.eqb k m = Some [] -> last_ts m k = 0.
Proof. unfold last_ts. intros ->. reflexivity. Qed.

Lemma sorted_two_or_more {A : Type} (l l' : list A) :
  Permutation l l' -> (2 <= List.length l)%nat ->
  exists a b rest, l' = a :: b :: rest.
Proof.
  intros P H. apply Permutation_length in P.
  destruct l' as [|a [|b rest]]; simpl in P; try lia. eauto.
Qed.

(** The keys sorted by [last_ts] are the entries sorted by the newest
    sample of their own series. *)
Lemma sorted_keys_entries (m : exch_map) :
  NoDup (map fst m) ->
  PyList.sort_desc Z.ltb (last_ts m) (map fst m) =
  map fst (PyList.sort_desc Z.ltb (fun e => newest (snd e)) m).
Proof.
  intros Hn. rewrite SortProps.sort_desc_map. f_equal.
  apply SortProps.sort_desc_ext. intros [k dq] Hin.
  apply last_ts_newest; assumption.
Qed.

(** C4.  [m] is the dict of the exchanges reporting an instrument, each
    with its series (a dict has no key twice).  When both ["binance"] and
    ["okx"] are keys the pair is [("binance", "okx")], whatever the
    samples.  Otherwise, with two or more keys, the pair is the keys of the
    two entries whose series have the newest last samples: the timestamp of
    the last sample of the first series is the greatest of all, that of the
    second the greatest among the others, a series without samples counting
    as timestamp 0; and entries with equal timestamps are taken in the
    order of the dict.  With fewer than two keys the result is
    [(None, None)]. *)
Theorem pick_pair_exchanges_spec (m : exch_map) :
  NoDup (map fst m) ->
  let keys := map fst m in
  let both := has_key "binance" keys && has_key "okx" keys in
  let ts (e : string * series) := last (map fst (snd e)) 0 in
  (both = true -> pick_pair_exchanges m = (Some "binance", Some "okx"))
  /\ (both = false -> (2 <= List.length keys)%nat ->
      exists (e0 e1 : string * series) (rest : list (string * series)),
        pick_pair_exchanges m = (Some (fst e0), Some (fst e1))
        /\ Permutation m (e0 :: e1 :: rest)
        /\ ts e1 <= ts e0
        /\ (forall e, In e rest -> ts e <= ts e1)
        /\ (forall t : Z,
              filter (fun e => ts e =? t) (e0 :: e1 :: rest) =
              filter (fun e => ts e =? t) m))
  /\ (both = false -> (List.length keys < 2)%nat ->
      pick_pair_exchanges m = (None, None)).
Proof.
  intros Hn keys both ts. unfold pick_pair_exchanges. fold keys. fold both.
  split; [|split].
  - intros ->. reflexivity.
  - intros -> Hlen.
    destruct (Nat.leb_spec 2 (List.length keys)) as [_|]; [|lia].
    unfold keys. rewrite (@sorted_keys_entries m Hn).
    change (fun e : string * series => newest (snd e)) with ts.
    pose proof (SortProps.sort_desc_perm Z.ltb ts m) as P.
    pose proof (SortProps.sort_desc_Z_sorted ts m) as S.
    pose proof (fun t => SortProps.sort_desc_Z_stable ts t m) as T.
    assert (Hlen' : (2 <= List.length m)%nat)
      by (unfold keys in Hlen; rewrite length_map in Hlen; exact Hlen).
    destruct (sorted_two_or_more P Hlen') as (e0 & e1 & rest & E).
    rewrite E in *. exists e0, e1, rest.
    inversion S as [|? ? S1 F0]; subst.
    inversion S1 as [|? ? S2 F1]; subst.
    inversion F0; subst.
    repeat split; auto.
    intros e He. rewrite Forall_forall in F1. auto.
  - intros -> Hlen.
    destruct (Nat.leb_spec 2 (List.length keys)) as [|_]; [lia|]. reflexivity.
Qed.

(** Three dicts: both designated exchanges present, with older samples
    than a third; two exchanges with the same newest timestamp and one
    without samples; one exchange only. *)
Lemma pick_pair_exchanges_witness :
  let m1 : exch_map :=
    [("bybit", [(9, 1%float)]); ("okx", [(1, 1%float)]);
     ("binance", [(2, 1%float)])] in
  let m2 : exch_map :=
    [("okx", []); ("bybit", [(3, 1%float); (7, 1%float)]);
     ("deribit", [(7, 1%float)]); ("gate", [(8, 1%float); (5, 1%float)])] in
  let m3 : exch_map := [("okx", [(7, 1%float)])] in
  let ts (e : string * series) := last (map fst (snd e)) 0 in
  pick_pair_exchanges m1 = (Some "binance", Some "okx")
  /\ pick_pair_exchanges m2 = (Some "bybit", Some "deribit")
  /\ (exists (e0 e1 : string * series) (rest : list (string * series)),
        pick_pair_exchanges m2 = (Some (fst e0), Some (fst e1))
        /\ Permutation m2 (e0 :: e1 :: rest)
        /\ ts e1 <= ts e0
        /\ (forall e, In e rest -> ts e <= ts e1)
        /\ (forall t : Z,
              filter (fun e => ts e =? t) (e0 :: e1 :: rest) =
              filter (fun e => ts e =? t) m2))
  /\ pick_pair_exchanges m3 = (None, None).
Proof.
  cbv zeta.
  assert (distinct : forall l : list string,
            nodup string_dec l = l -> NoDup l).
  { intros l E. rewrite <- E. apply NoDup_nodup. }
  set (m1 := [("bybit", [(9, 1%float)]); ("okx", [(1, 1%float)]);
              ("binance", [(2, 1%float)])] : exch_map).
  set (m2 := [("okx", []); ("bybit", [(3, 1%float); (7, 1%float)]);
              ("deribit", [(7, 1%float)]);
              ("gate", [(8, 1%float); (5, 1%float)])] : exch_map).
  set (m3 := [("okx", [(7, 1%float)])] : exch_map).
  assert (N1 : NoDup (map fst m1))
    by (apply distinct; vm_compute; reflexivity).
  assert (N2 : NoDup (map fst m2))
    by (apply distinct; vm_compute; reflexivity).
  assert (N3 : NoDup (map fst m3))
    by (apply distinct; vm_compute; reflexivity).
  destruct (@pick_pair_exchanges_spec m1 N1) as (A & _ & _).
  destruct (@pick_pair_exchanges_spec m2 N2) as (_ & B & _).
  destruct (@pick_pair_exchanges_spec m3 N3) as (_ & _ & C).
  split; [exact (A eq_refl)|].
  split; [vm_compute; reflexivity|].
  split; [exact (B eq_refl (le_S _ _ (le_S _ _ (le_n 2))))|].
  exact (C eq_refl (le_n 2)).
Defined.

(** The examples of the specification. *)
Example pick_pair_examples :
  pick_pair_exchanges
    [("bybit", [(9, 1%float)]); ("okx", [(1, 1%float)]); ("binance", [(2, 1%float)])]
  = (Some "binance", Some "okx")
  /\ pick_pair_exchanges [("bybit", [(5, 1%float)]); ("deribit", [(7, 1%float)])]
     = (Some "deribit", Some "bybit")
  /\ pick_pair_exchanges [("bybit", [(7, 1%float)]); ("deribit", [(7, 1%float)]); ("okx", [])]
     = (Some "bybit", Some "deribit")
  /\ pick_pair_exchanges [("okx", [(7, 1%float)])] = (None, None).
Proof. vm_compute. repeat split. Qed.

End PairProps.

(* ================================================================= *)
(** ** Rolling statistics *)

Module StatsProps.

Import Store Query.
#[local] Open Scope float_scope.

(** *** The sample sequence, as the specification describes it *)

(** The spread sample of one pair of mids: none unless the average mid is
    above zero. *)
Definition spread_sample (mA mB : float) : option float :=
  let avgm := (mA + mB) / 2 in
  if 0 <? avgm then Some ((mB - mA) / avgm * 100) else None.

Definition sample_list (pq : point * point) : list float :=
  match spread_sample (snd (fst pq)) (snd (snd pq)) with
  | Some x => [x]
  | None => []
  end.

(** The i-th most recent point of one series is paired with the i-th most
    recent point of the other, as far as the shorter series goes. *)
Definition rank_paired_spreads (seriesA seriesB : series) : list float :=
  flat_map sample_list (combine (rev seriesA) (rev seriesB)).

(** The arithmetic mean. *)
Definition mean (l : list float) : float :=
  PyFloat.sum l / PyFloat.of_Z (Z.of_nat (List.length l)).

(** The sum of squared deviations from [mu]. *)
Definition sq_dev_sum (mu : float) (l : list float) : float :=
  PyFloat.sum (map (fun x => (x - mu) * (x - mu)) l).

(** The standard deviation with Bessel's correction. *)
Definition bessel_std (l : list float) : float :=
  PrimFloat.sqrt
    (sq_dev_sum (mean l) l / PyFloat.of_Z (Z.of_nat (List.length l) - 1)).

(** Squaring the deviation of [x] overflows. *)
Definition sq_overflows (mu x : float) : bool :=
  PyFloat.is_finite (x - mu) && PyFloat.is_inf ((x - mu) * (x - mu)).

(** *** Lists read from the right *)

Lemma index_from_right {A : Type} (l : list A) (i : nat) (x : A) :
  nth_error (rev l) i = Some x ->
  PyList.index l (-1 - Z.of_nat i) = Ok x.
Proof.
  intros H.
  assert (Hi : (i < List.length l)%nat).
  { rewrite <- length_rev. apply nth_error_Some. congruence. }
  rewrite nth_error_rev in H.
  destruct (Nat.ltb_spec i (List.length l)); [|lia].
  unfold PyList.index.
  destruct (Z.ltb_spec (-1 - Z.of_nat i) 0); [|lia].
  set (j := (Z.of_nat (List.length l) + (-1 - Z.of_nat i))%Z).
  assert (Hj : Z.to_nat j = (List.length l - S i)%nat) by (unfold j; lia).
  destruct (Z.leb_spec 0 j); [|unfold j in *; lia].
  destruct (Z.ltb_spec j (Z.of_nat (List.length l))); [|unfold j in *; lia].
  simpl. rewrite Hj, H. reflexivity.
Qed.

Lemma nth_error_combine {A B : Type} (l : list A) (l' : list B) (i : nat) :
  (i < List.length (combine l l'))%nat ->
  exists a b, nth_error l i = Some a /\ nth_error l' i = Some b /\
              nth_error (combine l l') i = Some (a, b).
Proof.
  revert l' i. induction l as [|a l IH]; intros [|b l'] i H; simpl in H; try lia.
  destruct i as [|i]; simpl.
  - eauto.
  - apply IH. lia.
Qed.

Lemma skipn_nth_error {A : Type} (l : list A) (i : nat) (x : A) :
  nth_error l i = Some x -> skipn i l = x :: skipn (S i) l.
Proof.
  revert i. induction l as [|y l IH]; intros [|i] H; simpl in *; try discriminate.
  - inversion H. reflexivity.
  - apply IH. exact H.
Qed.

(** *** The loop computes the rank-paired samples *)

Lemma pct_spread_above_zero (x y avg : float) :
  (0 <? avg) = true -> pct_spread x y avg = Ok ((y - x) / avg * 100).
Proof.
  intros H. unfold pct_spread, PyFloat.div.
  rewrite (@FloatOrder.ltb_true_neq _ _ H). reflexivity.
Qed.

Lemma spread_loop_spec (seriesA seriesB : series) (cnt i : nat) (acc : list float) :
  (i + cnt <= List.length (combine (rev seriesA) (rev seriesB)))%nat ->
  spread_loop seriesA seriesB (map Z.of_nat (seq i cnt)) acc =
  Ok (acc ++ flat_map sample_list
               (firstn cnt (skipn i (combine (rev seriesA) (rev seriesB))))).
Proof.
  revert i acc. induction cnt as [|cnt IH]; intros i acc H.
  - simpl. rewrite app_nil_r. reflexivity.
  - destruct (@nth_error_combine _ _ (rev seriesA) (rev seriesB) i)
      as (pA & pB & HA & HB & HC); [lia|].
    cbn [seq map spread_loop].
    rewrite (@index_from_right _ _ _ _ HA), (@index_from_right _ _ _ _ HB).
    cbn [bind].
    rewrite (@skipn_nth_error _ _ _ _ HC). cbn [firstn flat_map].
    unfold sample_list at 1. unfold spread_sample. cbn [fst snd].
    destruct (0 <? (snd pA + snd pB) / 2) eqn:E.
    + rewrite (@pct_spread_above_zero _ _ _ E). cbn [bind].
      rewrite IH by lia. rewrite <- app_assoc. reflexivity.
    + rewrite IH by lia. reflexivity.
Qed.

(** [window_spreads] never raises: the indices stay inside both slices and
    the divisor is above zero. *)
Lemma window_spreads_spec (window : Z) (fullA fullB : series) :
  window_spreads window fullA fullB =
  Ok (rank_paired_spreads (recent window fullA) (recent window fullB)).
Proof.
  unfold window_spreads, range, rank_paired_spreads.
  set (sA := recent window fullA). set (sB := recent window fullB).
  assert (L : List.length (combine (rev sA) (rev sB)) =
              Nat.min (List.length sA) (List.length sB)).
  { rewrite length_combine, !length_rev. reflexivity. }
  rewrite spread_loop_spec by (rewrite L; lia).
  rewrite <- L. simpl. rewrite firstn_all. reflexivity.
Qed.

(** *** Mean, deviation, z-score *)

Lemma sum_gen_squares (mu : float) (l : list float) (acc : float) :
  PyFloat.sum_gen acc (map (fun x => PyFloat.pow2 (x - mu)) l) =
  if existsb (sq_overflows mu) l then Raise OverflowError
  else Ok (fold_left PrimFloat.add (map (fun x => (x - mu) * (x - mu)) l) acc).
Proof.
  revert acc. induction l as [|x l IH]; intros acc; simpl; [reflexivity|].
  unfold PyFloat.pow2 at 1. unfold sq_overflows at 1.
  destruct (PyFloat.is_finite (x - mu) && PyFloat.is_inf ((x - mu) * (x - mu)));
    simpl; [reflexivity|]. apply IH.
Qed.

Lemma stats_many_spec (spreads : list float) :
  (2 <= List.length spreads)%nat ->
  (let n := Z.of_nat (List.length spreads) in
   avg_spread <- PyFloat.div_len (PyFloat.sum spreads) n ;;
   let mu := avg_spread in
   total <- PyFloat.sum_gen 0 (map (fun x => PyFloat.pow2 (x - mu)) spreads) ;;
   var <- PyFloat.div_len total (n - 1) ;;
   std_spread <- PyFloat.sqrt var ;;
   Ok (Some avg_spread, Some std_spread, n)) =
  (let n := Z.of_nat (List.length spreads) in
   let mu := mean spreads in
   let var := sq_dev_sum mu spreads / PyFloat.of_Z (n - 1) in
   if existsb (sq_overflows mu) spreads then Raise OverflowError
   else if var <? 0 then Raise ValueError
   else Ok (Some mu, Some (bessel_std spreads), n)).
Proof.
  intros Hlen. cbv zeta.
  assert (N : (Z.of_nat (List.length spreads) =? 0)%Z = false)
    by (apply Z.eqb_neq; lia).
  assert (N1 : (Z.of_nat (List.length spreads) - 1 =? 0)%Z = false)
    by (apply Z.eqb_neq; lia).
  unfold PyFloat.div_len. rewrite N, N1. cbn [bind].
  fold (mean spreads). rewrite sum_gen_squares.
  destruct (existsb (sq_overflows (mean spreads)) spreads); [reflexivity|].
  cbn [bind]. unfold PyFloat.sqrt, bessel_std, sq_dev_sum, PyFloat.sum.
  destruct (_ <? 0); reflexivity.
Qed.

(** The three cases of [spread_stats]; with two samples or more it raises
    exactly when a squared deviation overflows or the variance is below
    zero. *)
Lemma spread_stats_spec (spreads : list float) :
  spread_stats spreads =
  match spreads with
  | [] => Ok (None, None, 0%Z)
  | [x] => Ok (Some x, Some 0, 1%Z)
  | _ =>
      let n := Z.of_nat (List.length spreads) in
      let mu := mean spreads in
      let var := sq_dev_sum mu spreads / PyFloat.of_Z (n - 1) in
      if existsb (sq_overflows mu) spreads then Raise OverflowError
      else if var <? 0 then Raise ValueError
      else Ok (Some mu, Some (bessel_std spreads), n)
  end.
Proof.
  destruct spreads as [|x [|y l]]; try reflexivity.
  apply (stats_many_spec (x :: y :: l)). simpl. lia.
Qed.

Lemma zscore_of_spec (spread : float) (avg std : option float) :
  zscore_of spread avg std =
  Ok (match std, avg with
      | Some sd, Some mu => if 1e-9 <? sd then Some ((spread - mu) / sd) else None
      | _, _ => None
      end).
Proof.
  unfold zscore_of. destruct std as [sd|], avg as [mu|]; try reflexivity.
  destruct (1e-9 <? sd) eqn:E; [|reflexivity].
  unfold PyFloat.div.
  rewrite (@FloatOrder.above_bound_nonzero 1e-9 sd); [reflexivity| |exact E].
  vm_compute. reflexivity.
Qed.

End StatsProps.

(* ================================================================= *)
(** ** The query *)

Module QueryProps.

Import PyVal Store Query StatsProps.
#[local] Open Scope string_scope.
#[local] Open Scope list_scope.
#[local] Open Scope float_scope.

(** *** One record *)

(** What is known of a record that [make_item] produced. *)
Lemma make_item_inv (window : Z) (funding : ring) (sym : value) (m : exch_map)
  (it : item) :
  make_item window funding sym m = Ok (Some it) ->
  exists (a b : string) (mA mB : float) (avg std : option float) (n : Z)
         (fA fB fAvg : option float),
    pick_pair_exchanges m = (Some a, Some b) /\
    latest m a = Some mA /\ latest m b = Some mB /\
    ((mA + mB) / 2 <=? 0) = false /\
    spread_stats
      (rank_paired_spreads (recent window (series_of m a))
         (recent window (series_of m b))) = Ok (avg, std, n) /\
    let spread := (mB - mA) / ((mA + mB) / 2) * 100 in
    let z := match std, avg with
             | Some sd, Some mu =>
                 if 1e-9 <? sd then Some ((spread - mu) / sd) else None
             | _, _ => None
             end in
    it = mkItem sym a b (PyFloat.round mA 10) (PyFloat.round mB 10)
           (PyFloat.round spread 6)
           (option_map (fun x => PyFloat.round x 6) avg)
           (option_map (fun x => PyFloat.round x 3) z)
           fA fB fAvg window n.
Proof.
  unfold make_item. intros H.
  destruct (List.length m <? 2)%nat; [discriminate|].
  destruct (pick_pair_exchanges m) as [[a|] [b|]] eqn:Ep; try discriminate.
  destruct (PyStr.is_empty a || PyStr.is_empty b); [discriminate|].
  destruct (latest m a) as [mA|] eqn:EA; [|discriminate].
  destruct (latest m b) as [mB|] eqn:EB; [|discriminate].
  destruct (falsy_mid (Some mA) || falsy_mid (Some mB)); [discriminate|].
  destruct ((mA + mB) / 2 <=? 0) eqn:El; [discriminate|].
  unfold pct_spread, PyFloat.div in H.
  destruct ((mA + mB) / 2 =? 0); [discriminate|]. cbn [bind] in H.
  rewrite window_spreads_spec in H. cbn [bind] in H.
  destruct (spread_stats _) as [[[avg std] n]|] eqn:Es; [|discriminate].
  cbn [bind] in H. rewrite zscore_of_spec in H. cbn [bind] in H.
  destruct (funding_mean _ _) as [fAvg|] eqn:Ef; [|discriminate].
  cbn [bind] in H. inversion H; subst; clear H.
  exists a, b, mA, mB, avg, std, n. do 3 eexists.
  repeat split; try eassumption; reflexivity.
Qed.

(** C3.  For a record the query produces for an instrument, with the pair
    [(exA, exB)] and the window [window]: the samples are the rank-paired
    spreads of the two recent series ([window_spreads] returns exactly
    them, the pairs whose average mid is not above zero giving none), and
    [samples] is their number.  With no sample the mean and the deviation
    are absent, and so is the z-score.  With one sample the mean is that
    sample and the deviation is 0, so the z-score is absent.  With more the
    mean is the arithmetic mean, the deviation is the square root of the
    sum of squared deviations over [n - 1], and the z-score is
    [(spread - mean) / std] when [std > 1e-9] and absent otherwise.  The
    record reports the spread and the mean rounded to 6 places and the
    z-score rounded to 3. *)
Theorem rolling_stats_spec (window : Z) (funding : ring) (sym : value)
  (m : exch_map) (it : item) :
  make_item window funding sym m = Ok (Some it) ->
  exists mA mB : float,
    pick_pair_exchanges m = (Some (exA it), Some (exB it)) /\
    latest m (exA it) = Some mA /\ latest m (exB it) = Some mB /\
    let spread := (mB - mA) / ((mA + mB) / 2) * 100 in
    let spreads :=
      rank_paired_spreads (recent window (series_of m (exA it)))
        (recent window (series_of m (exB it))) in
    window_spreads window (series_of m (exA it)) (series_of m (exB it))
      = Ok spreads /\
    spread_pct it = PyFloat.round spread 6 /\
    samples it = Z.of_nat (List.length spreads) /\
    match spreads with
    | [] =>
        spread_stats spreads = Ok (None, None, 0%Z) /\
        avg_spread_pct it = None /\ zscore it = None
    | [x] =>
        spread_stats spreads = Ok (Some x, Some 0, 1%Z) /\
        avg_spread_pct it = Some (PyFloat.round x 6) /\ zscore it = None
    | _ =>
        let mu := mean spreads in
        let std := bessel_std spreads in
        spread_stats spreads =
          Ok (Some mu, Some std, Z.of_nat (List.length spreads)) /\
        avg_spread_pct it = Some (PyFloat.round mu 6) /\
        zscore it =
          if 1e-9 <? std
          then Some (PyFloat.round ((spread - mu) / std) 3)
          else None
    end.
Proof.
  intros H. apply make_item_inv in H.
  destruct H as (a & b & mA & mB & avg & std & n & fA & fB & fAvg &
                 Ep & EA & EB & El & Es & E).
  cbv zeta in E. subst it. cbn [exA exB spread_pct samples avg_spread_pct zscore].
  exists mA, mB. split; [exact Ep|]. split; [exact EA|]. split; [exact EB|].
  cbv zeta. split; [apply window_spreads_spec|]. split; [reflexivity|].
  pose proof Es as Es0. rewrite spread_stats_spec in Es.
  destruct (rank_paired_spreads _ _) as [|x [|y l]].
  - inversion Es; subst. repeat split.
  - inversion Es; subst. repeat split.
  - cbv zeta in Es.
    destruct (existsb _ _); [discriminate|].
    destruct (_ <? 0); [discriminate|].
    inversion Es; subst. cbn [option_map].
    split; [reflexivity|]. split; [exact Es0|]. split; [reflexivity|].
    destruct (1e-9 <? _); reflexivity.
Qed.

(** The rolling statistics of the specification's example: samples
    [1, 2, 3] and a current spread of 4. *)
Example spread_stats_example :
  spread_stats [1; 2; 3] = Ok (Some 2, Some 1, 3%Z)
  /\ zscore_of 4 (Some 2) (Some 1) = Ok (Some 2).
Proof. vm_compute. split; reflexivity. Qed.

(** *** Sample stores *)

Definition quote (name ask bid : string) : value :=
  VDict [("name", VStr name); ("a", VStr ask); ("b", VStr bid)].

Definition section (key : string) (rows : list value) : string * value :=
  (key, VDict [("list", VList rows)]).

(** One upstream document: what Binance and OKX quote, per instrument, as
    [(name, mid on Binance, mid on OKX)]. *)
Definition tick (quotes : list (string * string * string)) : value :=
  VDict [("data",
          VDict [section "binancePerp"
                   (map (fun q => quote (fst (fst q)) (snd (fst q)) (snd (fst q))) quotes);
                 section "okxSwap"
                   (map (fun q => quote (fst (fst q)) (snd q) (snd q)) quotes)])].

(** The store after the documents [ticks], fetched at times 1, 2, ... *)
Definition store_after (ticks : list value) : store :=
  fold_left (fun s jt => fetch_once (Ok (snd jt)) (Z.of_nat (fst jt)) s)
    (combine (seq 1 (List.length ticks)) ticks) Store.empty.

Definition prices_of (sym : string) (s : store) : exch_map :=
  match PyList.lookup key_eqb (VStr sym) (ring_prices s) with
  | Some m => m
  | None => []
  end.

(** Four rounds with a widening spread. *)
Definition widening : store :=
  store_after (map (fun okx => tick [("BTCUSDT", "100", okx)])
                 ["101"; "102"; "103"; "104"]).

(** Ten rounds with mids 100 and 101. *)
Definition steady : store :=
  store_after (repeat (tick [("BTCUSDT", "100", "101")]) 10).

(** Two instruments, spreads of about 0.5 and 2 per cent. *)
Definition two_symbols : store :=
  store_after [tick [("AAAUSDT", "100", "100.5"); ("BBBUSDT", "100", "102")]].

(** Two instruments, one of them with an ask of ["inf"] on Binance. *)
Definition infinite_ask : store :=
  store_after
    [VDict [section "binancePerp"
              [quote "BTCUSDT" "inf" "1"; quote "ETHUSDT" "100" "100"];
            section "okxSwap"
              [quote "BTCUSDT" "5" "5"; quote "ETHUSDT" "101" "101"]]].

(** The record of the query on [widening]. *)
Definition widening_item : item :=
  mkItem (VStr "BTCUSDT") "binance" "okx" 100 104 3.921569
    (Some 2.463114) (Some 1.158) None None None 300%Z 4%Z.

Lemma rolling_stats_witness :
  make_item 300 [] (VStr "BTCUSDT") (prices_of "BTCUSDT" widening)
    = Ok (Some widening_item)
  /\ exists mA mB : float,
       latest (prices_of "BTCUSDT" widening) "binance" = Some mA /\
       latest (prices_of "BTCUSDT" widening) "okx" = Some mB.
Proof.
  assert (H : make_item 300 [] (VStr "BTCUSDT") (prices_of "BTCUSDT" widening)
              = Ok (Some widening_item)) by (vm_compute; reflexivity).
  split; [exact H|].
  destruct (@rolling_stats_spec _ _ _ _ _ H) as (mA & mB & _ & A & B & _).
  exists mA, mB. split; assumption.
Defined.

(** *** A window of zero *)

Lemma recent_zero (l : series) : recent 0 l = l.
Proof.
  unfold recent, PyList.slice_from. cbn [Z.opp Z.ltb Z.compare].
  replace (Z.min 0 (Z.of_nat (List.length l))) with 0%Z by lia.
  reflexivity.
Qed.

Lemma recent_covering (w : Z) (l : series) :
  (Z.of_nat (List.length l) <= w)%Z -> recent w l = l.
Proof.
  intros H. unfold recent, PyList.slice_from.
  destruct (Z.ltb_spec (- w) 0).
  - replace (Z.max 0 (Z.of_nat (List.length l) + - w)) with 0%Z by lia.
    reflexivity.
  - replace (Z.min (- w) (Z.of_nat (List.length l))) with 0%Z by lia.
    reflexivity.
Qed.

Lemma latest_rev (m : exch_map) (ex : string) (x : float) :
  latest m ex = Some x ->
  exists (t : Z) (rest : series), rev (series_of m ex) = (t, x) :: rest.
Proof.
  unfold latest, series_of, PyList.last_opt.
  destruct (PyList.lookup String.eqb ex m) as [dq|]; [|discriminate].
  destruct (rev dq) as [|[t v] rest]; simpl; [discriminate|].
  intros H. inversion H; subst. eauto.
Qed.

Lemma spread_stats_mean_present (spreads : list float) (avg std : option float) (n : Z) :
  spreads <> [] -> spread_stats spreads = Ok (avg, std, n) -> avg <> None.
Proof.
  intros Hne. rewrite spread_stats_spec.
  destruct spreads as [|x [|y l]]; [congruence| |].
  - intros H. inversion H. discriminate.
  - cbv zeta. destruct (existsb _ _); [discriminate|].
    destruct (_ <? 0); [discriminate|].
    intros H. inversion H. discriminate.
Qed.

(** With [window = 0] the slice [l[-window:]] is [l[0:]], the whole
    series, so the samples of the window are those of the two whole
    series. *)
Lemma window_spreads_zero (fullA fullB : series) :
  window_spreads 0 fullA fullB = Ok (rank_paired_spreads fullA fullB).
Proof. rewrite window_spreads_spec, !recent_zero. reflexivity. Qed.

(** A record produced for [window = 0]: its statistics are those of the
    rank-paired samples of the two whole series, and unless the average of
    the two latest mids is NaN it has at least one sample and a mean. *)
Lemma make_item_window_zero (funding : ring) (sym : value) (m : exch_map)
  (it : item) :
  make_item 0 funding sym m = Ok (Some it) ->
  exists (mA mB : float) (avg std : option float),
    latest m (exA it) = Some mA /\ latest m (exB it) = Some mB /\
    let whole :=
      rank_paired_spreads (series_of m (exA it)) (series_of m (exB it)) in
    let spread := (mB - mA) / ((mA + mB) / 2) * 100 in
    window_sec it = 0%Z /\
    spread_stats whole = Ok (avg, std, samples it) /\
    samples it = Z.of_nat (List.length whole) /\
    avg_spread_pct it = option_map (fun x => PyFloat.round x 6) avg /\
    zscore it =
      option_map (fun x => PyFloat.round x 3)
        match std, avg with
        | Some sd, Some mu =>
            if 1e-9 <? sd then Some ((spread - mu) / sd) else None
        | _, _ => None
        end /\
    (PyFloat.is_nan ((mA + mB) / 2) = false ->
     (1 <= samples it)%Z /\ avg_spread_pct it <> None).
Proof.
  intros H.
  pose proof H as H'. apply make_item_inv in H'.
  destruct H' as (a & b & mA & mB & avg & std & n & fA & fB & fAvg &
                  Ep & EA & EB & El & Es & E).
  cbv zeta in E. rewrite !recent_zero in Es.
  assert (Hn : n = Z.of_nat (List.length (rank_paired_spreads (series_of m a)
                                            (series_of m b)))).
  { pose proof Es as Es'. rewrite spread_stats_spec in Es'.
    destruct (rank_paired_spreads _ _) as [|x [|y l]].
    - inversion Es'; reflexivity.
    - inversion Es'; reflexivity.
    - cbv zeta in Es'. destruct (existsb _ _); [discriminate|].
      destruct (_ <? 0); [discriminate|]. inversion Es'; reflexivity. }
  subst it. cbn [exA exB window_sec samples avg_spread_pct zscore].
  exists mA, mB, avg, std. cbv zeta.
  split; [exact EA|]. split; [exact EB|]. split; [reflexivity|].
  split; [exact Es|]. split; [exact Hn|]. split; [reflexivity|].
  split; [reflexivity|].
  intros Hnan.
  destruct (latest_rev _ _ EA) as (tA & restA & RA).
  destruct (latest_rev _ _ EB) as (tB & restB & RB).
  assert (Hpos : (0 <? (mA + mB) / 2) = true).
  { apply FloatOrder.leb_false_ltb; auto.
    - apply FloatOrder.not_nan_iff. assumption.
    - apply FloatOrder.not_nan_iff. vm_compute. reflexivity. }
  assert (Hne : rank_paired_spreads (series_of m a) (series_of m b) <> []).
  { unfold rank_paired_spreads. rewrite RA, RB.
    cbn [combine flat_map]. unfold sample_list at 1, spread_sample.
    cbn [fst snd]. rewrite Hpos. discriminate. }
  split.
  - rewrite Hn.
    destruct (rank_paired_spreads (series_of m a) (series_of m b));
      [congruence|]. cbn [List.length]. lia.
  - destruct avg as [mu|]; [discriminate|]. exfalso.
    eapply spread_stats_mean_present; [exact Hne|exact Es|reflexivity].
Qed.

(** The record of a query on [steady]. *)
Definition steady_item (window : Z) : item :=
  mkItem (VStr "BTCUSDT") "binance" "okx" 100 101 0.995025
    (Some 0.995025) None None None None window 10%Z.

(** Ten rounds, then a query with [window=0]: one record with ten
    samples, as a query with [window=300] gives. *)
Example window_zero_example :
  api_data (Some "0") "" steady = (Success "" [steady_item 0], 200%Z)
  /\ api_data (Some "300") "" steady = (Success "" [steady_item 300], 200%Z).
Proof. vm_compute. split; reflexivity. Qed.

(** *** The order of the records *)

(** [r1] may stand before [r2]: [abs(r1.spread_pct) >= abs(r2.spread_pct)]. *)
Definition spread_ge (r1 r2 : item) : Prop :=
  (abs (spread_pct r2) <=? abs (spread_pct r1)) = true.

Definition no_nan_spread (r : item) : Prop :=
  PyFloat.is_nan (spread_pct r) = false.

Lemma sort_abs_spread_sorted (items : list item) :
  Forall no_nan_spread items ->
  StronglySorted spread_ge (PyList.sort_desc PrimFloat.ltb abs_spread items).
Proof.
  intros H.
  apply (@SortProps.sort_desc_sorted item float PrimFloat.ltb abs_spread
           (fun a b => (a <=? b) = true) FloatOrder.not_nan).
  - intros a b c. apply FloatOrder.leb_trans.
  - intros a b _ _. apply FloatOrder.ltb_true_leb.
  - intros a b. apply FloatOrder.ltb_false_leb.
  - eapply Forall_impl; [|exact H].
    intros r Hr. unfold abs_spread. apply FloatOrder.abs_not_nan.
    apply FloatOrder.not_nan_iff. exact Hr.
Qed.

Lemma api_items_sorted (arg : option string) (s : store) (items : list item) :
  api_items arg s = Ok items ->
  exists collected : list item,
    Permutation collected items /\
    items = PyList.sort_desc PrimFloat.ltb abs_spread collected.
Proof.
  unfold api_items. destruct (window_of arg) as [w|]; [|discriminate].
  cbn [bind].
  destruct (collect_items w (ring_funding s) (ring_prices s) []) as [c|];
    [|discriminate].
  cbn [bind]. intros H. inversion H; subst. exists c. split; [|reflexivity].
  apply SortProps.sort_desc_perm.
Qed.

Lemma api_data_success (arg : option string) (updated u : string) (s : store)
  (items : list item) (status : Z) :
  api_data arg updated s = (Success u items, status) ->
  api_items arg s = Ok items /\ u = updated /\ status = 200%Z.
Proof.
  unfold api_data. destruct (api_items arg s) as [l|e]; simpl.
  - intros H. inversion H; subst. auto.
  - discriminate.
Qed.

(** In a successful response whose records all have a [spread_pct] that
    is a number, the records are in descending order of
    [abs(spread_pct)]: each record's absolute spread is at least that of
    every record after it. *)
Lemma api_data_sorted_without_nan (arg : option string) (updated u : string)
  (s : store) (items : list item) (status : Z) :
  api_data arg updated s = (Success u items, status) ->
  Forall no_nan_spread items ->
  StronglySorted spread_ge items.
Proof.
  intros H Hn. apply api_data_success in H. destruct H as (H & _ & _).
  apply api_items_sorted in H. destruct H as (c & P & ->).
  apply sort_abs_spread_sorted.
  eapply Permutation_Forall; [symmetry; exact P|exact Hn].
Qed.

(** The two records of the query on [two_symbols]. *)
Definition two_symbols_items : list item :=
  [mkItem (VStr "BBBUSDT") "binance" "okx" 100 102 1.980198
     (Some 1.980198) None None None None 300%Z 1%Z;
   mkItem (VStr "AAAUSDT") "binance" "okx" 100 100.5 0.498753
     (Some 0.498753) None None None None 300%Z 1%Z].

Lemma api_data_sorted_witness :
  api_data None "" two_symbols = (Success "" two_symbols_items, 200%Z)
  /\ Forall no_nan_spread two_symbols_items
  /\ StronglySorted spread_ge two_symbols_items.
Proof.
  assert (H : api_data None "" two_symbols = (Success "" two_symbols_items, 200%Z))
    by (vm_compute; reflexivity).
  assert (N : Forall no_nan_spread two_symbols_items)
    by (repeat constructor).
  split; [exact H|]. split; [exact N|].
  exact (@api_data_sorted_without_nan _ _ _ _ _ _ H N).
Defined.

(** The two records of the query on [infinite_ask]. *)
Definition infinite_ask_items : list item :=
  [mkItem (VStr "BTCUSDT") "binance" "okx" infinity 5 nan
     (Some nan) None None None None 300%Z 1%Z;
   mkItem (VStr "ETHUSDT") "binance" "okx" 100 101 0.995025
     (Some 0.995025) None None None None 300%Z 1%Z].

(** C9 fails on the code.  The records of a successful response are to
    be in descending order of [abs(spread_pct)], as the comment on the
    sort says.  An ask of ["inf"] passes [mid_from_bid_ask], the mid on
    that exchange is infinite and the spread of the instrument is NaN.  The
    response to the query after that round is successful, and the NaN
    record stands before a record with a spread of 0.995 without being
    [>=] it; the other order would not be descending either. *)
Theorem api_data_nan_spread_unordered :
  api_data None "" infinite_ask = (Success "" infinite_ask_items, 200%Z)
  /\ ~ StronglySorted spread_ge infinite_ask_items
  /\ ~ StronglySorted spread_ge (rev infinite_ask_items).
Proof.
  split; [vm_compute; reflexivity|].
  split; intros H; inversion H as [|? ? _ F]; subst;
    inversion F as [|? ? G _]; subst; vm_compute in G; discriminate.
Qed.

(** *** Failures *)

(** C8.  [api_data] always returns a response.  When the body of its
    [try] ends normally the response is the success payload with status
    200; when it raises, whatever the exception, the response is the
    failure payload carrying that exception, with status 500.  So the [ok]
    flag is true exactly with status 200, and a [window] parameter that
    [int()] rejects gives the failure payload with [int()]'s exception. *)
Theorem api_data_catches (arg : option string) (updated : string) (s : store) :
  match api_items arg s with
  | Ok items => api_data arg updated s = (Success updated items, 200%Z)
  | Raise e => api_data arg updated s = (Failure e, 500%Z)
  end
  /\ (ok (fst (api_data arg updated s)) = true <->
      snd (api_data arg updated s) = 200%Z)
  /\ (forall (w : string) (e : exn),
        PyFloat.int_of_string w = Raise e ->
        api_data (Some w) updated s = (Failure e, 500%Z)).
Proof.
  unfold api_data. split; [|split].
  - destruct (api_items arg s); reflexivity.
  - destruct (api_items arg s); simpl; split; intros H;
      try reflexivity; discriminate.
  - intros w e H. unfold api_items, window_of. rewrite H. reflexivity.
Qed.

(** Windows that are not integers. *)
Example api_data_bad_window :
  api_data (Some "abc") "" steady = (Failure ValueError, 500%Z)
  /\ api_data (Some "12.5") "" steady = (Failure ValueError, 500%Z)
  /\ api_data (Some "") "" Store.empty = (Failure ValueError, 500%Z).
Proof. vm_compute. repeat split. Qed.

End QueryProps.

(* ================================================================= *)
(** ** More on the normalizer *)

Module NormalizerMore.

Import PyVal Normalizer IngestProps.
#[local] Open Scope string_scope.
#[local] Open Scope list_scope.

(** *** [safe_get] *)

Lemma safe_get_not_dict (d : value) (k : string) (keys : list string)
  (default : value) :
  is_dict d = false -> safe_get d (k :: keys) default = default.
Proof. destruct d; try reflexivity. discriminate. Qed.

(** [safe_get] with at least one key returns [None] only by returning a
    default that is [None]: a value stored as [None] counts as missing, at
    every level of the path. *)
Theorem safe_get_none_is_default (d : value) (keys : list string)
  (default : value) :
  keys <> [] -> safe_get d keys default = VNone -> default = VNone.
Proof.
  revert d. induction keys as [|k keys IH]; intros d Hne H; [congruence|].
  simpl in H. destruct d; try exact H.
  destruct (dict_get d k) eqn:E; try exact H;
    (destruct keys as [|k' keys]; [simpl in H; discriminate|];
     eapply IH; [discriminate|exact H]).
Qed.

Lemma safe_get_none_is_default_witness :
  ["name"] <> [] /\
  safe_get (VDict [("name", VNone)]) ["name"] VNone = VNone /\
  VNone = VNone.
Proof.
  assert (N : ["name"] <> []) by discriminate.
  assert (H : safe_get (VDict [("name", VNone)]) ["name"] VNone = VNone)
    by reflexivity.
  split; [exact N|]. split; [exact H|].
  exact (@safe_get_none_is_default _ _ _ N H).
Defined.

(** *** When [parse_perp_sections] raises *)

(** An entry the loop over [data.items()] gets through: not a section, or
    a section whose list holds objects only. *)
Definition clean_entry (entry : string * value) : bool :=
  match snd entry with
  | VDict fields =>
      if is_section_key (fst entry) then
        match dict_get fields "list" with
        | VList lst => forallb is_dict lst
        | _ => true
        end
      else true
  | _ => true
  end.

(** The container [parse_perp_sections] reads the sections from:
    [j.get("data") or j]. *)
Definition container (top : list (string * value)) : value :=
  if truthy (dict_get top "data") then dict_get top "data" else VDict top.

Lemma parse_entries_clean (entries : list (string * value)) (out : sections) :
  forallb clean_entry entries = true ->
  exists res, parse_entries entries out = Ok res.
Proof.
  revert out. induction entries as [|[key val] entries IH]; intros out H.
  - eexists; reflexivity.
  - simpl in H. apply andb_true_iff in H. destruct H as [Hc Hr].
    unfold clean_entry in Hc. simpl in Hc. simpl.
    destruct val; try (apply IH; exact Hr).
    destruct (is_section_key key); [|apply IH; exact Hr].
    destruct (dict_get d "list"); try (apply IH; exact Hr).
    destruct (parse_rows_all_dicts _ Hc) as [rows Er]. rewrite Er.
    cbn [bind]. apply IH. exact Hr.
Qed.

Lemma parse_entries_unclean (entries : list (string * value)) (out : sections) :
  forallb clean_entry entries = false ->
  parse_entries entries out = Raise AttributeError.
Proof.
  revert out. induction entries as [|[key val] entries IH]; intros out H.
  - discriminate.
  - simpl in H. apply andb_false_iff in H.
    unfold clean_entry in H. simpl in H. simpl.
    destruct val; try (destruct H as [H|H]; [discriminate|apply IH; exact H]).
    destruct (is_section_key key);
      [|destruct H as [H|H]; [discriminate|apply IH; exact H]].
    destruct (dict_get d "list");
      try (destruct H as [H|H]; [discriminate|apply IH; exact H]).
    destruct (forallb is_dict l) eqn:El.
    + destruct H as [H|H]; [discriminate|].
      destruct (parse_rows_all_dicts _ El) as [rows Er]. rewrite Er.
      cbn [bind]. apply IH. exact H.
    + rewrite (parse_rows_some_not_dict _ El). reflexivity.
Qed.

(** [parse_perp_sections] raises nothing but [AttributeError].  On a
    document that is not an object it raises; on an object whose container
    is not an object it returns the empty mapping; otherwise it returns
    exactly when every section's list holds objects only. *)
Theorem parse_perp_sections_errors (j : value) :
  (forall e : exn, parse_perp_sections j = Raise e -> e = AttributeError)
  /\ match j with
     | VDict top =>
         match container top with
         | VDict entries =>
             (exists out, parse_perp_sections j = Ok out) <->
             forallb clean_entry entries = true
         | _ => parse_perp_sections j = Ok []
         end
     | _ => parse_perp_sections j = Raise AttributeError
     end.
Proof.
  assert (Hc : forall top entries,
            container top = VDict entries ->
            parse_perp_sections (VDict top) = parse_entries entries []).
  { intros top entries E. unfold parse_perp_sections, container in *.
    cbn [attr_get bind]. destruct (truthy (dict_get top "data"));
      [rewrite E; reflexivity|inversion E; subst; reflexivity]. }
  assert (Hn : forall top, is_dict (container top) = false ->
            parse_perp_sections (VDict top) = Ok []).
  { intros top E. unfold parse_perp_sections, container in *.
    cbn [attr_get bind].
    destruct (truthy (dict_get top "data")); [|discriminate].
    destruct (dict_get top "data"); try reflexivity. discriminate. }
  split.
  - intros e H. destruct j; try (simpl in H; inversion H; reflexivity).
    destruct (container d) as [| | | | | |entries] eqn:E;
      try (rewrite Hn in H by (rewrite E; reflexivity); discriminate).
    rewrite (Hc _ _ E) in H.
    destruct (forallb clean_entry entries) eqn:C.
    + destruct (parse_entries_clean entries [] C) as [res Er]. congruence.
    + rewrite (parse_entries_unclean entries [] C) in H. congruence.
  - destruct j; try reflexivity.
    destruct (container d) as [| | | | | |entries] eqn:E;
      try (apply Hn; rewrite E; reflexivity).
    rewrite (Hc _ _ E). split.
    + intros [out H]. destruct (forallb clean_entry entries) eqn:C; auto.
      rewrite (parse_entries_unclean entries [] C) in H. discriminate.
    + apply parse_entries_clean.
Qed.

End NormalizerMore.

(* ================================================================= *)
(** ** The exchanges of the normalizer's result *)

Module SectionKeys.

Import PyVal Normalizer IngestProps NormalizerMore.
#[local] Open Scope string_scope.
#[local] Open Scope list_scope.

(** *** Exchange identifiers *)

Definition is_upper (c : ascii) : bool :=
  let n := nat_of_ascii c in ((65 <=? n) && (n <=? 90))%nat.

Definition no_upper (l : list ascii) : Prop :=
  Forall (fun c => is_upper c = false) l.

Lemma lower_char_not_upper (c : ascii) : is_upper (PyStr.lower_char c) = false.
Proof.
  unfold PyStr.lower_char.
  destruct ((65 <=? nat_of_ascii c) && (nat_of_ascii c <=? 90))%nat eqn:E.
  - apply andb_true_iff in E. destruct E as [E1 E2].
    apply Nat.leb_le in E1, E2. unfold is_upper.
    rewrite nat_ascii_embedding by lia.
    apply andb_false_iff. right. apply Nat.leb_gt. lia.
  - exact E.
Qed.

Lemma lower_char_fixed (c : ascii) :
  is_upper c = false -> PyStr.lower_char c = c.
Proof. unfold is_upper, PyStr.lower_char. intros ->. reflexivity. Qed.

Lemma chars_of_chars (l : list ascii) : PyStr.chars (PyStr.of_chars l) = l.
Proof. apply list_ascii_of_string_of_list_ascii. Qed.

Lemma of_chars_chars (s : string) : PyStr.of_chars (PyStr.chars s) = s.
Proof. apply string_of_list_ascii_of_string. Qed.

(** A byte of a character beyond ASCII is no capital letter. *)
Lemma of_byte_nat (x : Z) :
  (0 <= x < 256)%Z -> nat_of_ascii (Unicode.of_byte x) = Z.to_nat x.
Proof. intros H. unfold Unicode.of_byte. apply nat_ascii_embedding. lia. Qed.

Lemma of_byte_high (x : Z) :
  (128 <= x < 256)%Z -> is_upper (Unicode.of_byte x) = false.
Proof.
  intros H. unfold is_upper. rewrite of_byte_nat by lia.
  apply andb_false_iff. right. apply Nat.leb_gt. lia.
Qed.

Lemma of_byte_low (x : Z) :
  (x < 128)%Z -> ~ (65 <= x <= 90)%Z -> is_upper (Unicode.of_byte x) = false.
Proof.
  intros H N. unfold is_upper, Unicode.of_byte.
  rewrite nat_ascii_embedding by lia.
  apply andb_false_iff.
  destruct (Z_lt_dec x 65); [left|right]; apply Nat.leb_gt; lia.
Qed.

Lemma encode_no_upper (p : Z) :
  ~ (65 <= p <= 90)%Z -> no_upper (Unicode.encode p).
Proof.
  intros N. unfold Unicode.encode, no_upper.
  destruct (Z.ltb_spec p 128).
  { constructor; [apply of_byte_low; assumption|constructor]. }
  pose proof (Z.mod_pos_bound p 64 ltac:(lia)).
  pose proof (Z.mod_pos_bound (p / 64) 64 ltac:(lia)).
  pose proof (Z.mod_pos_bound (p / 4096) 64 ltac:(lia)).
  pose proof (Z.mod_pos_bound p 128 ltac:(lia)).
  destruct (Z.ltb_spec p 2048).
  { assert (0 <= p / 64 < 32)%Z
      by (split; [apply Z.div_pos; lia|apply Z.div_lt_upper_bound; lia]).
    repeat (constructor; [apply of_byte_high; lia|]). constructor. }
  destruct (Z.ltb_spec p 65536).
  { assert (0 <= p / 4096 < 16)%Z
      by (split; [apply Z.div_pos; lia|apply Z.div_lt_upper_bound; lia]).
    repeat (constructor; [apply of_byte_high; lia|]). constructor. }
  destruct (Z.ltb_spec p 1114112).
  { assert (0 <= p / 262144 < 5)%Z
      by (split; [apply Z.div_pos; lia|apply Z.div_lt_upper_bound; lia]).
    repeat (constructor; [apply of_byte_high; lia|]). constructor. }
  constructor; [apply of_byte_high; lia|constructor].
Qed.

(** No run of the case table maps into the capital letters A to Z. *)
Definition run_clear (r : Z * Z * Z * Z) : bool :=
  let '(first, last, _, delta) := r in
  ((last + delta <? 65) || (90 <? first + delta))%Z.

Lemma lower_runs_clear : forallb run_clear Unicode.lower_runs = true.
Proof. vm_compute. reflexivity. Qed.

Lemma to_lower_not_capital (p : Z) : ~ (65 <= Unicode.to_lower p <= 90)%Z.
Proof.
  unfold Unicode.to_lower.
  destruct (find (Unicode.in_run p) Unicode.lower_runs)
    as [[[[first last] stride] delta]|] eqn:E.
  - apply find_some in E. destruct E as [Hin Hr].
    pose proof lower_runs_clear as C. rewrite forallb_forall in C.
    specialize (C _ Hin). unfold run_clear in C. unfold Unicode.in_run in Hr.
    apply andb_true_iff in Hr. destruct Hr as [Hr _].
    apply andb_true_iff in Hr. destruct Hr as [H1 H2].
    apply Z.leb_le in H1, H2.
    apply orb_true_iff in C. destruct C as [C|C]; apply Z.ltb_lt in C; lia.
  - intros H.
    assert (Hin : In (65, 90, 1, 32)%Z Unicode.lower_runs)
      by (unfold Unicode.lower_runs; apply in_eq).
    pose proof (find_none _ _ E _ Hin) as N. unfold Unicode.in_run in N.
    rewrite Z.mod_1_r in N. cbn [Z.eqb] in N. rewrite andb_true_r in N.
    apply andb_false_iff in N.
    destruct N as [N|N]; [apply Z.leb_gt in N|apply Z.leb_gt in N]; lia.
Qed.

Lemma lower_points_not_capital (before s : list Z) :
  Forall (fun p => ~ (65 <= p <= 90)%Z) (Unicode.lower_points before s).
Proof.
  revert before. induction s as [|p s IH]; intros before;
    cbn [Unicode.lower_points]; [constructor|].
  apply Forall_app. split; [|apply IH].
  destruct (p =? 931)%Z.
  - constructor; [|constructor].
    destruct (Unicode.cased_next before && negb (Unicode.cased_next s)); lia.
  - unfold Unicode.to_lower_full. destruct (p =? 304)%Z.
    + repeat (constructor; [lia|]). constructor.
    + constructor; [apply to_lower_not_capital|constructor].
Qed.

Lemma encode_all_no_upper (l : list Z) :
  Forall (fun p => ~ (65 <= p <= 90)%Z) l -> no_upper (Unicode.encode_all l).
Proof.
  induction 1 as [|p l Hp _ IH]; [constructor|].
  unfold Unicode.encode_all. cbn [flat_map]. apply Forall_app. split.
  - apply encode_no_upper. exact Hp.
  - exact IH.
Qed.

Lemma lower_no_upper (s : string) : no_upper (PyStr.chars (PyStr.lower s)).
Proof.
  unfold PyStr.lower.
  destruct (Unicode.is_ascii (PyStr.chars s)); rewrite chars_of_chars.
  - apply Forall_forall. intros c Hc. apply in_map_iff in Hc.
    destruct Hc as (c0 & <- & _). apply lower_char_not_upper.
  - apply encode_all_no_upper, lower_points_not_capital.
Qed.

Lemma lower_fixed (s : string) :
  Unicode.is_ascii (PyStr.chars s) = true ->
  no_upper (PyStr.chars s) -> PyStr.lower s = s.
Proof.
  intros Ha H. unfold PyStr.lower. rewrite Ha. clear Ha.
  rewrite <- (of_chars_chars s) at 2. f_equal.
  induction H as [|c l Hc _ IH]; simpl; [reflexivity|].
  rewrite lower_char_fixed by exact Hc. rewrite IH. reflexivity.
Qed.

Section Kept.
Variable P : ascii -> Prop.

(** Removing text and trimming keep what holds of every character. *)
Lemma replace_removed (old : list ascii) (skip : nat) (s : list ascii) :
  Forall P s -> Forall P (PyStr.replace_chars old [] skip s).
Proof.
  intros H. revert skip.
  induction H as [|c s Hc Hs IH]; intros skip; cbn [PyStr.replace_chars].
  - constructor.
  - destruct skip as [|k]; [|apply IH].
    destruct (PyStr.starts_with old (c :: s));
      [apply IH|constructor; [exact Hc|apply IH]].
Qed.

Lemma lstrip_kept (set s : list ascii) :
  Forall P s -> Forall P (PyStr.lstrip_chars set s).
Proof.
  induction 1 as [|c s Hc Hs IH]; simpl; [constructor|].
  destruct (PyStr.mem_char c set); [exact IH|constructor; assumption].
Qed.

Lemma strip_kept (set s : list ascii) :
  Forall P s -> Forall P (PyStr.strip_chars set s).
Proof.
  intros H. unfold PyStr.strip_chars.
  apply Forall_rev, lstrip_kept, Forall_rev, lstrip_kept. exact H.
Qed.

End Kept.

Lemma replace_no_upper (old s : string) :
  no_upper (PyStr.chars s) -> no_upper (PyStr.chars (PyStr.replace old "" s)).
Proof.
  intros H. unfold PyStr.replace. rewrite chars_of_chars.
  apply replace_removed. exact H.
Qed.

Lemma strip_no_upper (set s : string) :
  no_upper (PyStr.chars s) -> no_upper (PyStr.chars (PyStr.strip set s)).
Proof.
  intros H. unfold PyStr.strip. rewrite chars_of_chars.
  apply strip_kept. exact H.
Qed.

Lemma exchange_of_key_no_upper (key : string) :
  no_upper (PyStr.chars (exchange_of_key key)).
Proof.
  unfold exchange_of_key.
  destruct (PyStr.is_empty _); [apply lower_no_upper|].
  apply replace_no_upper, strip_no_upper.
  do 3 apply replace_no_upper. apply lower_no_upper.
Qed.

Lemma contains_nonempty (tag s : string) :
  tag <> "" -> PyStr.contains tag s = true -> s <> "".
Proof.
  intros Ht H ->. unfold PyStr.contains in H.
  destruct tag as [|c tag]; [congruence|]. simpl in H. discriminate.
Qed.

Lemma section_key_lower_nonempty (key : string) :
  is_section_key key = true -> PyStr.lower key <> "".
Proof.
  unfold is_section_key, section_tags. cbn [existsb].
  intros H. repeat (apply orb_true_iff in H; destruct H as [H|H]);
    try discriminate;
    eapply contains_nonempty; try exact H; discriminate.
Qed.

Lemma exchange_of_key_nonempty (key : string) :
  is_section_key key = true -> exchange_of_key key <> "".
Proof.
  intros H. unfold exchange_of_key.
  destruct (PyStr.is_empty _) eqn:E.
  - apply section_key_lower_nonempty. exact H.
  - intros E'. rewrite E' in E. discriminate.
Qed.

(** X3.  Every exchange of the result of [parse_perp_sections] is a
    non-empty string without a capital letter A to Z, whatever characters
    the section key holds; when it is ASCII text, it is its own [lower()]. *)
Theorem exchanges_nonempty_lower (j : value) (out : sections) :
  parse_perp_sections j = Ok out ->
  forall (exch : string) (rows : list row),
    In (exch, rows) out ->
    exch <> ""
    /\ Forall (fun c => is_upper c = false) (PyStr.chars exch)
    /\ (Unicode.is_ascii (PyStr.chars exch) = true -> PyStr.lower exch = exch).
Proof.
  intros H exch rows Hin.
  destruct (parse_perp_sections_rows _ H _ _ Hin) as (key & lst & Hk & -> & _).
  split; [|split].
  - apply exchange_of_key_nonempty. exact Hk.
  - apply exchange_of_key_no_upper.
  - intros Ha. apply lower_fixed; [exact Ha|apply exchange_of_key_no_upper].
Qed.

(** A key in capitals, and a key that opens with a capital letter outside
    ASCII. *)
Lemma exchanges_nonempty_lower_witness :
  let doc := VDict [("OKX_Swap", VDict [("list", VList [])]);
                    ("ÉPerp", VDict [("list", VList [])])] in
  parse_perp_sections doc = Ok [("okx", []); ("é", [])]
  /\ "okx" <> "" /\ PyStr.lower "okx" = "okx"
  /\ Forall (fun c => is_upper c = false) (PyStr.chars "é").
Proof.
  cbv zeta.
  assert (H : parse_perp_sections
                (VDict [("OKX_Swap", VDict [("list", VList [])]);
                        ("ÉPerp", VDict [("list", VList [])])])
              = Ok [("okx", []); ("é", [])]) by (vm_compute; reflexivity).
  split; [exact H|].
  destruct (@exchanges_nonempty_lower _ _ H "okx" [] (or_introl eq_refl))
    as (N & _ & L).
  destruct (@exchanges_nonempty_lower _ _ H "é" []
              (or_intror (or_introl eq_refl))) as (_ & U & _).
  split; [exact N|]. split; [exact (L eq_refl)|exact U].
Defined.

(** Section keys and the exchanges guessed from them. *)
Example exchange_of_key_examples :
  exchange_of_key "binancePerp" = "binance"
  /\ exchange_of_key "OKX_Swap" = "okx"
  /\ exchange_of_key "bybit_spot_futures" = "bybit_"
  /\ exchange_of_key "PERP" = "perp"
  /\ exchange_of_key "ÉPerp" = "é"
  /\ exchange_of_key "ΟΔΟΣ_swap" = "οδος"
  /\ is_section_key "ＰＥＲＰ" = false.
Proof. vm_compute. repeat split. Qed.

(** *** One entry per exchange *)

Lemma In_set_keys {V : Type} (x k : string) (v : V) (d : list (string * V)) :
  In x (map fst (PyList.set String.eqb k v d)) -> In x (map fst d) \/ x = k.
Proof.
  induction d as [|[k' v'] d IH]; simpl.
  - intros [H|[]]; auto.
  - destruct (String.eqb k' k); simpl; intros [H|H]; auto.
    destruct (IH H); auto.
Qed.

Lemma set_NoDup {V : Type} (k : string) (v : V) (d : list (string * V)) :
  NoDup (map fst d) -> NoDup (map fst (PyList.set String.eqb k v d)).
Proof.
  induction d as [|[k' v'] d IH]; simpl; intros H.
  - constructor; [intros []|constructor].
  - inversion H as [|? ? Hn Hd]; subst.
    destruct (String.eqb_spec k' k); simpl; constructor; auto.
    intros Hin. apply In_set_keys in Hin. destruct Hin; auto.
Qed.

Lemma lookup_set_same {V : Type} (k : string) (v : V) (d : list (string * V)) :
  PyList.lookup String.eqb k (PyList.set String.eqb k v d) = Some v.
Proof.
  induction d as [|[k' v'] d IH]; simpl.
  - rewrite String.eqb_refl. reflexivity.
  - destruct (String.eqb k' k) eqn:E; simpl; rewrite E; auto.
Qed.

Lemma lookup_set_other {V : Type} (k k' : string) (v : V) (d : list (string * V)) :
  k <> k' ->
  PyList.lookup String.eqb k' (PyList.set String.eqb k v d) =
  PyList.lookup String.eqb k' d.
Proof.
  intros Hne. induction d as [|[k0 v0] d IH]; simpl.
  - destruct (String.eqb_spec k k'); [congruence|reflexivity].
  - destruct (String.eqb_spec k0 k); simpl.
    + subst. destruct (String.eqb_spec k k'); [congruence|reflexivity].
    + destruct (String.eqb k0 k'); auto.
Qed.

Lemma parse_entries_NoDup (entries : list (string * value)) (out res : sections) :
  parse_entries entries out = Ok res ->
  NoDup (map fst out) -> NoDup (map fst res).
Proof.
  revert out. induction entries as [|[key val] entries IH]; simpl; intros out H Hn.
  - inversion H; subst. exact Hn.
  - destruct val; try (eapply IH; eassumption).
    destruct (is_section_key key); [|eapply IH; eassumption].
    destruct (dict_get d "list"); try (eapply IH; eassumption).
    destruct (parse_rows l) as [rows|]; [|discriminate]. cbn [bind] in H.
    eapply IH; [exact H|]. apply set_NoDup. exact Hn.
Qed.

(** The result of [parse_perp_sections] has one entry per exchange. *)
Theorem exchanges_distinct (j : value) (out : sections) :
  parse_perp_sections j = Ok out -> NoDup (map fst out).
Proof.
  unfold parse_perp_sections. destruct (attr_get j) as [top|]; [|discriminate].
  cbn [bind].
  destruct (if truthy (dict_get top "data") then dict_get top "data" else j);
    try (intros H; inversion H; constructor).
  intros H. eapply parse_entries_NoDup; [exact H|constructor].
Qed.

Lemma exchanges_distinct_witness :
  let doc := VDict [("binancePerp", VDict [("list", VList [])]);
                    ("okxSwap", VDict [("list", VList [])]);
                    ("binanceSwap", VDict [("list", VList [])])] in
  parse_perp_sections doc = Ok [("binance", []); ("okx", [])]
  /\ NoDup (map fst [("binance", @nil row); ("okx", [])]).
Proof.
  cbv zeta.
  assert (H : parse_perp_sections
                (VDict [("binancePerp", VDict [("list", VList [])]);
                        ("okxSwap", VDict [("list", VList [])]);
                        ("binanceSwap", VDict [("list", VList [])])])
              = Ok [("binance", []); ("okx", [])]) by (vm_compute; reflexivity).
  split; [exact H|]. exact (@exchanges_distinct _ _ H).
Defined.

(** The entry gives [out[exch]] a new row list. *)
Definition writes (exch : string) (entry : string * value) : bool :=
  match snd entry with
  | VDict fields =>
      is_section_key (fst entry) &&
      match dict_get fields "list" with
      | VList _ => String.eqb (exchange_of_key (fst entry)) exch
      | _ => false
      end
  | _ => false
  end.

Lemma parse_entries_app (a b : list (string * value)) (out : sections) :
  parse_entries (a ++ b) out =
  (mid <- parse_entries a out ;; parse_entries b mid).
Proof.
  revert out. induction a as [|[key val] a IH]; intros out; simpl; [reflexivity|].
  destruct val; try apply IH.
  destruct (is_section_key key); [|apply IH].
  destruct (dict_get d "list"); try apply IH.
  destruct (parse_rows l); cbn [bind]; [apply IH|reflexivity].
Qed.

Lemma parse_entries_untouched (exch : string) (entries : list (string * value))
  (out res : sections) :
  forallb (fun e => negb (writes exch e)) entries = true ->
  parse_entries entries out = Ok res ->
  PyList.lookup String.eqb exch res = PyList.lookup String.eqb exch out.
Proof.
  revert out. induction entries as [|[key val] entries IH]; simpl; intros out Hw H.
  - inversion H; reflexivity.
  - apply andb_true_iff in Hw. destruct Hw as [Hw Hr].
    unfold writes in Hw. cbn [fst snd] in Hw.
    destruct val; try (eapply IH; eassumption).
    destruct (is_section_key key); [|eapply IH; eassumption].
    destruct (dict_get d "list"); try (eapply IH; eassumption).
    destruct (parse_rows l) as [rows|]; [|discriminate]. cbn [bind] in H.
    rewrite (IH _ Hr H). apply lookup_set_other.
    cbn [andb] in Hw. apply negb_true_iff in Hw.
    destruct (String.eqb_spec (exchange_of_key key) exch); [discriminate|assumption].
Qed.

(** When several sections give the same exchange, the rows of the last of
    them are the rows of that exchange: a section's rows are in the result
    as long as no later section writes the same exchange. *)
Theorem last_section_wins (pre post : list (string * value)) (key : string)
  (fields : list (string * value)) (lst : list value) (res : sections) :
  parse_entries (pre ++ (key, VDict fields) :: post) [] = Ok res ->
  is_section_key key = true ->
  dict_get fields "list" = VList lst ->
  forallb (fun e => negb (writes (exchange_of_key key) e)) post = true ->
  exists rows : list row,
    parse_rows lst = Ok rows /\
    PyList.lookup String.eqb (exchange_of_key key) res = Some rows.
Proof.
  intros H Hk Hl Hw. rewrite parse_entries_app in H.
  destruct (parse_entries pre []) as [mid|]; [|discriminate]. cbn [bind] in H.
  cbn [parse_entries] in H. rewrite Hk, Hl in H.
  destruct (parse_rows lst) as [rows|]; [|discriminate]. cbn [bind] in H.
  exists rows. split; [reflexivity|].
  rewrite (parse_entries_untouched _ _ _ Hw H). apply lookup_set_same.
Qed.

(** A list element with a name only. *)
Definition quote_row (name : string) : value := VDict [("name", VStr name)].

(** Two sections of Binance: the rows of the perpetuals are replaced by
    those of the swaps. *)
Lemma last_section_wins_witness :
  let perp := VDict [("list", VList [quote_row "BTCUSDT"])] in
  let swap := [("list", VList [quote_row "ETHUSDT"])] in
  let res := [("binance", [mkRow (VStr "ETHUSDT") VNone VNone None])] in
  parse_entries ([("binancePerp", perp)] ++ ("binanceSwap", VDict swap) :: []) []
    = Ok res
  /\ exists rows : list row,
       parse_rows [quote_row "ETHUSDT"] = Ok rows /\
       PyList.lookup String.eqb (exchange_of_key "binanceSwap") res = Some rows.
Proof.
  cbv zeta.
  assert (H : parse_entries
                ([("binancePerp", VDict [("list", VList [quote_row "BTCUSDT"])])]
                 ++ ("binanceSwap", VDict [("list", VList [quote_row "ETHUSDT"])])
                 :: []) []
              = Ok [("binance", [mkRow (VStr "ETHUSDT") VNone VNone None])])
    by (vm_compute; reflexivity).
  split; [exact H|].
  exact (@last_section_wins _ _ _ _ _ _ H eq_refl eq_refl eq_refl).
Defined.

End SectionKeys.

(* ================================================================= *)
(** ** Which rows the normalizer returns *)

Module RowsKept.

Import PyVal Normalizer Store IngestProps NormalizerMore SectionKeys.
#[local] Open Scope string_scope.
#[local] Open Scope list_scope.

(** The rows of an exchange come from the section [(key, fields)] of the
    container: the last entry that writes the exchange, its list parsed
    element by element. *)
Definition last_section_of (entries : list (string * value)) (exch : string)
  (rows : list row) : Prop :=
  exists (pre : list (string * value)) (key : string)
         (fields : list (string * value)) (lst : list value)
         (post : list (string * value)),
    entries = pre ++ (key, VDict fields) :: post /\
    is_section_key key = true /\
    dict_get fields "list" = VList lst /\
    exchange_of_key key = exch /\
    forallb (fun e => negb (writes exch e)) post = true /\
    Forall2 (fun it r => parse_row it = Ok r) lst rows.

Lemma last_section_later (e : string * value) (entries : list (string * value))
  (exch : string) (rows : list row) :
  last_section_of entries exch rows -> last_section_of (e :: entries) exch rows.
Proof.
  intros (pre & key & fields & lst & post & -> & H).
  exists (e :: pre), key, fields, lst, post. split; [reflexivity|exact H].
Qed.

Lemma parse_entries_source (entries : list (string * value))
  (out res : sections) :
  parse_entries entries out = Ok res ->
  forall (exch : string) (rows : list row),
    PyList.lookup String.eqb exch res = Some rows ->
    (PyList.lookup String.eqb exch out = Some rows
     /\ forallb (fun e => negb (writes exch e)) entries = true)
    \/ last_section_of entries exch rows.
Proof.
  revert out.
  induction entries as [|[key val] entries IH]; intros out H exch rows Hl.
  - inversion H; subst. left. split; [exact Hl|reflexivity].
  - assert (Skip : parse_entries entries out = Ok res ->
                   writes exch (key, val) = false ->
                   (PyList.lookup String.eqb exch out = Some rows
                    /\ forallb (fun e => negb (writes exch e))
                         ((key, val) :: entries) = true)
                   \/ last_section_of ((key, val) :: entries) exch rows).
    { intros H' Hw. destruct (IH _ H' _ _ Hl) as [[Ho Hn]|Hs].
      - left. split; [exact Ho|]. cbn [forallb]. rewrite Hw, Hn. reflexivity.
      - right. apply last_section_later. exact Hs. }
    cbn [parse_entries] in H. unfold writes in Skip. cbn [fst snd] in Skip.
    destruct val as [| | | | | |fields]; try (apply Skip; [exact H|reflexivity]).
    destruct (is_section_key key) eqn:Ek; [|apply Skip; [exact H|reflexivity]].
    destruct (dict_get fields "list") as [| | | | |lst|] eqn:El;
      try (apply Skip; [exact H|reflexivity]).
    destruct (parse_rows lst) as [rows0|] eqn:Er; [|discriminate].
    cbn [bind] in H. clear Skip.
    destruct (IH _ H _ _ Hl) as [[Ho Hn]|Hs];
      [|right; apply last_section_later; exact Hs].
    destruct (String.eqb_spec (exchange_of_key key) exch) as [He|He].
    + right. rewrite <- He in Ho. rewrite lookup_set_same in Ho.
      inversion Ho; subst rows0.
      exists [], key, fields, lst, entries.
      repeat split; try assumption. apply parse_rows_elementwise. exact Er.
    + left. rewrite (lookup_set_other _ _ He) in Ho. split; [exact Ho|].
      cbn [forallb]. rewrite Hn. unfold writes. cbn [fst snd].
      rewrite Ek, El. cbn [andb].
      destruct (String.eqb_spec (exchange_of_key key) exch);
        [contradiction|reflexivity].
Qed.

(** The rows of a document: every entry of the result is the last section
    of its exchange in the container. *)
Lemma parse_perp_sections_source (j : value) (out : sections) :
  parse_perp_sections j = Ok out ->
  forall (exch : string) (rows : list row),
    In (exch, rows) out ->
    exists (top entries : list (string * value)),
      j = VDict top /\ container top = VDict entries /\
      last_section_of entries exch rows.
Proof.
  unfold parse_perp_sections. destruct j as [| | | | | |top]; try discriminate.
  cbn [attr_get bind]. fold (container top).
  destruct (container top) as [| | | | | |entries] eqn:Ec;
    try (intros H; inversion H; subst; intros ? ? []).
  intros H exch rows Hin. exists top, entries.
  split; [reflexivity|]. split; [exact Ec|].
  assert (Hn : NoDup (map fst out))
    by (eapply parse_entries_NoDup; [exact H|constructor]).
  destruct (@parse_entries_source _ _ _ H _ _ (@NoDup_In_lookup _ _ _ _ Hn Hin))
    as [[Ho _]|Hs]; [discriminate|exact Hs].
Qed.

(** C2, as the code has it.  [parse_perp_sections] filters nothing.  Each
    entry [(exch, rows)] of its result is one section of the document's
    container: the last entry that is a section of exchange [exch] (an
    earlier section of the same exchange is overwritten whole), and [rows]
    has exactly one row for each element of that section's list, in order,
    the rows without usable price and funding included.  Such a row is
    ignored one step later: the body of the store loop of [fetch_loop]
    leaves both rings as they are for it. *)
Theorem rows_kept_then_ignored (j : value) (out : sections) :
  parse_perp_sections j = Ok out ->
  (forall (exch : string) (rows : list row),
     In (exch, rows) out ->
     exists (top pre : list (string * value)) (key : string)
            (fields : list (string * value)) (lst : list value)
            (post : list (string * value)),
       j = VDict top /\
       (if truthy (dict_get top "data") then dict_get top "data" else j)
       = VDict (pre ++ (key, VDict fields) :: post) /\
       is_section_key key = true /\
       dict_get fields "list" = VList lst /\
       exchange_of_key key = exch /\
       forallb (fun e => negb (writes exch e)) post = true /\
       Forall2 (fun it r => parse_row it = Ok r) lst rows /\
       List.length rows = List.length lst)
  /\ (forall (ts : Z) (exch : string) (r : row) (s : store),
        row_usable r = false -> store_row ts exch r s = (Ok tt, s)).
Proof.
  intros H. split; [|exact store_row_unusable].
  intros exch rows Hin.
  destruct (@parse_perp_sections_source _ _ H _ _ Hin)
    as (top & entries & -> & Hc & pre & key & fields & lst & post
        & -> & Hk & Hl & He & Hw & HF).
  exists top, pre, key, fields, lst, post.
  repeat split; try assumption.
  symmetry. eapply Forall2_length. exact HF.
Qed.

(** Two sections of Binance: the rows of the first are gone, and the one
    element of the second, an empty object, has its row in the result. *)
Lemma rows_kept_then_ignored_witness :
  let quoted := VDict [("name", VStr "BTCUSDT"); ("b", VStr "1"); ("a", VStr "2")] in
  let doc := VDict [("binancePerp", VDict [("list", VList [quoted])]);
                    ("binanceSwap", VDict [("list", VList [VDict []])])] in
  let r := mkRow VNone VNone VNone None in
  parse_perp_sections doc = Ok [("binance", [r])]
  /\ (exists (top pre : list (string * value)) (key : string)
             (fields : list (string * value)) (lst : list value)
             (post : list (string * value)),
        doc = VDict top /\
        (if truthy (dict_get top "data") then dict_get top "data" else doc)
        = VDict (pre ++ (key, VDict fields) :: post) /\
        is_section_key key = true /\
        dict_get fields "list" = VList lst /\
        exchange_of_key key = "binance" /\
        forallb (fun e => negb (writes "binance" e)) post = true /\
        Forall2 (fun it r' => parse_row it = Ok r') lst [r] /\
        List.length [r] = List.length lst)
  /\ row_usable r = false
  /\ store_row 1 "binance" r Store.empty = (Ok tt, Store.empty).
Proof.
  cbv zeta.
  set (doc := VDict [("binancePerp",
                      VDict [("list",
                              VList [VDict [("name", VStr "BTCUSDT");
                                            ("b", VStr "1"); ("a", VStr "2")]])]);
                     ("binanceSwap", VDict [("list", VList [VDict []])])]).
  set (r := mkRow VNone VNone VNone None).
  assert (H : parse_perp_sections doc = Ok [("binance", [r])])
    by (vm_compute; reflexivity).
  assert (U : row_usable r = false) by (vm_compute; reflexivity).
  destruct (@rows_kept_then_ignored doc _ H) as [A B].
  split; [exact H|]. split; [exact (A "binance" [r] (or_introl eq_refl))|].
  split; [exact U|exact (B 1 "binance" r Store.empty U)].
Defined.

End RowsKept.

(* ================================================================= *)
(** ** More on the store *)

Module StoreMore.

Import PyVal Normalizer Store StoreProps.
#[local] Open Scope string_scope.
#[local] Open Scope list_scope.
#[local] Open Scope Z_scope.

(** *** Lookup after an append *)

Section UpdateLookup.
Context {K V : Type}.
Variable eqb : K -> K -> bool.
Variables (f : V -> V) (default : V).

Lemma lookup_update_same (k : K) (d : list (K * V)) :
  eqb k k = true ->
  PyList.lookup eqb k (PyList.update eqb k f default d) =
  Some (f (found_or_default eqb default k d)).
Proof.
  intros Hk. unfold found_or_default.
  induction d as [|[k0 v] d IH]; simpl.
  - rewrite Hk. reflexivity.
  - destruct (eqb k0 k) eqn:E; simpl; rewrite E; auto.
Qed.

Lemma lookup_update_other (k k' : K) (d : list (K * V)) :
  (forall k0, eqb k0 k = true -> eqb k0 k' = false) ->
  eqb k k' = false ->
  PyList.lookup eqb k' (PyList.update eqb k f default d) = PyList.lookup eqb k' d.
Proof.
  intros Hk Hkk'. induction d as [|[k0 v] d IH]; simpl.
  - rewrite Hkk'. reflexivity.
  - destruct (eqb k0 k) eqn:E; simpl.
    + rewrite (Hk _ E). reflexivity.
    + destruct (eqb k0 k'); auto.
Qed.

Lemma update_not_nil (k : K) (d : list (K * V)) :
  PyList.update eqb k f default d <> [].
Proof. destruct d as [|[k0 v] d]; simpl; [|destruct (eqb k0 k)]; discriminate. Qed.

Lemma update_values_applied (P : V -> Prop) (k : K) (d : list (K * V)) :
  (forall k' v, In (k', v) d -> P v) ->
  P (f default) -> (forall v, P v -> P (f v)) ->
  forall k' v, In (k', v) (PyList.update eqb k f default d) -> P v.
Proof.
  intros Hd Hdef Hf. induction d as [|[k0 v0] d IH]; simpl; intros k' v.
  - intros [H|[]]. inversion H; subst. exact Hdef.
  - destruct (eqb k0 k).
    + intros [H|H].
      * inversion H; subst. apply Hf. eapply Hd. left; reflexivity.
      * eapply Hd. right; eassumption.
    + intros [H|H].
      * inversion H; subst. eapply Hd. left; reflexivity.
      * eapply IH; eauto. intros; eapply Hd; right; eassumption.
Qed.

End UpdateLookup.

Lemma key_eqb_str (k0 : value) (n : string) :
  key_eqb k0 (VStr n) = true -> k0 = VStr n.
Proof.
  destruct k0; simpl; try discriminate.
  intros H. apply String.eqb_eq in H. congruence.
Qed.

Lemma key_eqb_str_refl (n : string) : key_eqb (VStr n) (VStr n) = true.
Proof. simpl. apply String.eqb_refl. Qed.

(** Appending under an instrument named by a string always succeeds; the
    sample is appended to the series under that instrument and exchange,
    and the series under every other pair of names are as before. *)
Theorem ring_append_lookup (maxlen : Z) (n exch : string) (pt : point) (r : ring) :
  exists r' : ring,
    ring_append maxlen (VStr n) exch pt r = Ok r' /\
    forall (n' exch' : string),
      get_series r' (VStr n') exch' =
      if String.eqb n n' && String.eqb exch exch'
      then deque_append maxlen (get_series r (VStr n') exch') pt
      else get_series r (VStr n') exch'.
Proof.
  eexists. split; [reflexivity|].
  intros n' exch'. unfold get_series, exch_map.
  set (app := fun dq : series => deque_append maxlen dq pt).
  set (inner := PyList.update String.eqb exch app []).
  destruct (String.eqb_spec n n') as [<-|Hn]; cbn [andb].
  - rewrite (@lookup_update_same _ _ key_eqb inner [] (VStr n) r
               (key_eqb_str_refl n)).
    unfold found_or_default.
    destruct (@PyList.lookup value (list (string * series)) key_eqb (VStr n) r)
      as [m|]; unfold inner.
    + destruct (String.eqb_spec exch exch') as [<-|He].
      * rewrite lookup_update_same by apply String.eqb_refl. reflexivity.
      * rewrite lookup_update_other; [reflexivity| |].
        -- intros k0 H. apply String.eqb_eq in H. subst.
           apply String.eqb_neq. exact He.
        -- apply String.eqb_neq. exact He.
    + destruct (String.eqb_spec exch exch') as [<-|He].
      * rewrite lookup_update_same by apply String.eqb_refl. reflexivity.
      * rewrite lookup_update_other; [reflexivity| |].
        -- intros k0 H. apply String.eqb_eq in H. subst.
           apply String.eqb_neq. exact He.
        -- apply String.eqb_neq. exact He.
  - rewrite lookup_update_other; [reflexivity| |].
    + intros k0 H. apply key_eqb_str in H. subst. simpl.
      apply String.eqb_neq. exact Hn.
    + simpl. apply String.eqb_neq. exact Hn.
Qed.

(** *** No empty series, no repeated exchange *)

(** Every instrument of the ring has an exchange, no exchange twice, and
    no series without a sample. *)
Definition well_formed (r : ring) : Prop :=
  forall (name : value) (m : exch_map), In (name, m) r ->
    m <> [] /\ NoDup (map fst m) /\
    forall (exch : string) (dq : series), In (exch, dq) m -> dq <> [].

Lemma deque_append_not_nil (maxlen : Z) (dq : series) (x : point) :
  1 <= maxlen -> deque_append maxlen dq x <> [].
Proof.
  intros H. unfold deque_append.
  destruct (Z.ltb_spec maxlen (Z.of_nat (List.length (dq ++ [x])))) as [L|L].
  - rewrite length_app in L. simpl in L.
    destruct dq as [|p [|q dq]]; simpl in *; try lia; discriminate.
  - destruct dq; discriminate.
Qed.

Lemma In_update_keys {V : Type} (f : V -> V) (default : V) (x k : string)
  (d : list (string * V)) :
  In x (map fst (PyList.update String.eqb k f default d)) ->
  In x (map fst d) \/ x = k.
Proof.
  induction d as [|[k' v'] d IH]; simpl.
  - intros [H|[]]; auto.
  - destruct (String.eqb k' k); simpl; intros [H|H]; auto.
    destruct (IH H); auto.
Qed.

Lemma update_NoDup {V : Type} (f : V -> V) (default : V) (k : string)
  (d : list (string * V)) :
  NoDup (map fst d) -> NoDup (map fst (PyList.update String.eqb k f default d)).
Proof.
  induction d as [|[k' v'] d IH]; simpl; intros H.
  - constructor; [intros []|constructor].
  - inversion H as [|? ? Hn Hd]; subst.
    destruct (String.eqb_spec k' k); simpl; constructor; auto.
    intros Hin. apply In_update_keys in Hin. destruct Hin; auto.
Qed.

Lemma ring_append_well_formed maxlen name exch pt r r' :
  1 <= maxlen -> well_formed r ->
  ring_append maxlen name exch pt r = Ok r' -> well_formed r'.
Proof.
  unfold ring_append. intros Hm Hw.
  destruct (hashable name); [|discriminate].
  intros H. inversion H; subst; clear H.
  intros name' m Hin.
  set (app := fun dq : series => deque_append maxlen dq pt) in *.
  refine (@update_values_applied _ _ key_eqb _ []
            (fun m : exch_map =>
               m <> [] /\ NoDup (map fst m) /\
               forall exch dq, In (exch, dq) m -> dq <> [])
            name r Hw _ _ name' m Hin).
  - split; [discriminate|]. split; [repeat constructor; intros []|].
    intros exch' dq [H|[]]. inversion H; subst.
    apply deque_append_not_nil. exact Hm.
  - intros m0 (Hne & Hnd & Hall). split; [apply update_not_nil|].
    split; [apply update_NoDup; exact Hnd|].
    intros exch' dq Hin'.
    refine (@update_values_applied _ _ String.eqb app []
              (fun dq : series => dq <> []) exch m0 Hall _ _ exch' dq Hin').
    + apply deque_append_not_nil. exact Hm.
    + intros dq0 _. apply deque_append_not_nil. exact Hm.
Qed.

Lemma fetch_once_well_formed upstream ts s :
  well_formed (ring_prices s) /\ well_formed (ring_funding s) ->
  well_formed (ring_prices (fetch_once upstream ts s)) /\
  well_formed (ring_funding (fetch_once upstream ts s)).
Proof.
  apply (@respects_fetch_once ts
           (fun s s' =>
              well_formed (ring_prices s) /\ well_formed (ring_funding s) ->
              well_formed (ring_prices s') /\ well_formed (ring_funding s'))).
  - auto.
  - auto.
  - intros s0 name exch x r' E [Hp Hf]. split; simpl; [|exact Hf].
    eapply ring_append_well_formed; [|exact Hp|exact E].
    unfold price_maxlen. lia.
  - intros s0 name exch x r' E [Hp Hf]. split; simpl; [exact Hp|].
    eapply ring_append_well_formed; [|exact Hf|exact E].
    unfold funding_maxlen. lia.
Qed.

(** In every state the fetch loop reaches, every stored instrument has at
    least one exchange, no exchange appears twice under an instrument, and
    every stored series has at least one sample. *)
Theorem reachable_well_formed (s : store) :
  reachable s -> well_formed (ring_prices s) /\ well_formed (ring_funding s).
Proof.
  induction 1 as [|s upstream ts _ IH].
  - split; intros name m [].
  - apply fetch_once_well_formed. exact IH.
Qed.

Lemma reachable_fold (rounds : list (nat * value)) (s : store) :
  reachable s ->
  reachable (fold_left (fun s jt => fetch_once (Ok (snd jt)) (Z.of_nat (fst jt)) s)
               rounds s).
Proof.
  revert s. induction rounds as [|jt rounds IH]; intros s H; simpl; [exact H|].
  apply IH. constructor. exact H.
Qed.

Lemma reachable_store_after (ticks : list value) :
  reachable (QueryProps.store_after ticks).
Proof. apply reachable_fold. constructor. Qed.

Lemma reachable_well_formed_witness :
  reachable QueryProps.widening /\
  well_formed (ring_prices QueryProps.widening) /\
  well_formed (ring_funding QueryProps.widening).
Proof.
  assert (H : reachable QueryProps.widening) by apply reachable_store_after.
  split; [exact H|]. exact (@reachable_well_formed _ H).
Defined.

(** *** A round that is cut short *)

Lemma store_rows_app (ts : Z) (exch : string) (a b : list row) (s : store) :
  store_rows ts exch (a ++ b) s =
  match store_rows ts exch a s with
  | (Ok _, s') => store_rows ts exch b s'
  | (Raise e, s') => (Raise e, s')
  end.
Proof.
  revert s. induction a as [|r a IH]; intros s; [reflexivity|].
  cbn [app store_rows]. unfold mbind.
  destruct (store_row ts exch r s) as [[u|e] s1]; [|reflexivity].
  apply IH.
Qed.

(** A row whose name is a list or an object, and whose bid and ask give a
    mid, stops the round with [TypeError] when its price is to be stored:
    the rows before it are in the store, the row itself and the rows after
    it are not. *)
Theorem unhashable_name_stops_rows (ts : Z) (exch : string)
  (before after : list row) (r : row) (m : float) (s s1 : store) :
  store_rows ts exch before s = (Ok tt, s1) ->
  hashable (row_name r) = false ->
  mid_from_bid_ask (row_b r) (row_a r) = Some m ->
  store_rows ts exch (before ++ r :: after) s = (Raise TypeError, s1).
Proof.
  intros Hb Hh Hm. rewrite store_rows_app, Hb.
  cbn [store_rows]. unfold mbind at 1, store_row. rewrite Hm.
  unfold mbind at 1, on_prices, ring_append. rewrite Hh. reflexivity.
Qed.

(** A row named by a list between two good rows. *)
Definition named (name : value) : row := mkRow name (VInt 2) (VInt 1) None.

Lemma unhashable_name_stops_rows_witness :
  let s1 := mkStore [(VStr "A", [("x", [(7, 1.5%float)])])] [] in
  store_rows 7 "x" [named (VStr "A")] Store.empty = (Ok tt, s1)
  /\ store_rows 7 "x" ([named (VStr "A")] ++ named (VList []) :: [named (VStr "B")])
       Store.empty = (Raise TypeError, s1).
Proof.
  cbv zeta.
  assert (H : store_rows 7 "x" [named (VStr "A")] Store.empty
              = (Ok tt, mkStore [(VStr "A", [("x", [(7, 1.5%float)])])] []))
    by (vm_compute; reflexivity).
  split; [exact H|].
  refine (@unhashable_name_stops_rows 7 "x" _ _ (named (VList [])) 1.5%float
            _ _ H eq_refl _).
  vm_compute. reflexivity.
Defined.

(** Rows named [NaN]: the decoder hands out one float object for every
    [NaN] of a document, and a dict finds a key that is the same object, so
    the samples of such rows share one instrument. *)
Example nan_names_share_a_key :
  let named_nan (ask : string) :=
    VDict [("name", VFloat nan); ("a", VStr ask); ("b", VStr ask)] in
  let doc :=
    VDict [("binancePerp", VDict [("list", VList [named_nan "1"])]);
           ("okxSwap", VDict [("list", VList [named_nan "2"])])] in
  ring_prices (fetch_once (Ok doc) 7 Store.empty)
  = [(VFloat nan, [("binance", [(7, 1%float)]); ("okx", [(7, 2%float)])])].
Proof. vm_compute. reflexivity. Qed.

End StoreMore.

(* ================================================================= *)
(** ** More on the query *)

Module QueryMore.

Import PyVal Store Query StatsProps QueryProps.
#[local] Open Scope string_scope.
#[local] Open Scope list_scope.

(** *** The selected pair *)

Lemma has_key_In (k : string) (keys : list string) :
  has_key k keys = true -> In k keys.
Proof.
  unfold has_key. intros H. apply existsb_exists in H.
  destruct H as (x & Hin & E). apply String.eqb_eq in E. subst. exact Hin.
Qed.

(** When no exchange appears twice in the map, the selected pair is two
    different exchanges of the map. *)
Theorem pick_pair_distinct (m : exch_map) (a b : string) :
  NoDup (map fst m) ->
  pick_pair_exchanges m = (Some a, Some b) ->
  a <> b /\ In a (map fst m) /\ In b (map fst m).
Proof.
  intros Hn. unfold pick_pair_exchanges.
  destruct (has_key "binance" (map fst m) && has_key "okx" (map fst m)) eqn:E.
  - intros H. inversion H; subst. apply andb_true_iff in E. destruct E as [E1 E2].
    split; [discriminate|]. split; apply has_key_In; assumption.
  - destruct (2 <=? List.length (map fst m))%nat; [|discriminate].
    pose proof (SortProps.sort_desc_perm Z.ltb (last_ts m) (map fst m)) as P.
    destruct (PyList.sort_desc Z.ltb (last_ts m) (map fst m)) as [|k0 [|k1 rest]];
      try discriminate.
    intros H. inversion H; subst.
    pose proof (Permutation_NoDup P Hn) as Hn'.
    inversion Hn' as [|? ? Hnotin _]; subst.
    split; [intros ->; apply Hnotin; left; reflexivity|].
    split; eapply Permutation_in; try (symmetry; exact P); simpl; auto.
Qed.

Lemma pick_pair_distinct_witness :
  let m := [("bybit", [(5%Z, 1%float)]); ("deribit", [(7%Z, 1%float)])] in
  NoDup (map fst m)
  /\ pick_pair_exchanges m = (Some "deribit", Some "bybit")
  /\ "deribit" <> "bybit" /\ In "deribit" (map fst m) /\ In "bybit" (map fst m).
Proof.
  cbv zeta.
  assert (N : NoDup (map fst [("bybit", [(5%Z, 1%float)]);
                              ("deribit", [(7%Z, 1%float)])])).
  { simpl. repeat constructor; simpl; intuition discriminate. }
  assert (H : pick_pair_exchanges [("bybit", [(5%Z, 1%float)]);
                                   ("deribit", [(7%Z, 1%float)])]
              = (Some "deribit", Some "bybit")) by reflexivity.
  split; [exact N|]. split; [exact H|].
  exact (@pick_pair_distinct _ _ _ N H).
Defined.

(** *** The recent points *)

(** For a positive window [l[-window:]] is the last [window] points, or
    all of them when there are fewer; for a negative window it is what is
    left after dropping the [-window] oldest points. *)
Theorem recent_spec (w : Z) (l : series) :
  ((0 < w)%Z ->
   recent w l = skipn (List.length l - Z.to_nat w) l /\
   List.length (recent w l) = Nat.min (Z.to_nat w) (List.length l))
  /\ ((w < 0)%Z -> recent w l = skipn (Z.to_nat (- w)) l).
Proof.
  unfold recent, PyList.slice_from. split; intros H.
  - destruct (Z.ltb_spec (- w) 0); [|lia].
    assert (E : Z.to_nat (Z.max 0 (Z.of_nat (List.length l) + - w)) =
                (List.length l - Z.to_nat w)%nat) by lia.
    rewrite E. split; [reflexivity|]. rewrite length_skipn. lia.
  - destruct (Z.ltb_spec (- w) 0); [lia|].
    destruct (Z.le_gt_cases (- w) (Z.of_nat (List.length l))).
    + rewrite Z.min_l by assumption. reflexivity.
    + rewrite Z.min_r by lia. rewrite Nat2Z.id.
      rewrite skipn_all. symmetry. apply skipn_all2. lia.
Qed.

Lemma recent_length_le (w : Z) (l : series) :
  (List.length (recent w l) <= List.length l)%nat.
Proof. unfold recent, PyList.slice_from. rewrite length_skipn. lia. Qed.

(** *** The number of samples *)

Lemma rank_paired_length (a b : series) :
  (List.length (rank_paired_spreads a b) <=
   Nat.min (List.length a) (List.length b))%nat.
Proof.
  unfold rank_paired_spreads.
  assert (L : forall l : list (point * point),
            (List.length (flat_map sample_list l) <= List.length l)%nat).
  { induction l as [|p l IH]; simpl; [lia|].
    rewrite length_app. unfold sample_list at 1.
    destruct (spread_sample _ _); simpl; lia. }
  specialize (L (combine (rev a) (rev b))).
  rewrite length_combine, !length_rev in L. exact L.
Qed.

Lemma spread_stats_count (l : list float) (avg std : option float) (n : Z) :
  spread_stats l = Ok (avg, std, n) -> n = Z.of_nat (List.length l).
Proof.
  rewrite spread_stats_spec. destruct l as [|x [|y l]].
  - intros H. inversion H. reflexivity.
  - intros H. inversion H. reflexivity.
  - cbv zeta. destruct (existsb _ _); [discriminate|].
    destruct (PrimFloat.ltb _ _); [discriminate|].
    intros H. inversion H. reflexivity.
Qed.

(** The [samples] of a record are at most the length of the shorter of
    the two series of its pair, and at most the window when the window is
    positive. *)
Theorem samples_bound (window : Z) (funding : ring) (sym : value)
  (m : exch_map) (it : item) :
  make_item window funding sym m = Ok (Some it) ->
  (0 <= samples it)%Z /\
  (samples it <=
   Z.of_nat (Nat.min (List.length (series_of m (exA it)))
                     (List.length (series_of m (exB it)))))%Z /\
  ((0 < window)%Z -> (samples it <= window)%Z).
Proof.
  intros H. apply make_item_inv in H.
  destruct H as (a & b & mA & mB & avg & std & n & fA & fB & fAvg &
                 Ep & EA & EB & El & Es & E).
  cbv zeta in E. subst it. cbn [exA exB samples].
  apply spread_stats_count in Es. subst n.
  pose proof (rank_paired_length (recent window (series_of m a))
                (recent window (series_of m b))) as L.
  pose proof (recent_length_le window (series_of m a)) as La.
  pose proof (recent_length_le window (series_of m b)) as Lb.
  split; [lia|]. split; [lia|].
  intros Hw. destruct (recent_spec window (series_of m a)) as [Hpos _].
  destruct (Hpos Hw) as [_ Hlen]. lia.
Qed.

Lemma samples_bound_witness :
  make_item 2 [] (VStr "BTCUSDT") (prices_of "BTCUSDT" widening)
    = Ok (Some (mkItem (VStr "BTCUSDT") "binance" "okx" 100%float 104%float
                  3.921569%float (Some 3.438617%float) (Some 0.707%float)
                  None None None 2%Z 2%Z))
  /\ (2 <= 2)%Z.
Proof.
  assert (H : make_item 2 [] (VStr "BTCUSDT") (prices_of "BTCUSDT" widening)
    = Ok (Some (mkItem (VStr "BTCUSDT") "binance" "okx" 100%float 104%float
                  3.921569%float (Some 3.438617%float) (Some 0.707%float)
                  None None None 2%Z 2%Z)))
    by (vm_compute; reflexivity).
  split; [exact H|].
  destruct (@samples_bound _ _ _ _ _ H) as (_ & _ & Hw).
  apply Hw. lia.
Defined.

(** *** The records of a response *)

Lemma make_item_entry (window : Z) (funding : ring) (sym : value)
  (m : exch_map) (it : item) :
  make_item window funding sym m = Ok (Some it) ->
  (2 <= List.length m)%nat /\ symbol it = sym /\ window_sec it = window.
Proof.
  intros H. split.
  - unfold make_item in H.
    destruct (Nat.ltb_spec (List.length m) 2); [discriminate|assumption].
  - apply make_item_inv in H.
    destruct H as (a & b & mA & mB & avg & std & n & fA & fB & fAvg &
                   _ & _ & _ & _ & _ & E).
    cbv zeta in E. subst it. split; reflexivity.
Qed.

Lemma collect_items_spec (window : Z) (funding prices : ring)
  (acc items : list item) :
  collect_items window funding prices acc = Ok items ->
  exists new : list item,
    items = acc ++ new /\
    (List.length new <= List.length prices)%nat /\
    forall it, In it new ->
      exists m, In (symbol it, m) prices /\
                make_item window funding (symbol it) m = Ok (Some it).
Proof.
  revert acc. induction prices as [|[sym m] prices IH]; intros acc H.
  - simpl in H. inversion H; subst. exists []. rewrite app_nil_r.
    split; [reflexivity|]. split; [simpl; lia|]. intros it [].
  - cbn [collect_items] in H.
    destruct (make_item window funding sym m) as [[x|]|] eqn:E;
      [| |discriminate]; cbn [bind] in H.
    + destruct (IH _ H) as (new & -> & Hlen & Hnew).
      exists (x :: new). rewrite <- app_assoc. split; [reflexivity|].
      split; [simpl; lia|].
      intros it [<-|Hin].
      * destruct (make_item_entry _ _ _ _ E) as (_ & Hs & _).
        exists m. rewrite Hs. split; [left; reflexivity|exact E].
      * destruct (Hnew _ Hin) as (m' & Hm' & Hi).
        exists m'. split; [right; exact Hm'|exact Hi].
    + destruct (IH _ H) as (new & -> & Hlen & Hnew).
      exists new. split; [reflexivity|]. split; [simpl; lia|].
      intros it Hin. destruct (Hnew _ Hin) as (m' & Hm' & Hi).
      exists m'. split; [right; exact Hm'|exact Hi].
Qed.

(** What the loop of [api_data] appends for one entry of the price ring:
    the record of the instrument, or nothing. *)
Definition record_of (w : Z) (funding : ring) (e : value * exch_map)
  : list item :=
  match make_item w funding (fst e) (snd e) with
  | Ok (Some it) => [it]
  | _ => []
  end.

Lemma collect_items_records (window : Z) (funding prices : ring)
  (acc items : list item) :
  collect_items window funding prices acc = Ok items ->
  items = acc ++ flat_map (record_of window funding) prices.
Proof.
  revert acc. induction prices as [|[sym m] prices IH]; intros acc H.
  - simpl in H. inversion H; subst. simpl. rewrite app_nil_r. reflexivity.
  - cbn [collect_items] in H. cbn [flat_map]. unfold record_of at 1.
    cbn [fst snd].
    destruct (make_item window funding sym m) as [[x|]|]; [| |discriminate];
      cbn [bind] in H; rewrite (IH _ H).
    + rewrite <- app_assoc. reflexivity.
    + reflexivity.
Qed.

Lemma record_of_entry (w : Z) (funding : ring) (e : value * exch_map) :
  (List.length (record_of w funding e) <= 1)%nat /\
  forall it, In it (record_of w funding e) ->
    symbol it = fst e /\ window_sec it = w /\ (2 <= List.length (snd e))%nat.
Proof.
  unfold record_of.
  destruct (make_item w funding (fst e) (snd e)) as [[x|]|] eqn:E;
    (split; [simpl; lia|]); try (intros it Hf; contradiction).
  intros it [<-|[]].
  destruct (make_item_entry _ _ _ _ E) as (H2 & Hs & Hw). auto.
Qed.

(** X12.  The records of a successful query are, up to their order, the
    records of the entries of the price ring, entry by entry: an entry
    gives one record or none, so no instrument has two.  A record an
    entry gives is for the instrument of that entry, which has two
    exchanges or more, and carries the window of the request: what [int]
    reads from the [window] parameter, 300 when the request has none. *)
Theorem api_items_records (arg : option string) (s : store) (items : list item) :
  api_items arg s = Ok items ->
  exists w : Z,
    match arg with
    | Some text => PyFloat.int_of_string text = Ok w
    | None => w = 300%Z
    end /\
    Permutation (flat_map (record_of w (ring_funding s)) (ring_prices s)) items /\
    forall e : value * exch_map,
      In e (ring_prices s) ->
      (List.length (record_of w (ring_funding s) e) <= 1)%nat /\
      forall it, In it (record_of w (ring_funding s) e) ->
        symbol it = fst e /\ window_sec it = w /\
        (2 <= List.length (snd e))%nat.
Proof.
  unfold api_items. destruct (window_of arg) as [w|] eqn:Ew; [|discriminate].
  cbn [bind].
  destruct (collect_items w (ring_funding s) (ring_prices s) []) as [c|] eqn:Ec;
    [|discriminate].
  cbn [bind]. intros H. inversion H; subst; clear H.
  apply collect_items_records in Ec. cbn [app] in Ec. subst c.
  exists w. split; [|split].
  - destruct arg as [text|]; [exact Ew|]. inversion Ew. reflexivity.
  - apply SortProps.sort_desc_perm.
  - intros e _. apply record_of_entry.
Qed.

(** The query on [two_symbols]: one record for each of the two
    instruments, the wider spread first. *)
Lemma api_items_records_witness :
  api_items None two_symbols = Ok two_symbols_items
  /\ Permutation
       (flat_map (record_of 300 (ring_funding two_symbols))
          (ring_prices two_symbols))
       two_symbols_items
  /\ map symbol two_symbols_items = [VStr "BBBUSDT"; VStr "AAAUSDT"]
  /\ map fst (ring_prices two_symbols) = [VStr "AAAUSDT"; VStr "BBBUSDT"].
Proof.
  assert (H : api_items None two_symbols = Ok two_symbols_items)
    by (vm_compute; reflexivity).
  split; [exact H|].
  destruct (@api_items_records _ _ _ H) as (w & Hw & P & _).
  subst w. split; [exact P|]. split; vm_compute; reflexivity.
Defined.

(** *** Funding *)

Lemma of_Z_one : PyFloat.of_Z 1 = 1%float.
Proof. vm_compute. reflexivity. Qed.

Lemma of_Z_two : PyFloat.of_Z 2 = 2%float.
Proof. vm_compute. reflexivity. Qed.

(** [sum(vals) / len(vals)] for the sides that have a funding value: the
    sum starts from 0. *)
Lemma funding_mean_spec (fA fB : option float) :
  funding_mean fA fB =
  Ok match fA, fB with
     | Some a, Some b => Some ((0 + a + b) / 2)%float
     | Some a, None => Some ((0 + a) / 1)%float
     | None, Some b => Some ((0 + b) / 1)%float
     | None, None => None
     end.
Proof.
  destruct fA as [a|], fB as [b|]; unfold funding_mean, PyFloat.div_len;
    cbn [present flat_map app List.length Z.of_nat Pos.of_succ_nat Pos.succ
         Z.eqb bind PyFloat.sum fold_left];
    rewrite ?of_Z_one, ?of_Z_two; reflexivity.
Qed.

(** The last sample of the series stored under [ex], when there is a
    series and it has samples. *)
Definition last_value (m : exch_map) (ex : string) : option float :=
  match PyList.lookup String.eqb ex m with
  | Some (p :: dq) => Some (snd (last (p :: dq) p))
  | _ => None
  end.

Lemma latest_last_value (m : exch_map) (ex : string) :
  latest m ex = last_value m ex.
Proof.
  unfold latest, last_value.
  destruct (PyList.lookup String.eqb ex m) as [dq|]; [|reflexivity].
  destruct dq as [|p dq]; [reflexivity|].
  unfold PyList.last_opt.
  destruct (exists_last (l := p :: dq) ltac:(discriminate)) as (l' & x & E).
  rewrite E, rev_unit, last_last. reflexivity.
Qed.

(** X13.  The funding of a record.  [fundingA] and [fundingB] are the
    values of the last funding samples the store holds for the instrument
    on the two exchanges of the pair, absent where it holds none.
    [funding_avg] is their mean [(0 + a + b) / 2] when both are present,
    the one that is present (added to the 0 the sum starts from) when one
    is, and absent when neither is. *)
Theorem item_funding (window : Z) (funding : ring) (sym : value)
  (m : exch_map) (it : item) :
  make_item window funding sym m = Ok (Some it) ->
  let f_map :=
    match PyList.lookup key_eqb sym funding with
    | Some fm => fm
    | None => []
    end in
  fundingA it = last_value f_map (exA it) /\
  fundingB it = last_value f_map (exB it) /\
  funding_avg it =
    match fundingA it, fundingB it with
    | Some a, Some b => Some ((0 + a + b) / 2)%float
    | Some a, None => Some ((0 + a) / 1)%float
    | None, Some b => Some ((0 + b) / 1)%float
    | None, None => None
    end.
Proof.
  unfold make_item. intros H.
  destruct (List.length m <? 2)%nat; [discriminate|].
  destruct (pick_pair_exchanges m) as [[a|] [b|]] eqn:Ep; try discriminate.
  destruct (PyStr.is_empty a || PyStr.is_empty b); [discriminate|].
  destruct (latest m a) as [mA|] eqn:EA; [|discriminate].
  destruct (latest m b) as [mB|] eqn:EB; [|discriminate].
  destruct (falsy_mid (Some mA) || falsy_mid (Some mB)); [discriminate|].
  destruct (PrimFloat.leb _ _); [discriminate|].
  destruct (pct_spread mA mB _) as [spread|]; [|discriminate]. cbn [bind] in H.
  destruct (window_spreads _ _ _) as [spreads|]; [|discriminate].
  cbn [bind] in H.
  destruct (spread_stats spreads) as [[[avg std] n]|]; [|discriminate].
  cbn [bind] in H.
  destruct (zscore_of spread avg std) as [z|]; [|discriminate].
  cbn [bind] in H.
  rewrite funding_mean_spec in H.
  cbn [bind] in H. inversion H; subst; clear H.
  cbv zeta. cbn [fundingA fundingB funding_avg exA exB].
  rewrite !latest_last_value. repeat split.
Qed.

(** Funding rings with samples on both exchanges, and on OKX only. *)
Definition both_funding : ring :=
  [(VStr "BTCUSDT",
    [("binance", [(3%Z, 0.0005%float); (4%Z, 0.000244140625%float)]);
     ("okx", [(4%Z, 0.0001220703125%float)])])].

Definition okx_funding : ring :=
  [(VStr "BTCUSDT", [("okx", [(4%Z, 0.0001%float)])])].

Definition funded_item (fA fB fAvg : option float) : item :=
  mkItem (VStr "BTCUSDT") "binance" "okx" 100%float 104%float
    3.921569%float (Some 2.463114%float) (Some 1.158%float)
    fA fB fAvg 300%Z 4%Z.

Lemma item_funding_witness :
  make_item 300 both_funding (VStr "BTCUSDT") (prices_of "BTCUSDT" widening)
    = Ok (Some (funded_item (Some 0.000244140625%float)
                  (Some 0.0001220703125%float) (Some 0.00018310546875%float)))
  /\ Some 0.00018310546875%float
     = Some ((0 + 0.000244140625 + 0.0001220703125) / 2)%float
  /\ make_item 300 okx_funding (VStr "BTCUSDT") (prices_of "BTCUSDT" widening)
      = Ok (Some (funded_item None (Some 0.0001%float) (Some 0.0001%float)))
  /\ Some 0.0001%float = Some ((0 + 0.0001) / 1)%float.
Proof.
  assert (H : make_item 300 both_funding (VStr "BTCUSDT")
                (prices_of "BTCUSDT" widening)
              = Ok (Some (funded_item (Some 0.000244140625%float)
                            (Some 0.0001220703125%float)
                            (Some 0.00018310546875%float))))
    by (vm_compute; reflexivity).
  assert (H' : make_item 300 okx_funding (VStr "BTCUSDT")
                 (prices_of "BTCUSDT" widening)
               = Ok (Some (funded_item None (Some 0.0001%float)
                             (Some 0.0001%float))))
    by (vm_compute; reflexivity).
  destruct (@item_funding _ _ _ _ _ H) as (_ & _ & A).
  destruct (@item_funding _ _ _ _ _ H') as (_ & _ & B).
  split; [exact H|]. split; [exact A|]. split; [exact H'|exact B].
Defined.

(** *** A window of zero *)

(** C10.  A query whose [window] parameter [int] reads as 0 takes the
    whole series: [l[-window:]] is then [l[0:]].  Every record of its
    response is for an instrument of the price ring, carries
    [window_sec = 0], and its statistics are those of the rank-paired
    samples of the two whole series of its pair: [samples] is their
    number, the mean and the z-score are computed from them.  Unless the
    average of the two latest mids is NaN, there is at least one sample,
    and the mean is present. *)
Theorem window_zero_takes_whole_series (text updated u : string) (s : store)
  (items : list item) (status : Z) :
  PyFloat.int_of_string text = Ok 0%Z ->
  api_data (Some text) updated s = (Success u items, status) ->
  forall it : item,
    In it items ->
    exists (m : exch_map) (mA mB : float) (avg std : option float),
      In (symbol it, m) (ring_prices s) /\
      latest m (exA it) = Some mA /\ latest m (exB it) = Some mB /\
      let whole :=
        rank_paired_spreads (series_of m (exA it)) (series_of m (exB it)) in
      let spread := ((mB - mA) / ((mA + mB) / 2) * 100)%float in
      window_sec it = 0%Z /\
      window_spreads 0 (series_of m (exA it)) (series_of m (exB it))
        = Ok whole /\
      spread_stats whole = Ok (avg, std, samples it) /\
      samples it = Z.of_nat (List.length whole) /\
      avg_spread_pct it = option_map (fun x => PyFloat.round x 6) avg /\
      zscore it =
        option_map (fun x => PyFloat.round x 3)
          match std, avg with
          | Some sd, Some mu =>
              if (1e-9 <? sd)%float then Some ((spread - mu) / sd)%float
              else None
          | _, _ => None
          end /\
      (PyFloat.is_nan ((mA + mB) / 2)%float = false ->
       (1 <= samples it)%Z /\ avg_spread_pct it <> None).
Proof.
  intros Hw H it Hin.
  apply api_data_success in H. destruct H as (H & _ & _).
  unfold api_items, window_of in H. rewrite Hw in H. cbn [bind] in H.
  destruct (collect_items 0 (ring_funding s) (ring_prices s) []) as [c|] eqn:Ec;
    [|discriminate].
  cbn [bind] in H. inversion H; subst; clear H.
  apply (Permutation_in _
           (Permutation_sym (SortProps.sort_desc_perm PrimFloat.ltb abs_spread c)))
    in Hin.
  destruct (collect_items_spec _ _ _ _ Ec) as (new & -> & _ & Hnew).
  cbn [app] in Hin.
  destruct (Hnew _ Hin) as (m & Hm & Hi).
  destruct (make_item_window_zero _ _ _ Hi)
    as (mA & mB & avg & std & EA & EB & Z0 & Es & Hn & Ha & Hz & Hc).
  exists m, mA, mB, avg, std. cbv zeta.
  split; [exact Hm|]. split; [exact EA|]. split; [exact EB|].
  split; [exact Z0|]. split; [apply window_spreads_zero|].
  split; [exact Es|]. split; [exact Hn|]. split; [exact Ha|].
  split; [exact Hz|exact Hc].
Qed.

(** Ten rounds with mids 100 and 101, then a query with [window=0]: the
    one record has ten samples and a mean. *)
Lemma window_zero_takes_whole_series_witness :
  PyFloat.int_of_string "0" = Ok 0%Z
  /\ api_data (Some "0") "" steady = (Success "" [steady_item 0], 200%Z)
  /\ window_sec (steady_item 0) = 0%Z
  /\ samples (steady_item 0) = 10%Z
  /\ (1 <= samples (steady_item 0))%Z
  /\ avg_spread_pct (steady_item 0) <> None.
Proof.
  assert (Hw : PyFloat.int_of_string "0" = Ok 0%Z) by (vm_compute; reflexivity).
  assert (H : api_data (Some "0") "" steady
              = (Success "" [steady_item 0], 200%Z))
    by (vm_compute; reflexivity).
  destruct (@window_zero_takes_whole_series _ _ _ _ _ _ Hw H (steady_item 0)
              (or_introl eq_refl))
    as (m & mA & mB & avg & std & Hm & EA & EB & Z0 & _ & _ & Hn & _ & _ & Hc).
  split; [exact Hw|]. split; [exact H|]. split; [exact Z0|].
  split; [reflexivity|].
  apply Hc.
  assert (Em : m = prices_of "BTCUSDT" steady).
  { vm_compute in Hm. destruct Hm as [Hm|[]]. inversion Hm. reflexivity. }
  subst m. vm_compute in EA, EB. inversion EA. inversion EB.
  vm_compute. reflexivity.
Defined.

End QueryMore.

(* ================================================================= *)
(** ** [series_stats] *)

Module SeriesStats.

Import Store.
#[local] Open Scope Z_scope.

(** [t >= cutoff] for the sample [(t, v)]. *)
Definition in_window (cutoff : Z) (p : point) : bool := cutoff <=? fst p.

(** [series_stats(series, now_ms, window_sec)], for an integer number of
    seconds: mean and deviation of the values sampled in the last
    [window_sec] seconds, and their number. *)
Definition series_stats (series : Store.series) (now_ms window_sec : Z)
  : result (option float * option float * Z) :=
  match series with
  | [] => Ok (None, None, 0)
  | _ =>
      let cutoff := now_ms - window_sec * 1000 in
      let vals := map snd (filter (in_window cutoff) series) in
      let n := Z.of_nat (List.length vals) in
      if n =? 0 then Ok (None, None, 0)
      else
        mean <- PyFloat.div_len (PyFloat.sum vals) n ;;
        if n <? 2 then Ok (Some mean, Some 0%float, n)
        else
          total <- PyFloat.sum_gen 0%float
                     (map (fun x => PyFloat.pow2 (x - mean)%float) vals) ;;
          var <- PyFloat.div_len total (n - 1) ;;
          std <- PyFloat.sqrt var ;;
          Ok (Some mean, Some std, n)
  end.

Lemma filter_idem {A : Type} (f : A -> bool) (l : list A) :
  filter f (filter f l) = filter f l.
Proof.
  induction l as [|x l IH]; simpl; [reflexivity|].
  destruct (f x) eqn:E; simpl; rewrite ?E, IH; reflexivity.
Qed.

(** The samples older than the cutoff play no part. *)
Lemma series_stats_filter (series : Store.series) (now_ms window_sec : Z) :
  series_stats series now_ms window_sec =
  series_stats (filter (in_window (now_ms - window_sec * 1000)) series)
    now_ms window_sec.
Proof.
  unfold series_stats.
  destruct series as [|p series]; [reflexivity|].
  set (cutoff := now_ms - window_sec * 1000).
  set (kept := filter (in_window cutoff) (p :: series)).
  destruct kept as [|q kept'] eqn:E.
  - reflexivity.
  - cbv zeta. rewrite <- E. unfold kept. rewrite filter_idem. reflexivity.
Qed.

(** [series_stats] looks only at the samples with [t >= now_ms -
    window_sec * 1000]: the older ones do not change the result.  When it
    returns, the count is the number of those samples, the mean is present
    exactly when there is at least one, and the deviation is 0 when there
    is exactly one. *)
Theorem series_stats_window (series : Store.series) (now_ms window_sec : Z) :
  let cutoff := now_ms - window_sec * 1000 in
  let count := Z.of_nat (List.length (filter (in_window cutoff) series)) in
  series_stats series now_ms window_sec =
    series_stats (filter (in_window cutoff) series) now_ms window_sec
  /\ (count = 0 -> series_stats series now_ms window_sec = Ok (None, None, 0))
  /\ (forall (mean std : option float) (n : Z),
        series_stats series now_ms window_sec = Ok (mean, std, n) ->
        n = count /\ (mean = None <-> count = 0) /\
        (count = 1 -> std = Some 0%float)).
Proof.
  cbv zeta. split; [apply series_stats_filter|].
  unfold series_stats.
  destruct series as [|p series].
  - split; [reflexivity|]. intros mean std n H. inversion H; subst.
    simpl. repeat split; auto; discriminate.
  - set (cutoff := now_ms - window_sec * 1000).
    set (vals := map snd (filter (in_window cutoff) (p :: series))).
    assert (L : Z.of_nat (List.length (filter (in_window cutoff) (p :: series)))
                = Z.of_nat (List.length vals))
      by (unfold vals; rewrite length_map; reflexivity).
    rewrite L. clearbody vals. clear L.
    set (n0 := Z.of_nat (List.length vals)).
    split.
    + intros H. cbv zeta. fold n0. rewrite H. reflexivity.
    + intros mean std n. cbv zeta. fold n0.
      destruct (Z.eqb_spec n0 0) as [E0|E0].
      * intros H. inversion H; subst. rewrite E0.
        repeat split; auto; lia.
      * unfold PyFloat.div_len at 1.
        destruct (Z.eqb_spec n0 0) as [|_]; [contradiction|]. cbn [bind].
        destruct (Z.ltb_spec n0 2) as [E2|E2].
        -- intros H. inversion H; subst.
           repeat split; auto; try discriminate; lia.
        -- destruct (PyFloat.sum_gen _ _) as [total|]; [|discriminate].
           cbn [bind].
           destruct (PyFloat.div_len total (n0 - 1)) as [var|]; [|discriminate].
           cbn [bind].
           destruct (PyFloat.sqrt var) as [sd|]; [|discriminate].
           cbn [bind]. intros H. inversion H; subst.
           repeat split; auto; try discriminate; lia.
Qed.

(** Three samples, of which the last two fall in a window of one second. *)
Example series_stats_example :
  series_stats [(1000, 9%float); (5000, 1%float); (5500, 3%float)] 6000 1
  = Ok (Some 2%float, Some 1.4142135623730951%float, 2)
  /\ series_stats [(1000, 9%float)] 6000 1 = Ok (None, None, 0)
  /\ series_stats [] 6000 1 = Ok (None, None, 0).
Proof. vm_compute. repeat split. Qed.

End SeriesStats.

(* ================================================================= *)
(** ** From a quote to the store *)

Module QuotePath.

Import PyVal Normalizer Store StoreProps StoreMore.
#[local] Open Scope string_scope.
#[local] Open Scope list_scope.

(** A section with the single quote [{"name": n, "a": a, "b": b}]. *)
Definition quote_doc (key n : string) (a b : value) : value :=
  VDict [(key,
          VDict [("list",
                  VList [VDict [("name", VStr n); ("a", a); ("b", b)]])])].

Lemma safe_get_single (entries : list (string * value)) (k : string) :
  safe_get (VDict entries) [k] VNone = dict_get entries k.
Proof. simpl. destruct (dict_get entries k); reflexivity. Qed.

Lemma mid_some_not_none (b a : value) (m : float) :
  mid_from_bid_ask b a = Some m -> is_none a = false /\ is_none b = false.
Proof.
  unfold mid_from_bid_ask, mid_body. intros H. split.
  - destruct a; try reflexivity. exfalso.
    destruct (py_float b); simpl in H; discriminate.
  - destruct b; try reflexivity. simpl in H. discriminate.
Qed.

Lemma section_key_not_data (key : string) :
  is_section_key key = true -> String.eqb key "data" = false.
Proof.
  intros H. destruct (String.eqb_spec key "data") as [->|]; [|reflexivity].
  vm_compute in H. discriminate.
Qed.

Lemma parse_quote_doc (key n : string) (a b : value) (m : float) :
  is_section_key key = true -> n <> "" ->
  mid_from_bid_ask b a = Some m ->
  parse_perp_sections (quote_doc key n a b) =
  Ok [(exchange_of_key key, [mkRow (VStr n) a b None])].
Proof.
  intros Hk Hn Hm.
  destruct (mid_some_not_none _ _ Hm) as [Ha Hb].
  unfold parse_perp_sections, quote_doc. cbn [attr_get bind].
  unfold dict_get at 1 2. cbn [dict_get_default].
  rewrite (section_key_not_data _ Hk). cbn [truthy].
  cbn [parse_entries]. rewrite Hk.
  unfold dict_get at 1. cbn [dict_get_default String.eqb Ascii.eqb Bool.eqb].
  cbn [parse_rows]. unfold parse_row.
  rewrite !safe_get_single.
  unfold dict_get at 1 2 3 4 5.
  cbn [dict_get_default String.eqb Ascii.eqb Bool.eqb].
  assert (Ht : truthy (VStr n) = true).
  { simpl. destruct n; [congruence|reflexivity]. }
  rewrite Ht, Ha, Hb. cbn [negb orb bind].
  unfold guess_funding.
  rewrite NormalizerProps.guess_funding_from_dict.
  cbn [bind fst snd]. reflexivity.
Qed.

(** One round on a document with one section holding one quote with a
    non-empty name and a bid and ask that give a mid: the sample
    [(ts, mid)] is appended to the price series of that name under the
    section's exchange, and the funding ring is left as it was. *)
Theorem fetch_stores_quote (key n : string) (a b : value) (m : float)
  (ts : Z) (s : store) :
  is_section_key key = true -> n <> "" ->
  mid_from_bid_ask b a = Some m ->
  let s' := fetch_once (Ok (quote_doc key n a b)) ts s in
  get_series (ring_prices s') (VStr n) (exchange_of_key key) =
    deque_append price_maxlen
      (get_series (ring_prices s) (VStr n) (exchange_of_key key)) (ts, m)
  /\ ring_funding s' = ring_funding s.
Proof.
  intros Hk Hn Hm. cbv zeta.
  unfold fetch_once, fetch_body, mbind, lift.
  rewrite (@parse_quote_doc _ _ _ _ _ Hk Hn Hm).
  cbn [store_sections store_rows]. unfold store_row.
  cbn [row_name row_a row_b row_funding]. rewrite Hm.
  unfold mbind, ret, on_prices. cbv beta.
  destruct (ring_append_lookup price_maxlen n (exchange_of_key key) (ts, m)
              (ring_prices s)) as (r' & Er & Hr).
  rewrite Er. cbv beta iota. cbn [snd ring_prices ring_funding].
  split; [|reflexivity].
  rewrite Hr, !String.eqb_refl. reflexivity.
Qed.

Lemma fetch_stores_quote_witness :
  is_section_key "okxSwap" = true /\ "BTCUSDT" <> "" /\
  mid_from_bid_ask (VStr "100.0") (VStr "100.2") = Some 100.1%float /\
  get_series
    (ring_prices (fetch_once (Ok (quote_doc "okxSwap" "BTCUSDT"
                                    (VStr "100.2") (VStr "100.0"))) 7 Store.empty))
    (VStr "BTCUSDT") (exchange_of_key "okxSwap")
  = deque_append price_maxlen
      (get_series (ring_prices Store.empty) (VStr "BTCUSDT")
         (exchange_of_key "okxSwap")) (7%Z, 100.1%float).
Proof.
  assert (Hk : is_section_key "okxSwap" = true) by (vm_compute; reflexivity).
  assert (Hn : "BTCUSDT" <> "") by discriminate.
  assert (Hm : mid_from_bid_ask (VStr "100.0") (VStr "100.2") = Some 100.1%float)
    by (vm_compute; reflexivity).
  split; [exact Hk|]. split; [exact Hn|]. split; [exact Hm|].
  destruct (@fetch_stores_quote "okxSwap" "BTCUSDT" (VStr "100.2") (VStr "100.0")
              100.1%float 7%Z Store.empty Hk Hn Hm) as [H _].
  exact H.
Defined.

End QuotePath.

(* ================================================================= *)
(** ** What can make a query fail *)

Module QueryFailures.

Import PyVal Store Query StatsProps QueryProps QueryMore.
#[local] Open Scope string_scope.
#[local] Open Scope list_scope.

Lemma eqb_true_leb (x y : float) :
  (x =? y)%float = true -> (x <=? y)%float = true.
Proof.
  intros H. apply FloatOrder.eqb_key in H. destruct H as (a & Hx & Hy).
  apply FloatOrder.leb_key. exists a, a. repeat split; auto.
  right. reflexivity.
Qed.

(** The guard [avg_mid <= 0] keeps zero away from the division. *)
Lemma pct_spread_guarded (x y avg : float) :
  (avg <=? 0)%float = false ->
  pct_spread x y avg = Ok ((y - x) / avg * 100)%float.
Proof.
  intros H. unfold pct_spread, PyFloat.div.
  destruct (avg =? 0)%float eqn:E; [|reflexivity].
  apply eqb_true_leb in E. congruence.
Qed.

Lemma spread_stats_raises (l : list float) (e : exn) :
  spread_stats l = Raise e -> e = OverflowError \/ e = ValueError.
Proof.
  rewrite spread_stats_spec. destruct l as [|x [|y l]]; try discriminate.
  cbv zeta. destruct (existsb _ _).
  - intros H. inversion H. auto.
  - destruct (PrimFloat.ltb _ _); [|discriminate].
    intros H. inversion H. auto.
Qed.

Lemma make_item_raises (window : Z) (funding : ring) (sym : value)
  (m : exch_map) (e : exn) :
  make_item window funding sym m = Raise e ->
  e = OverflowError \/ e = ValueError.
Proof.
  unfold make_item. intros H.
  destruct (List.length m <? 2)%nat; [discriminate|].
  destruct (pick_pair_exchanges m) as [[a|] [b|]]; try discriminate.
  destruct (PyStr.is_empty a || PyStr.is_empty b); [discriminate|].
  destruct (latest m a) as [mA|]; [|discriminate].
  destruct (latest m b) as [mB|]; [|discriminate].
  destruct (falsy_mid (Some mA) || falsy_mid (Some mB)); [discriminate|].
  destruct (PrimFloat.leb _ _) eqn:El; [discriminate|].
  rewrite (@pct_spread_guarded _ _ _ El) in H. cbn [bind] in H.
  rewrite window_spreads_spec in H. cbn [bind] in H.
  destruct (spread_stats _) as [[[avg std] n]|e'] eqn:Es.
  - cbn [bind] in H. rewrite zscore_of_spec in H. cbn [bind] in H.
    rewrite funding_mean_spec in H. discriminate.
  - cbn [bind] in H. inversion H; subst.
    eapply spread_stats_raises. exact Es.
Qed.

Lemma collect_items_raises (window : Z) (funding prices : ring)
  (acc : list item) (e : exn) :
  collect_items window funding prices acc = Raise e ->
  e = OverflowError \/ e = ValueError.
Proof.
  revert acc. induction prices as [|[sym m] prices IH]; intros acc H.
  - discriminate.
  - cbn [collect_items] in H.
    destruct (make_item window funding sym m) as [it|e'] eqn:E.
    + cbn [bind] in H. eapply IH. exact H.
    + cbn [bind] in H. inversion H; subst.
      eapply make_item_raises. exact E.
Qed.

Lemma window_of_raises (arg : option string) (e : exn) :
  window_of arg = Raise e -> e = ValueError.
Proof.
  destruct arg as [w|]; [|discriminate].
  unfold window_of, PyFloat.int_of_string.
  destruct (PyFloat.read_sign _) as [neg body].
  destruct (PyFloat.digitpart body) as [[|d ds] [|c rest]];
    try destruct (PyFloat.max_str_digits <? _)%nat;
    try discriminate; intros H; inversion H; reflexivity.
Qed.

(** A query fails only with [ValueError] (a window [int()] rejects, or a
    negative variance under [math.sqrt]) or [OverflowError] (a squared
    deviation out of range): the indices of the sample loop stay in range
    and no division has a zero divisor, so it never fails with
    [IndexError] or [ZeroDivisionError]. *)
Theorem api_data_failure_kinds (arg : option string) (updated : string)
  (s : store) (e : exn) (status : Z) :
  api_data arg updated s = (Failure e, status) ->
  e = ValueError \/ e = OverflowError.
Proof.
  unfold api_data, api_items.
  destruct (window_of arg) as [w|e'] eqn:Ew; cbn [bind try_except].
  - destruct (collect_items w (ring_funding s) (ring_prices s) []) as [c|e']
      eqn:Ec; cbn [bind try_except].
    + discriminate.
    + intros H. inversion H; subst.
      destruct (@collect_items_raises _ _ _ _ _ Ec); auto.
  - intros H. inversion H; subst. left. eapply window_of_raises. exact Ew.
Qed.

Lemma api_data_failure_kinds_witness :
  api_data (Some "1e3") "" steady = (Failure ValueError, 500%Z)
  /\ (ValueError = ValueError \/ ValueError = OverflowError).
Proof.
  assert (H : api_data (Some "1e3") "" steady = (Failure ValueError, 500%Z))
    by (vm_compute; reflexivity).
  split; [exact H|]. exact (@api_data_failure_kinds _ _ _ _ _ H).
Defined.

End QueryFailures.
